(** * Serverless marketplace backend: handlers over a document store

    A shallow embedding of the Lambda handlers of the backend (accounts,
    orders, catalog items, reviews, storefronts) and of the sample items
    function, together with the part of the JavaScript runtime and of the
    document-store client they rely on.

    Conventions of the embedding:
    - a JavaScript value is a term of [value]; a finite number is the
      rational it denotes (no rounding, no negative zero);
    - an [async] function is a computation in the monad [M]: it threads the
      store and either returns or throws;
    - the store is a family of tables, each a list of records; a command
      sent to the client either throws (the oracle [throws] of the
      invocation, or a request the client refuses to marshall) or is
      executed completely on the store; a query or a scan is answered in
      one page;
    - the token secret is configured and the same in every function, so
      signing does not throw. *)

From Stdlib Require Import List String Ascii Bool ZArith QArith Qround Qabs Lia.
From Stdlib Require Import Lqa DecimalString Permutation Sorted.
Import ListNotations.

Set Warnings "-register-all".

Local Open Scope string_scope.
Local Open Scope Z_scope.

(* ===================================================================== *)
(** ** JavaScript values *)
(* ===================================================================== *)

Module Js.

(** Numbers: a finite double is modelled by the rational it denotes. *)
Inductive num : Type :=
| Fin (q : Q)
| NaN
| PInf
| NInf.

(** Values that JSON.parse, the document client and the handlers exchange. *)
Inductive value : Type :=
| VUndefined
| VNull
| VBool (b : bool)
| VNum (n : num)
| VStr (s : string)
| VArr (elems : list value)
| VObj (fields : list (string * value)).

Definition obj : Type := list (string * value).

(** *** Objects *)

Fixpoint assoc {A : Type} (k : string) (l : list (string * A)) : option A :=
  match l with
  | [] => None
  | (k', v) :: l' => if String.eqb k k' then Some v else assoc k l'
  end.

(** [o.k] on an object literal or a record. *)
Definition prop (o : obj) (k : string) : value :=
  match assoc k o with
  | Some v => v
  | None => VUndefined
  end.

(** [v.k] for a value that is neither null nor undefined, for the property
    names the handlers read (none of them is a prototype property). *)
Definition get (v : value) (k : string) : value :=
  match v with
  | VObj o => prop o k
  | _ => VUndefined
  end.

(** [{ ...o, k: v }]: an existing key keeps its position. *)
Fixpoint set (k : string) (v : value) (o : obj) : obj :=
  match o with
  | [] => [(k, v)]
  | (k', v') :: o' =>
      if String.eqb k k' then (k', v) :: o' else (k', v') :: set k v o'
  end.

(** [const { k: _, ...rest } = o]. *)
Fixpoint omit (k : string) (o : obj) : obj :=
  match o with
  | [] => []
  | (k', v') :: o' =>
      if String.eqb k k' then omit k o' else (k', v') :: omit k o'
  end.

(** *** Numbers *)

Definition num_lt (a b : num) : bool :=
  match a, b with
  | NaN, _ | _, NaN => false
  | Fin x, Fin y => negb (Qle_bool y x)
  | NInf, NInf => false
  | NInf, _ => true
  | _, PInf => match a with PInf => false | _ => true end
  | _, _ => false
  end.

Definition num_le (a b : num) : bool :=
  match a, b with
  | NaN, _ | _, NaN => false
  | Fin x, Fin y => Qle_bool x y
  | NInf, _ => true
  | PInf, PInf => true
  | _, PInf => true
  | _, _ => false
  end.

Definition isNaN (a : num) : bool :=
  match a with NaN => true | _ => false end.

Definition num_neg (a : num) : num :=
  match a with
  | Fin q => Fin (- q)
  | NaN => NaN
  | PInf => NInf
  | NInf => PInf
  end.

Definition num_add (a b : num) : num :=
  match a, b with
  | NaN, _ | _, NaN => NaN
  | Fin x, Fin y => Fin (x + y)
  | PInf, NInf | NInf, PInf => NaN
  | PInf, _ | _, PInf => PInf
  | NInf, _ | _, NInf => NInf
  end.

Definition num_sub (a b : num) : num := num_add a (num_neg b).

Definition Qsgn (q : Q) : Z := Z.sgn (Qnum q).

Definition inf_of_sign (s : Z) : num :=
  if s =? 0 then NaN else if 0 <? s then PInf else NInf.

Definition num_sgn (a : num) : Z :=
  match a with
  | Fin q => Qsgn q
  | PInf => 1
  | NInf => -1
  | NaN => 0
  end.

Definition num_mul (a b : num) : num :=
  match a, b with
  | NaN, _ | _, NaN => NaN
  | Fin x, Fin y => Fin (x * y)
  | _, _ => inf_of_sign (num_sgn a * num_sgn b)
  end.

Definition num_div (a b : num) : num :=
  match a, b with
  | NaN, _ | _, NaN => NaN
  | Fin x, Fin y =>
      if Qeq_bool y 0 then inf_of_sign (Qsgn x) else Fin (x / y)
  | Fin _, _ => Fin 0
  | _, Fin y => inf_of_sign (num_sgn a * (if Qeq_bool y 0 then 1 else Qsgn y))
  | _, _ => NaN
  end.

(** [Math.round]: the nearest integer, halves towards plus infinity. *)
Definition Math_round (a : num) : num :=
  match a with
  | Fin q => Fin (inject_Z (Qfloor (q + (1 # 2))))
  | _ => a
  end.

(** *** Strings (ASCII) *)

Definition is_ws (c : ascii) : bool :=
  let n := nat_of_ascii c in
  ((9 <=? n) && (n <=? 13))%nat || (n =? 32)%nat.

Fixpoint trimStart (s : string) : string :=
  match s with
  | String c s' => if is_ws c then trimStart s' else s
  | EmptyString => EmptyString
  end.

Fixpoint trimEnd (s : string) : string :=
  match s with
  | String c s' =>
      match trimEnd s' with
      | EmptyString => if is_ws c then EmptyString else String c EmptyString
      | t => String c t
      end
  | EmptyString => EmptyString
  end.

Definition trim (s : string) : string := trimEnd (trimStart s).

Definition lower_ascii (c : ascii) : ascii :=
  let n := nat_of_ascii c in
  if ((65 <=? n) && (n <=? 90))%nat then ascii_of_nat (n + 32) else c.

Fixpoint toLowerCase (s : string) : string :=
  match s with
  | String c s' => String (lower_ascii c) (toLowerCase s')
  | EmptyString => EmptyString
  end.

Definition startsWith (s p : string) : bool := String.prefix p s.

(** [s.substring(n)]. *)
Fixpoint substring_from (n : nat) (s : string) : string :=
  match n, s with
  | O, _ => s
  | S n', String _ s' => substring_from n' s'
  | S _, EmptyString => EmptyString
  end.

Fixpoint includes (s sub : string) : bool :=
  String.prefix sub s ||
  match s with
  | String _ s' => includes s' sub
  | EmptyString => false
  end.

(** [s.split('/').pop()]: what follows the last slash. *)
Fixpoint split_pop (s : string) : string :=
  match s with
  | String c s' =>
      if includes s' "/" then split_pop s'
      else if Ascii.eqb c "/" then s' else s
  | EmptyString => EmptyString
  end.

(** *** Numeric literals in strings *)

Definition digit_val (c : ascii) : option Z :=
  let n := Z.of_nat (nat_of_ascii c) in
  if (48 <=? n) && (n <=? 57) then Some (n - 48)
  else if (97 <=? n) && (n <=? 122) then Some (n - 87)
  else if (65 <=? n) && (n <=? 90) then Some (n - 55)
  else None.

Definition digit_in (base : Z) (c : ascii) : option Z :=
  match digit_val c with
  | Some d => if d <? base then Some d else None
  | None => None
  end.

(** The longest prefix of digits: its value, its length, what follows. *)
Fixpoint read_digits (base acc : Z) (count : nat) (s : string)
  : Z * nat * string :=
  match s with
  | String c s' =>
      match digit_in base c with
      | Some d => read_digits base (acc * base + d) (S count) s'
      | None => (acc, count, s)
      end
  | EmptyString => (acc, count, s)
  end.

Definition pow10 (k : nat) : Q := inject_Z (10 ^ Z.of_nat k).

(** An optional sign. *)
Definition read_sign (s : string) : bool * string :=
  match s with
  | String "-" s' => (true, s')
  | String "+" s' => (false, s')
  | _ => (false, s)
  end.

Definition signed (neg : bool) (n : num) : num :=
  if neg then num_neg n else n.

(** The longest prefix that is an unsigned decimal literal
    (digits, fraction, exponent). *)
Definition read_decimal (s : string) : option (Q * string) :=
  let '(ip, ni, s1) := read_digits 10 0 0 s in
  let '(fp, nf, s2) :=
    match s1 with
    | String "." t => read_digits 10 0 0 t
    | _ => (0, 0%nat, s1)
    end in
  match (ni + nf)%nat with
  | O => None
  | _ =>
      let m := (inject_Z ip + inject_Z fp / pow10 nf)%Q in
      let with_exp (t : string) :=
        let '(neg, t1) := read_sign t in
        let '(e, ne, t2) := read_digits 10 0 0 t1 in
        match ne with
        | O => Some (m, s2)
        | _ =>
            Some ((if neg then m / pow10 (Z.to_nat e)
                   else m * pow10 (Z.to_nat e))%Q, t2)
        end in
      match s2 with
      | String "e" t => with_exp t
      | String "E" t => with_exp t
      | _ => Some (m, s2)
      end
  end.

Definition read_all_digits (base : Z) (s : string) : num :=
  match read_digits base 0 0 s with
  | (_, O, _) => NaN
  | (z, _, EmptyString) => Fin (inject_Z z)
  | _ => NaN
  end.

(** ToNumber applied to a string. *)
Definition StringToNumber (s : string) : num :=
  match trim s with
  | EmptyString => Fin 0
  | String "0" (String "x" t) | String "0" (String "X" t) => read_all_digits 16 t
  | String "0" (String "o" t) | String "0" (String "O" t) => read_all_digits 8 t
  | String "0" (String "b" t) | String "0" (String "B" t) => read_all_digits 2 t
  | t =>
      let '(neg, t1) := read_sign t in
      if String.eqb t1 "Infinity" then signed neg PInf
      else match read_decimal t1 with
           | Some (q, EmptyString) => signed neg (Fin q)
           | _ => NaN
           end
  end.

Definition parseFloat_string (s : string) : num :=
  let '(neg, t) := read_sign (trimStart s) in
  if startsWith t "Infinity" then signed neg PInf
  else match read_decimal t with
       | Some (q, _) => signed neg (Fin q)
       | None => NaN
       end.

(** [parseInt] without a radix. *)
Definition parseInt_string (s : string) : num :=
  let '(neg, t) := read_sign (trimStart s) in
  let '(base, t1) :=
    match t with
    | String "0" (String "x" u) | String "0" (String "X" u) => (16, u)
    | _ => (10, t)
    end in
  match read_digits base 0 0 t1 with
  | (_, O, _) => NaN
  | (z, _, _) => signed neg (Fin (inject_Z z))
  end.

(** *** The runtime's own functions

    Functions of the runtime and of the libraries the handlers call that are
    not defined by the handlers: they are taken as given.  [Number_toString]
    is Number::toString on finite numbers, [Date_time v] the time value of
    [new Date(v)], [bcrypt_hash password rounds salt] and [bcrypt_compare
    password hash] the password hashing, [jwt_sign] and [jwt_verify] the
    token primitives under the configured secret. *)
Class Runtime : Type := {
  Number_toString : Q -> string;
  Date_time : value -> num;
  bcrypt_hash : string -> nat -> string -> string;
  bcrypt_compare : string -> string -> bool;
  jwt_sign : obj -> string;
  jwt_verify : string -> option value
}.

(** What the libraries promise: a password matches its own hash, and a token
    signed for string claims verifies to a payload carrying those claims. *)
Class RuntimeLaws (R : Runtime) : Prop := {
  bcrypt_compare_hash :
    forall p rounds salt, bcrypt_compare p (bcrypt_hash p rounds salt) = true;
  jwt_verify_sign :
    forall u e r : string,
      exists d,
        jwt_verify (jwt_sign [("userId", VStr u); ("email", VStr e);
                              ("role", VStr r)]) = Some d /\
        get d "userId" = VStr u /\ get d "email" = VStr e /\
        get d "role" = VStr r
}.

Section Coercions.

Context {R : Runtime}.

Definition num_to_string (n : num) : string :=
  match n with
  | Fin q => Number_toString q
  | NaN => "NaN"
  | PInf => "Infinity"
  | NInf => "-Infinity"
  end.

(** ToString; an array is joined with commas, null and undefined elements
    being empty. *)
Fixpoint ToString (v : value) : string :=
  match v with
  | VUndefined => "undefined"
  | VNull => "null"
  | VBool true => "true"
  | VBool false => "false"
  | VNum n => num_to_string n
  | VStr s => s
  | VArr l =>
      (fix join (l : list value) : string :=
         match l with
         | [] => EmptyString
         | x :: l' =>
             match x with
             | VUndefined | VNull => EmptyString
             | _ => ToString x
             end ++
             match l' with
             | [] => EmptyString
             | _ => "," ++ join l'
             end
         end) l
  | VObj _ => "[object Object]"
  end.

Definition ToPrimitive (v : value) : value :=
  match v with
  | VArr _ | VObj _ => VStr (ToString v)
  | _ => v
  end.

Definition ToNumber (v : value) : num :=
  match v with
  | VUndefined => NaN
  | VNull => Fin 0
  | VBool true => Fin 1
  | VBool false => Fin 0
  | VNum n => n
  | VStr s => StringToNumber s
  | VArr _ | VObj _ => StringToNumber (ToString v)
  end.

(** [!!v]. *)
Definition truthy (v : value) : bool :=
  match v with
  | VUndefined | VNull => false
  | VBool b => b
  | VNum (Fin q) => negb (Qeq_bool q 0)
  | VNum NaN => false
  | VNum _ => true
  | VStr s => negb (String.eqb s EmptyString)
  | VArr _ | VObj _ => true
  end.

(** [v === undefined] and [v === 'literal']. *)
Definition is_undefined (v : value) : bool :=
  match v with VUndefined => true | _ => false end.

Definition is_string (v : value) (lit : string) : bool :=
  match v with VStr s => String.eqb s lit | _ => false end.

(** [v < q], [v > q], [v <= q] against a number literal. *)
Definition lt_lit (v : value) (q : Q) : bool := num_lt (ToNumber v) (Fin q).
Definition gt_lit (v : value) (q : Q) : bool := num_lt (Fin q) (ToNumber v).
Definition le_lit (v : value) (q : Q) : bool := num_le (ToNumber v) (Fin q).

(** [a + b]. *)
Definition js_add (a b : value) : value :=
  match ToPrimitive a, ToPrimitive b with
  | VStr s, pb => VStr (s ++ ToString pb)
  | pa, VStr s => VStr (ToString pa ++ s)
  | pa, pb => VNum (num_add (ToNumber pa) (ToNumber pb))
  end.

(** [a / b] and [a * b]. *)
Definition js_div (a b : value) : value := VNum (num_div (ToNumber a) (ToNumber b)).
Definition js_mul (a b : value) : value := VNum (num_mul (ToNumber a) (ToNumber b)).

(** [v.length]. *)
Definition js_length (v : value) : value :=
  match v with
  | VStr s => VNum (Fin (inject_Z (Z.of_nat (String.length s))))
  | VArr l => VNum (Fin (inject_Z (Z.of_nat (List.length l))))
  | _ => get v "length"
  end.

(** The integer part, towards zero. *)
Definition Qtruncate (q : Q) : Z := Z.quot (Qnum q) (Zpos (Qden q)).

(** A number whose decimal form has no exponent: below 1e21 and, unless it
    is zero, at least 1e-6. *)
Definition positional (q : Q) : bool :=
  Qeq_bool q 0 ||
  (Qle_bool (1 # 1000000) (Qabs q) && negb (Qle_bool (pow10 21) (Qabs q))).

(** [parseFloat(v)] is [parseFloat] of [ToString v]; a number is read back
    from its own decimal form. *)
Definition parseFloat (v : value) : num :=
  match v with
  | VNum n => n
  | _ => parseFloat_string (ToString v)
  end.

(** [parseInt(v)] is [parseInt] of [ToString v]; of the decimal form of a
    number without exponent it reads the integer part. *)
Definition parseInt (v : value) : num :=
  match v with
  | VNum (Fin q) =>
      if positional q then Fin (inject_Z (Qtruncate q))
      else parseInt_string (Number_toString q)
  | _ => parseInt_string (ToString v)
  end.

End Coercions.

End Js.

Import Js.

(* ===================================================================== *)
(** ** The document store and its client *)
(* ===================================================================== *)

(** The tables the handlers name through their environment variables. *)
Inductive table : Type :=
| USERS_TABLE
| STOREFRONTS_TABLE
| ITEMS_TABLE
| REVIEWS_TABLE
| ORDERS_TABLE.

Definition table_eqb (a b : table) : bool :=
  match a, b with
  | USERS_TABLE, USERS_TABLE
  | STOREFRONTS_TABLE, STOREFRONTS_TABLE
  | ITEMS_TABLE, ITEMS_TABLE
  | REVIEWS_TABLE, REVIEWS_TABLE
  | ORDERS_TABLE, ORDERS_TABLE => true
  | _, _ => false
  end.

(** The partition key of each table: the attribute the handlers pass as
    [Key] (users, storefronts, items) or generate as the record's
    identifier (reviews, orders). *)
Definition key_attr (t : table) : string :=
  match t with
  | USERS_TABLE => "userId"
  | STOREFRONTS_TABLE => "storeId"
  | ITEMS_TABLE => "id"
  | REVIEWS_TABLE => "reviewId"
  | ORDERS_TABLE => "orderId"
  end.

Definition store : Type := table -> list obj.

Definition write_table (t : table) (rows : list obj) (st : store) : store :=
  fun t' => if table_eqb t t' then rows else st t'.

(** Equality of attribute values as the store compares them. *)
Definition num_eqb (a b : num) : bool :=
  match a, b with
  | Fin x, Fin y => Qeq_bool x y
  | NaN, NaN | PInf, PInf | NInf, NInf => true
  | _, _ => false
  end.

Fixpoint value_eqb (a b : value) : bool :=
  match a, b with
  | VUndefined, VUndefined | VNull, VNull => true
  | VBool x, VBool y => Bool.eqb x y
  | VNum x, VNum y => num_eqb x y
  | VStr x, VStr y => String.eqb x y
  | VArr x, VArr y =>
      (fix all2 (l1 l2 : list value) : bool :=
         match l1, l2 with
         | [], [] => true
         | u :: l1', w :: l2' => value_eqb u w && all2 l1' l2'
         | _, _ => false
         end) x y
  | VObj x, VObj y =>
      (fix all2 (l1 l2 : list (string * value)) : bool :=
         match l1, l2 with
         | [], [] => true
         | (k, u) :: l1', (k', w) :: l2' =>
             String.eqb k k' && value_eqb u w && all2 l1' l2'
         | _, _ => false
         end) x y
  | _, _ => false
  end.

(** The document client refuses to marshall [undefined] and the special
    numeric values, wherever they occur in a request. *)
Fixpoint marshall_error (v : value) : option string :=
  match v with
  | VUndefined =>
      Some "Pass options.removeUndefinedValues=true to remove undefined values from map/array/set."
  | VNum NaN => Some "Special numeric value NaN is not allowed"
  | VNum PInf => Some "Special numeric value Infinity is not allowed"
  | VNum NInf => Some "Special numeric value -Infinity is not allowed"
  | VArr l =>
      (fix first (l : list value) : option string :=
         match l with
         | [] => None
         | x :: l' =>
             match marshall_error x with
             | Some m => Some m
             | None => first l'
             end
         end) l
  | VObj o =>
      (fix first (l : list (string * value)) : option string :=
         match l with
         | [] => None
         | (_, x) :: l' =>
             match marshall_error x with
             | Some m => Some m
             | None => first l'
             end
         end) o
  | _ => None
  end.

(** Condition expressions: [name = :placeholder] and conjunctions. *)
Inductive expr : Type :=
| Equals (name placeholder : string)
| And (a b : expr).

(** [a = v] on a record: the attribute is present and equal. *)
Definition attr_is (a : string) (v : value) (r : obj) : bool :=
  match assoc a r with
  | Some w => value_eqb w v
  | None => false
  end.

Definition resolve_name (names : list (string * string)) (n : string)
  : option string :=
  if startsWith n "#" then assoc n names else Some n.

Fixpoint compile (names : list (string * string)) (values : obj) (e : expr)
  : option (obj -> bool) :=
  match e with
  | Equals n p =>
      match resolve_name names n, assoc p values with
      | Some a, Some v => Some (attr_is a v)
      | _, _ => None
      end
  | And a b =>
      match compile names values a, compile names values b with
      | Some f, Some g => Some (fun r => f r && g r)
      | _, _ => None
      end
  end.

Record QueryInput : Type := {
  q_TableName : table;
  q_IndexName : string;
  q_KeyConditionExpression : expr;
  q_FilterExpression : option expr;
  q_ExpressionAttributeNames : list (string * string);
  q_ExpressionAttributeValues : obj;
  q_Limit : option nat
}.

Record ScanInput : Type := {
  s_TableName : table;
  s_FilterExpression : option expr;
  s_ExpressionAttributeNames : list (string * string);
  s_ExpressionAttributeValues : obj
}.

Record GetInput : Type := {
  g_TableName : table;
  g_Key : obj
}.

Record PutInput : Type := {
  p_TableName : table;
  p_Item : obj
}.

(** [UpdateExpression: 'SET attr = :placeholder']. *)
Record UpdateInput : Type := {
  u_TableName : table;
  u_Key : obj;
  u_SET : string * string;
  u_ExpressionAttributeValues : obj
}.

Inductive command : Type :=
| QueryCommand (i : QueryInput)
| ScanCommand (i : ScanInput)
| GetCommand (i : GetInput)
| PutCommand (i : PutInput)
| UpdateCommand (i : UpdateInput).

(** *** What a command does when the store executes it

    [inl message] is a request refused before it reaches the tables. *)

Definition compile_opt (names : list (string * string)) (values : obj)
  (e : option expr) : option (obj -> bool) :=
  match e with
  | None => Some (fun _ => true)
  | Some e' => compile names values e'
  end.

Definition take_opt {A : Type} (n : option nat) (l : list A) : list A :=
  match n with
  | Some k => firstn k l
  | None => l
  end.

Definition validation : string := "ValidationException".

(** A query reads, in table order, the records whose indexed attribute
    satisfies the key condition, at most [Limit] of them, and then applies
    the filter. *)
Definition exec_query (st : store) (i : QueryInput) : string + list obj :=
  match marshall_error (VObj (q_ExpressionAttributeValues i)) with
  | Some m => inl m
  | None =>
      match compile (q_ExpressionAttributeNames i) (q_ExpressionAttributeValues i)
              (q_KeyConditionExpression i),
            compile_opt (q_ExpressionAttributeNames i)
              (q_ExpressionAttributeValues i) (q_FilterExpression i) with
      | Some key, Some flt =>
          inr (filter flt (take_opt (q_Limit i) (filter key (st (q_TableName i)))))
      | _, _ => inl validation
      end
  end.

(** A scan reads every record of the table and applies the filter. *)
Definition exec_scan (st : store) (i : ScanInput) : string + list obj :=
  match marshall_error (VObj (s_ExpressionAttributeValues i)) with
  | Some m => inl m
  | None =>
      match compile_opt (s_ExpressionAttributeNames i)
              (s_ExpressionAttributeValues i) (s_FilterExpression i) with
      | Some flt => inr (filter flt (st (s_TableName i)))
      | None => inl validation
      end
  end.

Definition has_key (key : obj) (r : obj) : bool :=
  forallb (fun kv => attr_is (fst kv) (snd kv) r) key.

Definition exec_get (st : store) (i : GetInput) : string + option obj :=
  match marshall_error (VObj (g_Key i)) with
  | Some m => inl m
  | None => inr (find (has_key (g_Key i)) (st (g_TableName i)))
  end.

(** Replace the first record that satisfies [same], or append. *)
Fixpoint upsert (same : obj -> bool) (change : option obj -> obj)
  (rows : list obj) : list obj :=
  match rows with
  | [] => [change None]
  | r :: rows' =>
      if same r then change (Some r) :: rows'
      else r :: upsert same change rows'
  end.

(** A put replaces the record that has the item's partition key, or adds
    the item. *)
Definition exec_put (st : store) (i : PutInput) : string + store :=
  match marshall_error (VObj (p_Item i)) with
  | Some m => inl m
  | None =>
      let t := p_TableName i in
      match assoc (key_attr t) (p_Item i) with
      | None => inl validation
      | Some k =>
          inr (write_table t
                 (upsert (has_key [(key_attr t, k)]) (fun _ => p_Item i) (st t))
                 st)
      end
  end.

(** An update sets one attribute of the record with the given key, creating
    the record when there is none. *)
Definition exec_update (st : store) (i : UpdateInput) : string + store :=
  match marshall_error (VObj (u_Key i)),
        marshall_error (VObj (u_ExpressionAttributeValues i)) with
  | Some m, _ | None, Some m => inl m
  | None, None =>
      let t := u_TableName i in
      match assoc (snd (u_SET i)) (u_ExpressionAttributeValues i) with
      | None => inl validation
      | Some v =>
          inr (write_table t
                 (upsert (has_key (u_Key i))
                    (fun old => match old with
                                | Some r => set (fst (u_SET i)) v r
                                | None => set (fst (u_SET i)) v (u_Key i)
                                end) (st t))
                 st)
      end
  end.

(* ===================================================================== *)
(** ** Computations *)
(* ===================================================================== *)

(** The outcome of an [await]: a value, or a thrown error with its
    message. *)
Inductive res (A : Type) : Type :=
| Ok (a : A)
| Err (message : string).

Arguments Ok {A} a.
Arguments Err {A} message.

Definition M (A : Type) : Type := store -> res A * store.

Definition ret {A : Type} (a : A) : M A := fun st => (Ok a, st).

Definition throw {A : Type} (message : string) : M A :=
  fun st => (Err message, st).

Definition bind {A B : Type} (m : M A) (k : A -> M B) : M B :=
  fun st =>
    match m st with
    | (Ok a, st') => k a st'
    | (Err e, st') => (Err e, st')
    end.

(** [try { m } catch (error) { h error }]: what [m] wrote before throwing
    stays written. *)
Definition try_catch {A : Type} (m : M A) (h : string -> M A) : M A :=
  fun st =>
    match m st with
    | (Ok a, st') => (Ok a, st')
    | (Err e, st') => h e st'
    end.

Declare Scope js_scope.
Delimit Scope js_scope with js.
Notation "x <- m ;; k" := (bind m (fun x => k))
  (at level 100, m at next level, right associativity) : js_scope.
Notation "m ;;; k" := (bind m (fun _ => k))
  (at level 100, right associativity) : js_scope.
Local Open Scope js_scope.

Fixpoint mapM {A B : Type} (f : A -> M B) (l : list A) : M (list B) :=
  match l with
  | [] => ret []
  | x :: l' => y <- f x ;; ys <- mapM f l' ;; ret (y :: ys)
  end.

(** What varies from one invocation to the next: which commands the client
    fails (with which message), the identifier [uuidv4()] draws, the
    readings of the clock, the salt of the password hash, and whether
    [NODE_ENV] is [production]. *)
Record env : Type := {
  throws : command -> option string;
  uuid : string;
  clock : nat -> string;
  salt : string;
  production : bool
}.

Section Client.

Variable e : env.

Definition send_read {A : Type} (c : command) (exec : store -> string + A)
  : M A :=
  fun st =>
    match throws e c with
    | Some m => (Err m, st)
    | None =>
        match exec st with
        | inl m => (Err m, st)
        | inr a => (Ok a, st)
        end
    end.

Definition send_write (c : command) (exec : store -> string + store)
  : M unit :=
  fun st =>
    match throws e c with
    | Some m => (Err m, st)
    | None =>
        match exec st with
        | inl m => (Err m, st)
        | inr st' => (Ok tt, st')
        end
    end.

(** [docClient.send(new QueryCommand(i))] and the like; the reads give
    [result.Items || []] and [result.Item]. *)
Definition send_query (i : QueryInput) : M (list obj) :=
  send_read (QueryCommand i) (fun st => exec_query st i).

Definition send_scan (i : ScanInput) : M (list obj) :=
  send_read (ScanCommand i) (fun st => exec_scan st i).

Definition send_get (i : GetInput) : M (option obj) :=
  send_read (GetCommand i) (fun st => exec_get st i).

Definition send_put (i : PutInput) : M unit :=
  send_write (PutCommand i) (fun st => exec_put st i).

Definition send_update (i : UpdateInput) : M unit :=
  send_write (UpdateCommand i) (fun st => exec_update st i).

End Client.

(* ===================================================================== *)
(** ** Requests and responses *)
(* ===================================================================== *)

(** [event.body]: its text is identified with the JSON document it
    denotes.  [NoBody] is a missing or empty body, for which the handlers
    parse ['{}']; [BadJson] is a text [JSON.parse] rejects. *)
Inductive payload : Type :=
| NoBody
| BadJson (message : string)
| Json (v : value).

Record event : Type := {
  httpMethod : option string;
  requestContext_httpMethod : option string;
  requestContext_http_method : option string;
  path : option string;
  requestContext_path : option string;
  rawPath : option string;
  requestContext_http_path : option string;
  headers_Authorization : option string;
  headers_authorization : option string;
  queryStringParameters : option (list (string * string));
  pathParameters : option (list (string * string));
  event_body : payload
}.

Record response : Type := {
  statusCode : Z;
  headers : list (string * string);
  body : value
}.

Definition corsHeaders : list (string * string) :=
  [("Access-Control-Allow-Origin", "*");
   ("Access-Control-Allow-Headers", "Content-Type,Authorization,X-Requested-With");
   ("Access-Control-Allow-Methods", "GET,POST,PUT,DELETE,OPTIONS");
   ("Access-Control-Max-Age", "86400")].

(** The body is kept as the object handed to [JSON.stringify]. *)
Definition sendResponse (statusCode : Z) (body : obj) : response :=
  {| statusCode := statusCode; headers := corsHeaders; body := VObj body |}.

(** [a || b || ... || default] over optional strings. *)
Fixpoint first_truthy (l : list (option string)) (default : string) : string :=
  match l with
  | [] => default
  | Some s :: l' => if String.eqb s EmptyString then first_truthy l' default else s
  | None :: l' => first_truthy l' default
  end.

(** [JSON.parse(event.body || '{}')]. *)
Definition parse_body (ev : event) : M value :=
  match event_body ev with
  | NoBody => ret (VObj [])
  | BadJson m => throw m
  | Json v => ret v
  end.

(** [const { ... } = body] throws when the document is [null]. *)
Definition destructure (v : value) : M unit :=
  match v with
  | VNull | VUndefined =>
      throw "Cannot destructure property of 'body' as it is null."
  | _ => ret tt
  end.

(** [v.k] where [v] may be null. *)
Definition member (v : value) (k : string) : M value :=
  match v with
  | VNull | VUndefined => throw ("Cannot read properties of null (reading '" ++ k ++ "')")
  | _ => ret (get v k)
  end.

(** [s.toLowerCase()] and [s.trim()] exist on strings only. *)
Definition call_toLowerCase (what : string) (v : value) : M string :=
  match v with
  | VStr s => ret (toLowerCase s)
  | _ => throw (what ++ ".toLowerCase is not a function")
  end.

Definition call_trim (what : string) (v : value) : M string :=
  match v with
  | VStr s => ret (trim s)
  | _ => throw (what ++ ".trim is not a function")
  end.

Definition typeof (v : value) : string :=
  match v with
  | VUndefined => "undefined"
  | VNull | VArr _ | VObj _ => "object"
  | VBool _ => "boolean"
  | VNum _ => "number"
  | VStr _ => "string"
  end.

(** [{ ...v }]: the own enumerable properties of a value. *)
Definition index_name (i : nat) : string :=
  NilEmpty.string_of_uint (Nat.to_uint i).

Fixpoint indexed {A : Type} (f : A -> value) (i : nat) (l : list A) : obj :=
  match l with
  | [] => []
  | x :: l' => (index_name i, f x) :: indexed f (S i) l'
  end.

Definition spread (v : value) : obj :=
  match v with
  | VObj o => o
  | VArr l => indexed (fun x => x) 0 l
  | VStr s => indexed (fun c => VStr (String c EmptyString)) 0 (list_ascii_of_string s)
  | _ => []
  end.

Definition option_value (o : option obj) : value :=
  match o with
  | Some r => VObj r
  | None => VNull
  end.

Definition query_param (ev : event) (k : string) : option string :=
  match queryStringParameters ev with
  | Some ps => assoc k ps
  | None => None
  end.

Definition error_body (message : string) : obj := [("error", VStr message)].

Definition unauthorized : response :=
  sendResponse 401 (error_body "Unauthorized: Invalid or missing token").

Definition preflight : response :=
  sendResponse 200 [("message", VStr "CORS preflight successful")].

(** The [catch] of every entry point: [error.message || 'Internal server
    error']. *)
Definition internal_error (message : string) : M response :=
  ret (sendResponse 500
         (error_body (if String.eqb message EmptyString then "Internal server error"
                      else message))).

Section Handlers.

Context {R : Runtime}.
Variable e : env.

(** [verifyToken(event)]: the decoded payload, or [null]. *)
Definition verifyToken (ev : event) : value :=
  match first_truthy [headers_Authorization ev; headers_authorization ev] EmptyString with
  | EmptyString => VNull
  | authHeader =>
      if startsWith authHeader "Bearer " then
        match jwt_verify (substring_from 7 authHeader) with
        | Some decoded => decoded
        | None => VNull
        end
      else VNull
  end.

(* --------------------------------------------------------------------- *)
(** *** Orders *)
(* --------------------------------------------------------------------- *)

Definition getOrders_query (userId : value) : QueryInput :=
  {| q_TableName := ORDERS_TABLE;
     q_IndexName := "UserIdIndex";
     q_KeyConditionExpression := Equals "userId" ":userId";
     q_FilterExpression := None;
     q_ExpressionAttributeNames := [];
     q_ExpressionAttributeValues := [(":userId", userId)];
     q_Limit := None |}.

Definition getOrders_scan (userId : value) : ScanInput :=
  {| s_TableName := ORDERS_TABLE;
     s_FilterExpression := Some (Equals "userId" ":userId");
     s_ExpressionAttributeNames := [];
     s_ExpressionAttributeValues := [(":userId", userId)] |}.

(** One line of an order with the catalog item it names, or [null] when the
    item cannot be fetched.  The [catch] logs [item.itemId] before it
    returns, so it throws in its turn when the line itself is [null]. *)
Definition enrich_item (item : value) : M value :=
  try_catch
    (itemId <- member item "itemId" ;;
     itemResult <- send_get e {| g_TableName := ITEMS_TABLE;
                                 g_Key := [("id", itemId)] |} ;;
     ret (VObj (set "itemDetails" (option_value itemResult) (spread item))))
    (fun _ =>
       member item "itemId" ;;;
       ret (VObj (set "itemDetails" VNull (spread item)))).

Definition enrich_order (order : obj) : M value :=
  match prop order "items" with
  | VArr items =>
      enrichedItems <- mapM enrich_item items ;;
      ret (VObj (set "items" (VArr enrichedItems) order))
  | _ => ret (VObj order)
  end.

Definition handleGetOrders (ev : event) : M response :=
  let decoded := verifyToken ev in
  if negb (truthy decoded) then ret unauthorized
  else
    let userId := get decoded "userId" in
    try_catch
      (orders <- try_catch (send_query e (getOrders_query userId))
                   (fun _ => send_scan e (getOrders_scan userId)) ;;
       enrichedOrders <- mapM enrich_order orders ;;
       ret (sendResponse 200 [("orders", VArr enrichedOrders)]))
      (fun _ => ret (sendResponse 500 (error_body "Failed to get orders"))).

(** The record [handleCreateOrder] builds. *)
Definition new_order (userId items shippingAddress total : value) : obj :=
  [("orderId", VStr (uuid e));
   ("userId", userId);
   ("items", items);
   ("shippingAddress", shippingAddress);
   ("total", VNum (parseFloat total));
   ("status", VStr "pending");
   ("createdAt", VStr (clock e 0));
   ("updatedAt", VStr (clock e 1))].

Definition handleCreateOrder (ev : event) : M response :=
  let decoded := verifyToken ev in
  if negb (truthy decoded) then ret unauthorized
  else
    let userId := get decoded "userId" in
    body <- parse_body ev ;;
    destructure body ;;;
    let items := get body "items" in
    let shippingAddress := get body "shippingAddress" in
    let total := get body "total" in
    if negb (truthy items)
       || negb (match items with VArr _ => true | _ => false end)
       || match items with VArr [] => true | _ => false end
    then ret (sendResponse 400 (error_body "Items array is required and cannot be empty"))
    else if negb (truthy shippingAddress)
    then ret (sendResponse 400 (error_body "Shipping address is required"))
    else if is_undefined total || le_lit total 0
    then ret (sendResponse 400 (error_body "Total must be a positive number"))
    else
      let order := new_order userId items shippingAddress total in
      try_catch
        (send_put e {| p_TableName := ORDERS_TABLE; p_Item := order |} ;;;
         ret (sendResponse 201 [("message", VStr "Order created successfully");
                                ("order", VObj order)]))
        (fun _ => ret (sendResponse 500 (error_body "Failed to create order"))).

(** The entry point of the orders function. *)
Definition orders_handler (ev : event) : M response :=
  let method := first_truthy [httpMethod ev; requestContext_httpMethod ev] EmptyString in
  if String.eqb method "OPTIONS" then ret preflight
  else
    let httpMethod := first_truthy [httpMethod ev; requestContext_httpMethod ev] "GET" in
    try_catch
      (if String.eqb httpMethod "GET" then handleGetOrders ev
       else if String.eqb httpMethod "POST" then handleCreateOrder ev
       else ret (sendResponse 405 (error_body "Method not allowed")))
      internal_error.

(* --------------------------------------------------------------------- *)
(** *** Catalog items *)
(* --------------------------------------------------------------------- *)

Definition default_item_image : string :=
  "https://images.unsplash.com/photo-1441986300917-64674bd600d8?auto=format&fit=crop&w=800&q=80".

Definition getItems_query (storeId : value) : QueryInput :=
  {| q_TableName := ITEMS_TABLE;
     q_IndexName := "StoreIdIndex";
     q_KeyConditionExpression := Equals "storeId" ":storeId";
     q_FilterExpression := None;
     q_ExpressionAttributeNames := [];
     q_ExpressionAttributeValues := [(":storeId", storeId)];
     q_Limit := None |}.

Definition getItems_scan (storeId : value) : ScanInput :=
  {| s_TableName := ITEMS_TABLE;
     s_FilterExpression := Some (Equals "storeId" ":storeId");
     s_ExpressionAttributeNames := [];
     s_ExpressionAttributeValues := [(":storeId", storeId)] |}.

(** The record [handleAddItem] builds from the request and the parsed
    price. *)
Definition new_item (body : value) (priceNum : num) : obj :=
  [("id", VStr (uuid e));
   ("storeId", get body "storeId");
   ("name", get body "name");
   ("description", get body "description");
   ("price", VNum priceNum);
   ("category", get body "category");
   ("image", if truthy (get body "image") then get body "image"
             else VStr default_item_image);
   ("averageRating", VNum (Fin 0));
   ("reviews", VArr []);
   ("createdAt", VStr (clock e 0));
   ("updatedAt", VStr (clock e 1))].

Definition handleAddItem (ev : event) : M response :=
  body <- parse_body ev ;;
  destructure body ;;;
  let name := get body "name" in
  let description := get body "description" in
  let price := get body "price" in
  let category := get body "category" in
  let storeId := get body "storeId" in
  if negb (truthy name) || negb (truthy description) || is_undefined price
     || negb (truthy category) || negb (truthy storeId)
  then ret (sendResponse 400
              (error_body "Missing required fields: name, description, price, category, storeId"))
  else
    let priceNum := parseFloat price in
    if isNaN priceNum || num_lt priceNum (Fin 0)
    then ret (sendResponse 400 (error_body "Price must be a valid positive number"))
    else
      let item := new_item body priceNum in
      try_catch
        (send_put e {| p_TableName := ITEMS_TABLE; p_Item := item |} ;;;
         ret (sendResponse 201 [("message", VStr "Item added successfully");
                                ("item", VObj item)]))
        (fun _ => ret (sendResponse 500 (error_body "Failed to add item"))).

Definition handleGetItems (ev : event) : M response :=
  match query_param ev "storeId" with
  | None | Some EmptyString =>
      ret (sendResponse 400 (error_body "Missing required query parameter: storeId"))
  | Some storeId =>
      try_catch
        (items <- try_catch (send_query e (getItems_query (VStr storeId)))
                    (fun _ => send_scan e (getItems_scan (VStr storeId))) ;;
         ret (sendResponse 200 [("items", VArr (map VObj items))]))
        (fun message =>
           ret (sendResponse 500 (error_body ("Failed to get items: " ++ message))))
  end.

(** The entry point of the items function. *)
Definition items_handler (ev : event) : M response :=
  let candidates := [httpMethod ev; requestContext_httpMethod ev;
                     requestContext_http_method ev] in
  if String.eqb (first_truthy candidates EmptyString) "OPTIONS" then ret preflight
  else
    let httpMethod := first_truthy candidates "GET" in
    try_catch
      (if String.eqb httpMethod "POST" then handleAddItem ev
       else if String.eqb httpMethod "GET" then handleGetItems ev
       else ret (sendResponse 405 (error_body "Method not allowed")))
      internal_error.

(* --------------------------------------------------------------------- *)
(** *** Reviews *)
(* --------------------------------------------------------------------- *)

Definition getReviews_query (itemId : value) : QueryInput :=
  {| q_TableName := REVIEWS_TABLE;
     q_IndexName := "ItemIdIndex";
     q_KeyConditionExpression := Equals "itemId" ":itemId";
     q_FilterExpression := None;
     q_ExpressionAttributeNames := [];
     q_ExpressionAttributeValues := [(":itemId", itemId)];
     q_Limit := None |}.

Definition getReviews_scan (itemId : value) : ScanInput :=
  {| s_TableName := REVIEWS_TABLE;
     s_FilterExpression := Some (Equals "itemId" ":itemId");
     s_ExpressionAttributeNames := [];
     s_ExpressionAttributeValues := [(":itemId", itemId)] |}.

Definition createReview_query (itemId userId : value) : QueryInput :=
  {| q_TableName := REVIEWS_TABLE;
     q_IndexName := "ItemIdIndex";
     q_KeyConditionExpression := Equals "itemId" ":itemId";
     q_FilterExpression := Some (Equals "userId" ":userId");
     q_ExpressionAttributeNames := [];
     q_ExpressionAttributeValues := [(":itemId", itemId); (":userId", userId)];
     q_Limit := None |}.

Definition createReview_scan (itemId userId : value) : ScanInput :=
  {| s_TableName := REVIEWS_TABLE;
     s_FilterExpression :=
       Some (And (Equals "itemId" ":itemId") (Equals "userId" ":userId"));
     s_ExpressionAttributeNames := [];
     s_ExpressionAttributeValues := [(":itemId", itemId); (":userId", userId)] |}.

(** [l.sort(cmp)]: [x] moves behind [y] when [cmp(x, y) > 0] and equal
    elements keep their order, which is the result of any stable sort when
    the comparison is consistent. *)
Fixpoint sort_insert {A : Type} (cmp : A -> A -> num) (x : A) (l : list A)
  : list A :=
  match l with
  | [] => [x]
  | y :: l' =>
      if num_lt (Fin 0) (cmp x y) then y :: sort_insert cmp x l' else x :: l
  end.

Definition js_sort {A : Type} (cmp : A -> A -> num) (l : list A) : list A :=
  fold_right (sort_insert cmp) [] l.

(** [(a, b) => new Date(b.createdAt) - new Date(a.createdAt)]. *)
Definition newest_first (a b : obj) : num :=
  num_sub (Date_time (prop b "createdAt")) (Date_time (prop a "createdAt")).

(** The rating fields that are not [undefined]. *)
Definition ratings_of (reviews : list obj) : list value :=
  filter (fun r => negb (is_undefined r))
    (map (fun review => prop review "rating") reviews).

(** [ratings.length > 0 ? ratings.reduce((sum, r) => sum + r, 0) /
    ratings.length : 0]. *)
Definition averageRating (reviews : list obj) : value :=
  let ratings := ratings_of reviews in
  match ratings with
  | [] => VNum (Fin 0)
  | _ =>
      js_div (fold_left js_add ratings (VNum (Fin 0)))
        (VNum (Fin (inject_Z (Z.of_nat (List.length ratings)))))
  end.

(** [Math.round(averageRating * 10) / 10]. *)
Definition round_to_tenth (v : value) : value :=
  VNum (num_div (Math_round (ToNumber (js_mul v (VNum (Fin 10))))) (Fin 10)).

Definition handleGetReviews (ev : event) : M response :=
  match query_param ev "itemId" with
  | None | Some EmptyString =>
      ret (sendResponse 400 (error_body "itemId query parameter is required"))
  | Some itemId =>
      try_catch
        (itemResult <- send_get e {| g_TableName := ITEMS_TABLE;
                                     g_Key := [("id", VStr itemId)] |} ;;
         match itemResult with
         | None => ret (sendResponse 404 (error_body "Item not found"))
         | Some _ =>
             result <- try_catch (send_query e (getReviews_query (VStr itemId)))
                         (fun _ => send_scan e (getReviews_scan (VStr itemId))) ;;
             let reviews := js_sort newest_first result in
             ret (sendResponse 200
                    [("reviews", VArr (map VObj reviews));
                     ("averageRating", round_to_tenth (averageRating reviews));
                     ("totalReviews",
                      VNum (Fin (inject_Z (Z.of_nat (List.length reviews)))))])
         end)
        (fun _ => ret (sendResponse 500 (error_body "Failed to get reviews")))
  end.

(** The record [handleCreateReview] builds; [trimmed] is
    [comment.trim()]. *)
Definition new_review (itemId userId rating : value) (trimmed : string) : obj :=
  [("reviewId", VStr (uuid e));
   ("itemId", itemId);
   ("userId", userId);
   ("rating", VNum (parseInt rating));
   ("comment", VStr trimmed);
   ("createdAt", VStr (clock e 0));
   ("updatedAt", VStr (clock e 1))].

Definition handleCreateReview (ev : event) : M response :=
  let decoded := verifyToken ev in
  if negb (truthy decoded) then ret unauthorized
  else
    let userId := get decoded "userId" in
    body <- parse_body ev ;;
    destructure body ;;;
    let itemId := get body "itemId" in
    let rating := get body "rating" in
    let comment := get body "comment" in
    if negb (truthy itemId)
    then ret (sendResponse 400 (error_body "itemId is required"))
    else if is_undefined rating || lt_lit rating 1 || gt_lit rating 5
    then ret (sendResponse 400
                (error_body "rating is required and must be between 1 and 5"))
    else if negb (truthy comment)
    then ret (sendResponse 400 (error_body "comment is required"))
    else
      trimmed <- call_trim "comment" comment ;;
      if String.eqb trimmed EmptyString
      then ret (sendResponse 400 (error_body "comment is required"))
      else
        try_catch
          (itemResult <- send_get e {| g_TableName := ITEMS_TABLE;
                                       g_Key := [("id", itemId)] |} ;;
           match itemResult with
           | None => ret (sendResponse 404 (error_body "Item not found"))
           | Some _ =>
               existingReviews <-
                 try_catch (send_query e (createReview_query itemId userId))
                   (fun _ => send_scan e (createReview_scan itemId userId)) ;;
               match existingReviews with
               | _ :: _ =>
                   ret (sendResponse 409
                          (error_body "You have already reviewed this item"))
               | [] =>
                   let review := new_review itemId userId rating trimmed in
                   send_put e {| p_TableName := REVIEWS_TABLE; p_Item := review |} ;;;
                   ret (sendResponse 201
                          [("message", VStr "Review created successfully");
                           ("review", VObj review)])
               end
           end)
          (fun _ => ret (sendResponse 500 (error_body "Failed to create review"))).

(** The entry point of the reviews function. *)
Definition reviews_handler (ev : event) : M response :=
  let candidates := [httpMethod ev; requestContext_httpMethod ev] in
  if String.eqb (first_truthy candidates EmptyString) "OPTIONS" then ret preflight
  else
    let httpMethod := first_truthy candidates "GET" in
    try_catch
      (if String.eqb httpMethod "GET" then handleGetReviews ev
       else if String.eqb httpMethod "POST" then handleCreateReview ev
       else ret (sendResponse 405 (error_body "Method not allowed")))
      internal_error.

(* --------------------------------------------------------------------- *)
(** *** Storefronts *)
(* --------------------------------------------------------------------- *)

Definition default_storefront_image : string :=
  "https://images.unsplash.com/photo-1441986300917-64674bd600d8?auto=format&fit=crop&w=1400&q=80".

Definition getMyStorefronts_query (owner : value) : QueryInput :=
  {| q_TableName := STOREFRONTS_TABLE;
     q_IndexName := "OwnerIndex";
     q_KeyConditionExpression := Equals "#owner" ":owner";
     q_FilterExpression := None;
     q_ExpressionAttributeNames := [("#owner", "owner")];
     q_ExpressionAttributeValues := [(":owner", owner)];
     q_Limit := None |}.

Definition getMyStorefronts_scan (owner : value) : ScanInput :=
  {| s_TableName := STOREFRONTS_TABLE;
     s_FilterExpression := Some (Equals "#owner" ":owner");
     s_ExpressionAttributeNames := [("#owner", "owner")];
     s_ExpressionAttributeValues := [(":owner", owner)] |}.

(** The record [handleCreateStorefront] builds from the token and the
    request. *)
Definition new_storefront (user body : value) : obj :=
  [("storeId", VStr (uuid e));
   ("name", get body "name");
   ("description", get body "description");
   ("category", get body "category");
   ("image", if truthy (get body "image") then get body "image"
             else VStr default_storefront_image);
   ("owner", get user "userId");
   ("ownerName", get user "email");
   ("items", VArr []);
   ("createdAt", VStr (clock e 0));
   ("updatedAt", VStr (clock e 1))].

Definition mark_hasStorefront (user : value) : UpdateInput :=
  {| u_TableName := USERS_TABLE;
     u_Key := [("userId", get user "userId")];
     u_SET := ("hasStorefront", ":hasStorefront");
     u_ExpressionAttributeValues := [(":hasStorefront", VBool true)] |}.

Definition handleCreateStorefront (ev : event) : M response :=
  let user := verifyToken ev in
  if negb (truthy user) then ret unauthorized
  else if negb (is_string (get user "role") "seller")
  then ret (sendResponse 403
              (error_body "Forbidden: Only sellers can create storefronts"))
  else
    body <- parse_body ev ;;
    destructure body ;;;
    if negb (truthy (get body "name")) || negb (truthy (get body "description"))
       || negb (truthy (get body "category"))
    then ret (sendResponse 400
                (error_body "Missing required fields: name, description, category"))
    else
      let storefront := new_storefront user body in
      try_catch
        (send_put e {| p_TableName := STOREFRONTS_TABLE; p_Item := storefront |} ;;;
         send_update e (mark_hasStorefront user) ;;;
         ret (sendResponse 201 [("message", VStr "Storefront created successfully");
                                ("storefront", VObj storefront)]))
        (fun _ => ret (sendResponse 500 (error_body "Failed to create storefront"))).

Definition handleGetStorefront (ev : event) : M response :=
  let fromParams :=
    match pathParameters ev with
    | Some ps => assoc "storeId" ps
    | None => None
    end in
  let fromPath :=
    match path ev with
    | Some p => Some (split_pop p)
    | None => None
    end in
  match first_truthy [fromParams; fromPath] EmptyString with
  | EmptyString => ret (sendResponse 400 (error_body "Missing storeId in path"))
  | storeId =>
      try_catch
        (result <- send_get e {| g_TableName := STOREFRONTS_TABLE;
                                 g_Key := [("storeId", VStr storeId)] |} ;;
         match result with
         | None => ret (sendResponse 404 (error_body "Storefront not found"))
         | Some item => ret (sendResponse 200 [("storefront", VObj item)])
         end)
        (fun _ => ret (sendResponse 500 (error_body "Failed to get storefront")))
  end.

Definition handleGetMyStorefronts (ev : event) : M response :=
  let user := verifyToken ev in
  if negb (truthy user) then ret unauthorized
  else if negb (is_string (get user "role") "seller")
  then ret (sendResponse 403
              (error_body "Forbidden: Only sellers can view their storefronts"))
  else
    try_catch
      (result <- try_catch (send_query e (getMyStorefronts_query (get user "userId")))
                   (fun _ => send_scan e (getMyStorefronts_scan (get user "userId"))) ;;
       ret (sendResponse 200 [("storefronts", VArr (map VObj result))]))
      (fun message =>
         ret (sendResponse 500
                (error_body ("Failed to get storefronts: " ++ message)))).

Definition listStorefronts_scan : ScanInput :=
  {| s_TableName := STOREFRONTS_TABLE;
     s_FilterExpression := None;
     s_ExpressionAttributeNames := [];
     s_ExpressionAttributeValues := [] |}.

Definition handleListStorefronts (ev : event) : M response :=
  try_catch
    (result <- send_scan e listStorefronts_scan ;;
     ret (sendResponse 200 [("storefronts", VArr (map VObj result))]))
    (fun _ => ret (sendResponse 500 (error_body "Failed to list storefronts"))).

(** The entry point of the storefronts function. *)
Definition storefronts_handler (ev : event) : M response :=
  let candidates := [httpMethod ev; requestContext_httpMethod ev;
                     requestContext_http_method ev] in
  if String.eqb (first_truthy candidates EmptyString) "OPTIONS" then ret preflight
  else
    let httpMethod := first_truthy candidates "GET" in
    let path := first_truthy [path ev; requestContext_path ev; rawPath ev;
                              requestContext_http_path ev] "/" in
    let route := httpMethod ++ " " ++ path in
    try_catch
      (if String.eqb route "POST /storefronts"
          || (includes path "/storefronts" && String.eqb httpMethod "POST")
       then handleCreateStorefront ev
       else if (includes route "GET /storefronts/"
                && negb (includes path "/storefronts/my"))
               || (includes path "/storefronts/" && String.eqb httpMethod "GET"
                   && negb (includes path "/my"))
       then handleGetStorefront ev
       else if String.eqb route "GET /storefronts/my"
               || (includes path "/storefronts/my" && String.eqb httpMethod "GET")
       then handleGetMyStorefronts ev
       else if String.eqb route "GET /storefronts"
               || (String.eqb path "/storefronts" && String.eqb httpMethod "GET")
       then handleListStorefronts ev
       else ret (sendResponse 404 [("error", VStr "Not found");
                                   ("route", VStr route)]))
      internal_error.

(* --------------------------------------------------------------------- *)
(** *** Accounts *)
(* --------------------------------------------------------------------- *)

Definition register_query (email : string) : QueryInput :=
  {| q_TableName := USERS_TABLE;
     q_IndexName := "EmailIndex";
     q_KeyConditionExpression := Equals "email" ":email";
     q_FilterExpression := None;
     q_ExpressionAttributeNames := [];
     q_ExpressionAttributeValues := [(":email", VStr email)];
     q_Limit := Some 1%nat |}.

Definition login_query (email : string) : QueryInput :=
  {| q_TableName := USERS_TABLE;
     q_IndexName := "EmailIndex";
     q_KeyConditionExpression := Equals "email" ":email";
     q_FilterExpression := None;
     q_ExpressionAttributeNames := [];
     q_ExpressionAttributeValues := [(":email", VStr email)];
     q_Limit := None |}.

(** [bcrypt.hash(password, rounds)] and [bcrypt.compare(password, hash)]
    reject arguments that are not strings. *)
Definition call_bcrypt_hash (password : value) (rounds : nat) : M string :=
  match password with
  | VStr p => ret (bcrypt_hash p rounds (salt e))
  | _ => throw ("Illegal arguments: " ++ typeof password ++ ", number")
  end.

Definition call_bcrypt_compare (password hash : value) : M bool :=
  match password, hash with
  | VStr p, VStr h => ret (bcrypt_compare p h)
  | _, _ => throw ("Illegal arguments: " ++ typeof password ++ ", " ++ typeof hash)
  end.

(** The text [Role must be either "buyer" or "seller"]. *)
Definition role_message : string :=
  let quote := String (ascii_of_nat 34) EmptyString in
  "Role must be either " ++ quote ++ "buyer" ++ quote ++ " or "
  ++ quote ++ "seller" ++ quote.

Definition claims (userId email role : value) : obj :=
  [("userId", userId); ("email", email); ("role", role)].

(** The record [handleRegister] builds; [lowered] is
    [email.toLowerCase()]. *)
Definition new_user (lowered : string) (name : value) (hashedPassword : string)
  (role : value) : obj :=
  [("userId", VStr (uuid e));
   ("email", VStr lowered);
   ("name", name);
   ("password", VStr hashedPassword);
   ("role", role);
   ("hasStorefront", VBool false);
   ("createdAt", VStr (clock e 0))].

Definition handleRegister (ev : event) : M response :=
  body <- parse_body ev ;;
  destructure body ;;;
  let name := get body "name" in
  let email := get body "email" in
  let password := get body "password" in
  let role := get body "role" in
  if negb (truthy name) || negb (truthy email) || negb (truthy password)
     || negb (truthy role)
  then ret (sendResponse 400
              (error_body "Missing required fields: name, email, password, role"))
  else if negb (is_string role "buyer" || is_string role "seller")
  then ret (sendResponse 400 (error_body role_message))
  else if lt_lit (js_length password) 6
  then ret (sendResponse 400 (error_body "Password must be at least 6 characters"))
  else
    exists_already <-
      try_catch
        (lowered <- call_toLowerCase "email" email ;;
         queryResult <- send_query e (register_query lowered) ;;
         ret (match queryResult with [] => false | _ :: _ => true end))
        (fun _ => ret false) ;;
    if exists_already
    then ret (sendResponse 409 (error_body "User with this email already exists"))
    else
      let bcryptRounds := if production e then 10%nat else 4%nat in
      hashedPassword <- call_bcrypt_hash password bcryptRounds ;;
      let userId := uuid e in
      lowered <- call_toLowerCase "email" email ;;
      let user := new_user lowered name hashedPassword role in
      try_catch
        (send_put e {| p_TableName := USERS_TABLE; p_Item := user |} ;;;
         let token := jwt_sign (claims (VStr userId) (prop user "email") role) in
         ret (sendResponse 201 [("message", VStr "User created successfully");
                                ("user", VObj (omit "password" user));
                                ("token", VStr token)]))
        (fun _ => ret (sendResponse 500 (error_body "Failed to create user"))).

Definition handleLogin (ev : event) : M response :=
  body <- parse_body ev ;;
  destructure body ;;;
  let email := get body "email" in
  let password := get body "password" in
  if negb (truthy email) || negb (truthy password)
  then ret (sendResponse 400 (error_body "Email and password are required"))
  else
    try_catch
      (lowered <- call_toLowerCase "email" email ;;
       queryResult <- send_query e (login_query lowered) ;;
       match queryResult with
       | [] => ret (sendResponse 401 (error_body "Invalid email or password"))
       | user :: _ =>
           isValidPassword <- call_bcrypt_compare password (prop user "password") ;;
           if negb isValidPassword
           then ret (sendResponse 401 (error_body "Invalid email or password"))
           else
             let token := jwt_sign (claims (prop user "userId") (prop user "email")
                                      (prop user "role")) in
             ret (sendResponse 200 [("message", VStr "Login successful");
                                    ("user", VObj (omit "password" user));
                                    ("token", VStr token)])
       end)
      (fun _ => ret (sendResponse 500 (error_body "Login failed"))).

Definition handleGetProfile (ev : event) : M response :=
  let authHeader :=
    first_truthy [headers_Authorization ev; headers_authorization ev] EmptyString in
  if String.eqb authHeader EmptyString || negb (startsWith authHeader "Bearer ")
  then ret (sendResponse 401 (error_body "Unauthorized: No token provided"))
  else
    match jwt_verify (substring_from 7 authHeader) with
    | None => ret (sendResponse 401 (error_body "Invalid or expired token"))
    | Some decoded =>
        try_catch
          (userId <- member decoded "userId" ;;
           result <- send_get e {| g_TableName := USERS_TABLE;
                                   g_Key := [("userId", userId)] |} ;;
           match result with
           | None => ret (sendResponse 404 (error_body "User not found"))
           | Some item =>
               ret (sendResponse 200 [("user", VObj (omit "password" item))])
           end)
          (fun _ => ret (sendResponse 500 (error_body "Failed to get profile")))
    end.

(** The entry point of the accounts function. *)
Definition users_handler (ev : event) : M response :=
  let candidates := [httpMethod ev; requestContext_httpMethod ev] in
  if String.eqb (first_truthy candidates EmptyString) "OPTIONS" then ret preflight
  else
    let httpMethod := first_truthy candidates "GET" in
    let path := first_truthy [path ev; requestContext_path ev; rawPath ev] "/" in
    let route := httpMethod ++ " " ++ path in
    try_catch
      (if String.eqb route "POST /auth/register" || includes path "/auth/register"
       then handleRegister ev
       else if String.eqb route "POST /auth/login" || includes path "/auth/login"
       then handleLogin ev
       else if String.eqb route "GET /auth/profile" || includes path "/auth/profile"
       then handleGetProfile ev
       else ret (sendResponse 404 [("error", VStr "Not found");
                                   ("route", VStr route)]))
      internal_error.

End Handlers.

(* --------------------------------------------------------------------- *)
(** *** The sample items function *)
(* --------------------------------------------------------------------- *)

(** [{ statusCode, body: JSON.stringify(body) }]: an answer without
    headers. *)
Definition plain_response (statusCode : Z) (body : obj) : response :=
  {| statusCode := statusCode; headers := []; body := VObj body |}.

Section Sample.

Variable e : env.

(** [TABLE_NAME], the table the function is deployed on, and the message of
    the error [JSON.parse] raises when the request has no body. *)
Variable TABLE_NAME : table.
Variable missing_body : string.

(** [JSON.parse(event.body)], without a default. *)
Definition parse_sample_body (ev : event) : M value :=
  match event_body ev with
  | NoBody => throw missing_body
  | BadJson m => throw m
  | Json v => ret v
  end.

(** [{ id: body.id, name: body.name, createdAt: ... }]. *)
Definition sample_item (id name : value) : obj :=
  [("id", id); ("name", name); ("createdAt", VStr (clock e 0))].

Definition sample_key (ev : event) : GetInput :=
  {| g_TableName := TABLE_NAME;
     g_Key := [("id", match query_param ev "id" with
                      | Some id => VStr id
                      | None => VUndefined
                      end)] |}.

(** The entry point of the sample items function. *)
Definition sample_handler (ev : event) : M response :=
  let method := first_truthy [httpMethod ev] "GET" in
  try_catch
    (if String.eqb method "POST" then
       body <- parse_sample_body ev ;;
       id <- member body "id" ;;
       name <- member body "name" ;;
       let item := sample_item id name in
       send_put e {| p_TableName := TABLE_NAME; p_Item := item |} ;;;
       ret (plain_response 200 [("message", VStr "Item added"); ("item", VObj item)])
     else if String.eqb method "GET" then
       data <- send_get e (sample_key ev) ;;
       ret (plain_response 200
              (match data with
               | Some item => item
               | None => [("message", VStr "Item not found")]
               end))
     else ret (plain_response 400 [("message", VStr "Unsupported method")]))
    (fun message => ret (plain_response 500 [("message", VStr message)])).

End Sample.

(* ===================================================================== *)
(** ** A reference runtime *)
(* ===================================================================== *)

(** A small executable runtime on which the handlers can be run: a number
    prints as the decimal of its integer part, a timestamp is ordered by its
    digits (as ISO-8601 UTC timestamps are), a hash is the salt followed by
    the password, and a token spells out its three claims, each preceded by
    its length in unary. *)
Module Reference.

Definition Z_to_string (z : Z) : string :=
  NilEmpty.string_of_int (Z.to_int z).

Definition print_number (q : Q) : string := Z_to_string (Qtruncate q).

Fixpoint digits_of (s : string) : string :=
  match s with
  | String c s' =>
      match digit_in 10 c with
      | Some _ => String c (digits_of s')
      | None => digits_of s'
      end
  | EmptyString => EmptyString
  end.

Definition time_of (v : value) : num :=
  match v with
  | VStr s => read_all_digits 10 (digits_of s)
  | VNum n => n
  | VNull => Fin 0
  | _ => NaN
  end.

Definition hash (password : string) (rounds : nat) (salt : string)
  : string :=
  salt ++ "$" ++ password.

Definition ends_with (s t : string) : bool :=
  String.eqb t (substring_from (String.length s - String.length t) s).

Definition compare (password hashed : string) : bool :=
  ends_with hashed ("$" ++ password).

Fixpoint unary (n : nat) : string :=
  match n with
  | O => ":"
  | S n' => String "1" (unary n')
  end.

Definition encode (s : string) : string := unary (String.length s) ++ s.

Fixpoint take (n : nat) (s : string) : option (string * string) :=
  match n, s with
  | O, _ => Some (EmptyString, s)
  | S n', String c s' =>
      match take n' s' with
      | Some (a, b) => Some (String c a, b)
      | None => None
      end
  | S _, EmptyString => None
  end.

Fixpoint decode (n : nat) (s : string) : option (string * string) :=
  match s with
  | String ":" s' => take n s'
  | String "1" s' => decode (S n) s'
  | _ => None
  end.

Definition sign (payload : obj) : string :=
  match prop payload "userId", prop payload "email", prop payload "role" with
  | VStr u, VStr e, VStr r => encode u ++ encode e ++ encode r
  | _, _, _ => "opaque"
  end.

Definition verify (token : string) : option value :=
  match decode 0 token with
  | Some (u, t1) =>
      match decode 0 t1 with
      | Some (e, t2) =>
          match decode 0 t2 with
          | Some (r, EmptyString) =>
              Some (VObj [("userId", VStr u); ("email", VStr e); ("role", VStr r)])
          | _ => None
          end
      | None => None
      end
  | None => None
  end.

Definition runtime : Runtime :=
  {| Number_toString := print_number;
     Date_time := time_of;
     bcrypt_hash := hash;
     bcrypt_compare := compare;
     jwt_sign := sign;
     jwt_verify := verify |}.

(** An invocation in which the client fails no command. *)
Definition calm (id : string) (time : string) : env :=
  {| throws := fun _ => None;
     uuid := id;
     clock := fun _ => time;
     salt := "salt";
     production := false |}.

Definition empty_store : store := fun _ => [].

Definition request (method route : string) (authorization : option string)
  (query : option (list (string * string))) (b : payload) : event :=
  {| httpMethod := Some method;
     requestContext_httpMethod := None;
     requestContext_http_method := None;
     path := Some route;
     requestContext_path := None;
     rawPath := None;
     requestContext_http_path := None;
     headers_Authorization := authorization;
     headers_authorization := None;
     queryStringParameters := query;
     pathParameters := None;
     event_body := b |}.

End Reference.

(* ===================================================================== *)
(** ** Vocabulary of the statements *)
(* ===================================================================== *)

(** A computation that only reads the store. *)
Definition quiet {A : Type} (m : M A) : Prop := forall st, snd (m st) = st.


(** The five functions of the backend.  (The sample items function, which
    reports its errors under [message], is [sample_handler].) *)
Inductive lambda : Type := Accounts | Storefronts | Items | Reviews | Orders.

Definition entry {R : Runtime} (f : lambda) : env -> event -> M response :=
  match f with
  | Accounts => users_handler
  | Storefronts => storefronts_handler
  | Items => items_handler
  | Reviews => reviews_handler
  | Orders => orders_handler
  end.

Definition is_2xx (r : response) : bool :=
  (200 <=? statusCode r) && (statusCode r <? 300).




(** A text made of white space only. *)
Definition blank (s : string) : Prop :=
  Forall (fun c => is_ws c = true) (list_ascii_of_string s).




(** A request that passes the validation of [handleRegister]. *)
Definition valid_registration {R : Runtime} (b : value) : bool :=
  truthy (get b "name") && truthy (get b "email") && truthy (get b "password")
  && truthy (get b "role")
  && (is_string (get b "role") "buyer" || is_string (get b "role") "seller")
  && negb (lt_lit (js_length (get b "password")) 6).

(** An account with the given email. *)
Definition by_email (email : string) : obj -> bool := attr_is "email" (VStr email).


(** Every response the computation returns satisfies [P]. *)
Definition returns (P : response -> Prop) (m : M response) : Prop :=
  forall st r st', m st = (Ok r, st') -> P r.

(** The shape of an answer: the cross-origin headers, a status among
    [codes], and a body with an [error] text exactly when the status is not
    2xx. *)
Definition shaped (codes : list Z) (r : response) : Prop :=
  headers r = corsHeaders /\
  In (statusCode r) codes /\
  (is_2xx r = true /\ get (body r) "error" = VUndefined \/
   is_2xx r = false /\ exists message, get (body r) "error" = VStr message).

(** The statuses each function answers with. *)
Definition statuses (f : lambda) : list Z :=
  match f with
  | Accounts => [200; 201; 400; 401; 404; 409; 500]
  | Storefronts => [200; 201; 400; 401; 403; 404; 500]
  | Items => [200; 201; 400; 405; 500]
  | Reviews => [200; 201; 400; 401; 404; 405; 409; 500]
  | Orders => [200; 201; 400; 401; 405; 500]
  end.

(** The tables that hold the records of a function; the storefronts
    function also sets a flag in the accounts. *)
Definition owns (f : lambda) (t : table) : bool :=
  match f, t with
  | Accounts, USERS_TABLE
  | Storefronts, STOREFRONTS_TABLE | Storefronts, USERS_TABLE
  | Items, ITEMS_TABLE
  | Reviews, REVIEWS_TABLE
  | Orders, ORDERS_TABLE => true
  | _, _ => false
  end.

(** A store that differs from an earlier one only in the tables [ts], none
    of which has lost a record. *)
Definition evolves (ts : table -> bool) (st st' : store) : Prop :=
  forall t, (ts t = false -> st' t = st t) /\
            (List.length (st t) <= List.length (st' t))%nat.

(** Every run of the computation takes the store to one related by [rel]. *)
Definition steps {A : Type} (rel : store -> store -> Prop) (m : M A) : Prop :=
  forall st, rel st (snd (m st)).

(** The method a function resolves a request to. *)
Definition method_of (f : lambda) (ev : event) : string :=
  match f with
  | Storefronts | Items =>
      first_truthy [httpMethod ev; requestContext_httpMethod ev;
                    requestContext_http_method ev] "GET"
  | _ => first_truthy [httpMethod ev; requestContext_httpMethod ev] "GET"
  end.

(** The path the accounts function resolves a request to. *)
Definition accounts_path (ev : event) : string :=
  first_truthy [path ev; requestContext_path ev; rawPath ev] "/".

(** The [Authorization] header of a request, under either spelling. *)
Definition authorization (ev : event) : string :=
  first_truthy [headers_Authorization ev; headers_authorization ev] EmptyString.

(** The lookup of an account by its identifier. *)
Definition account_of (userId : value) : GetInput :=
  {| g_TableName := USERS_TABLE; g_Key := [("userId", userId)] |}.

(** A request that presents no bearer token that verifies. *)
Definition anonymous {R : Runtime} (ev : event) : Prop :=
  authorization ev = EmptyString \/
  startsWith (authorization ev) "Bearer " = false \/
  jwt_verify (substring_from 7 (authorization ev)) = None.

(** The answer to a token of the wrong role. *)
Definition forbidden (message : string) : response :=
  sendResponse 403 (error_body message).

(** What [UpdateCommand] leaves under a key: the record with the attribute
    set, or a record made of the key and the attribute. *)
Definition flagged (key : obj) (old : option obj) : obj :=
  match old with
  | Some r => set "hasStorefront" (VBool true) r
  | None => set "hasStorefront" (VBool true) key
  end.

(** The path the storefronts function resolves a request to. *)
Definition storefronts_path (ev : event) : string :=
  first_truthy [path ev; requestContext_path ev; rawPath ev;
                requestContext_http_path ev] "/".

(** [event.pathParameters?.k]. *)
Definition path_parameter (ev : event) (k : string) : option string :=
  match pathParameters ev with
  | Some ps => assoc k ps
  | None => None
  end.

(** The lookup of a storefront by its identifier. *)
Definition storefront_of (storeId : string) : GetInput :=
  {| g_TableName := STOREFRONTS_TABLE; g_Key := [("storeId", VStr storeId)] |}.

(** The lookup of an order by its identifier. *)
Definition order_of (orderId : string) : GetInput :=
  {| g_TableName := ORDERS_TABLE; g_Key := [("orderId", VStr orderId)] |}.

(** The lookup of a catalog item by its identifier. *)
Definition item_of (id : value) : GetInput :=
  {| g_TableName := ITEMS_TABLE; g_Key := [("id", id)] |}.



(** A request that is routed to an operation that reads a body: a POST for
    items, reviews and orders, a POST to a path with [/storefronts], a path
    with [/auth/register] or [/auth/login]. *)
Definition reads_body (f : lambda) (ev : event) : Prop :=
  match f with
  | Accounts =>
      method_of f ev <> "OPTIONS" /\
      (includes (accounts_path ev) "/auth/register" = true \/
       includes (accounts_path ev) "/auth/login" = true)
  | Storefronts =>
      method_of f ev = "POST" /\ includes (storefronts_path ev) "/storefronts" = true
  | _ => method_of f ev = "POST"
  end.

(** A request that passes the access control of the operation it is routed
    to. *)
Definition admitted {R : Runtime} (f : lambda) (ev : event) : Prop :=
  match f with
  | Accounts | Items => True
  | Storefronts =>
      truthy (verifyToken ev) = true /\
      is_string (get (verifyToken ev) "role") "seller" = true
  | Reviews | Orders => truthy (verifyToken ev) = true
  end.

(** The answer of an entry point to an exception with the given message. *)
Definition failure (message : string) : response :=
  sendResponse 500
    (error_body (if String.eqb message EmptyString then "Internal server error"
                 else message)).

(** [typeof v === 'string']. *)
Definition is_text (v : value) : bool :=
  match v with VStr _ => true | _ => false end.


(** An invocation in which the client fails no command. *)
Definition answered (e : env) : Prop := forall c, throws e c = None.

(* ===================================================================== *)
(** ** Scenarios *)
(* ===================================================================== *)

(** Invocations, requests and stores on which the handlers are run below,
    all on the reference runtime. *)

(** An invocation in which every index-backed query fails, as when the
    index does not exist, and everything else is answered. *)
Definition index_missing (id : string) (time : string) : env :=
  {| throws := fun c => match c with
                        | QueryCommand _ =>
                            Some "The table does not have the specified index"
                        | _ => None
                        end;
     uuid := id;
     clock := fun _ => time;
     salt := "salt";
     production := false |}.

(** An invocation in which the client fails every update. *)
Definition updates_fail : env :=
  {| throws := fun c => match c with
                        | UpdateCommand _ => Some "ProvisionedThroughputExceededException"
                        | _ => None
                        end;
     uuid := "s1";
     clock := fun _ => "2024-01-02T00:00:00.000Z";
     salt := "salt";
     production := false |}.

Definition seller_token : string :=
  Reference.sign [("userId", VStr "u1"); ("email", VStr "alice@example.com");
                  ("role", VStr "seller")].

Definition buyer_token : string :=
  Reference.sign [("userId", VStr "u2"); ("email", VStr "bob@example.com");
                  ("role", VStr "buyer")].

Definition alice_form : value :=
  VObj [("name", VStr "Alice"); ("email", VStr "Alice@Example.com");
        ("password", VStr "secret1"); ("role", VStr "seller")].

Definition register_alice : event :=
  Reference.request "POST" "/auth/register" None None (Json alice_form).

Definition register_alice_again : event :=
  Reference.request "POST" "/auth/register" None None
    (Json (VObj [("name", VStr "Alice B"); ("email", VStr "ALICE@EXAMPLE.COM");
                 ("password", VStr "secret2"); ("role", VStr "buyer")])).

Definition login_form (email password : string) : value :=
  VObj [("email", VStr email); ("password", VStr password)].

Definition login_as (email password : string) : event :=
  Reference.request "POST" "/auth/login" None None (Json (login_form email password)).

(** The response and the store once Alice has registered. *)
Definition alice_registered : res response * store :=
  @users_handler Reference.runtime (Reference.calm "u1" "2024-01-01T00:00:00.000Z")
    register_alice Reference.empty_store.

(** The same registration while the email index is missing. *)
Definition alice_registered_unindexed : res response * store :=
  @users_handler Reference.runtime (index_missing "u1" "2024-01-01T00:00:00.000Z")
    register_alice Reference.empty_store.

Definition token_of (out : res response * store) : string :=
  match fst out with
  | Ok r => match get (body r) "token" with
            | VStr t => t
            | _ => EmptyString
            end
  | Err _ => EmptyString
  end.

Definition shop_form : value :=
  VObj [("name", VStr "Shop"); ("description", VStr "Books");
        ("category", VStr "books")].

Definition create_shop (token : string) : event :=
  Reference.request "POST" "/storefronts" (Some ("Bearer " ++ token)) None
    (Json shop_form).

(** A catalog of one item, without reviews. *)
Definition catalog : store :=
  fun t => match t with
           | ITEMS_TABLE => [[("id", VStr "i1"); ("storeId", VStr "s1");
                              ("name", VStr "Book")]]
           | _ => []
           end.

Definition review_form (rating : value) (comment : string) : value :=
  VObj [("itemId", VStr "i1"); ("rating", rating); ("comment", VStr comment)].

Definition submit_review (token : string) (rating : value) (comment : string) : event :=
  Reference.request "POST" "/reviews" (Some ("Bearer " ++ token)) None
    (Json (review_form rating comment)).



(** Item i1 with two reviews, and a review of another item. *)
Definition two_reviews : store :=
  fun t => match t with
           | ITEMS_TABLE => [[("id", VStr "i1"); ("name", VStr "Book")]]
           | REVIEWS_TABLE =>
               [[("reviewId", VStr "r1"); ("itemId", VStr "i1"); ("userId", VStr "u1");
                 ("rating", VNum (Fin 4)); ("comment", VStr "fine");
                 ("createdAt", VStr "2024-01-04T00:00:00.000Z")];
                [("reviewId", VStr "r2"); ("itemId", VStr "i1"); ("userId", VStr "u2");
                 ("rating", VNum (Fin 5)); ("comment", VStr "great");
                 ("createdAt", VStr "2024-01-05T00:00:00.000Z")];
                [("reviewId", VStr "r3"); ("itemId", VStr "i2"); ("userId", VStr "u2");
                 ("rating", VNum (Fin 1)); ("comment", VStr "other item");
                 ("createdAt", VStr "2024-01-06T00:00:00.000Z")]]
           | _ => []
           end.

Definition list_reviews (itemId : string) : event :=
  Reference.request "GET" "/reviews" None (Some [("itemId", itemId)]) NoBody.


(** An order of the buyer with the given lines, over a catalog of one item. *)
Definition order_lines (lines : list value) : store :=
  fun t => match t with
           | ITEMS_TABLE => [[("id", VStr "i1"); ("name", VStr "Book")]]
           | ORDERS_TABLE => [[("orderId", VStr "o1"); ("userId", VStr "u2");
                               ("items", VArr lines)]]
           | _ => []
           end.

Definition line_of (itemId : string) : value := VObj [("itemId", VStr itemId)].

Definition list_orders (token : string) : event :=
  Reference.request "GET" "/orders" (Some ("Bearer " ++ token)) None NoBody.

(** A request to add an item priced 0 that also carries a rating of 0. *)
Definition free_item_form : value :=
  VObj [("name", VStr "Book"); ("description", VStr "A book");
        ("category", VStr "books"); ("storeId", VStr "s1");
        ("price", VNum (Fin 0)); ("rating", VNum (Fin 0))].

Definition add_free_item : event :=
  Reference.request "POST" "/items" (Some ("Bearer " ++ seller_token)) None
    (Json free_item_form).

(** A request for the profile that presents a token. *)
Definition profile_request (token : string) : event :=
  Reference.request "GET" "/auth/profile" (Some ("Bearer " ++ token)) None NoBody.

(** A request for one storefront. *)
Definition get_storefront (storeId : string) : event :=
  Reference.request "GET" ("/storefronts/" ++ storeId) None None NoBody.

(** A checkout by the buyer. *)
Definition order_form (total : value) : value :=
  VObj [("items", VArr [line_of "i1"]); ("shippingAddress", VStr "1 Main St");
        ("total", total)].

Definition place_order (token : string) (total : value) : event :=
  Reference.request "POST" "/orders" (Some ("Bearer " ++ token)) None
    (Json (order_form total)).

(** A request to add an item with the given price to storefront s1. *)
Definition item_form (price : value) : value :=
  VObj [("name", VStr "Book"); ("description", VStr "A book");
        ("category", VStr "books"); ("storeId", VStr "s1"); ("price", price)].

Definition add_item (price : value) : event :=
  Reference.request "POST" "/items" None None (Json (item_form price)).

Definition sample_post (b : payload) : event :=
  Reference.request "POST" "/items" None None b.

Definition sample_get (id : string) : event :=
  Reference.request "GET" "/items" None (Some [("id", id)]) NoBody.


Definition list_storefronts : event :=
  Reference.request "GET" "/storefronts" None None NoBody.


(* ===================================================================== *)
(** ** The two paths of a lookup read the same records *)
(* ===================================================================== *)




(* ===================================================================== *)
(** ** Computations that only read, and handlers that write last *)
(* ===================================================================== *)

Lemma quiet_ret {A : Type} (a : A) : quiet (ret a).
Proof. intro st; reflexivity. Qed.

Lemma quiet_throw {A : Type} (m : string) : quiet (@throw A m).
Proof. intro st; reflexivity. Qed.

Lemma quiet_bind {A B : Type} (m : M A) (k : A -> M B) :
  quiet m -> (forall a, quiet (k a)) -> quiet (bind m k).
Proof.
  intros Hm Hk st. unfold bind. specialize (Hm st).
  destruct (m st) as [[a|msg] st1]; simpl in *; subst; [apply Hk|reflexivity].
Qed.

Lemma quiet_try {A : Type} (m : M A) (h : string -> M A) :
  quiet m -> (forall msg, quiet (h msg)) -> quiet (try_catch m h).
Proof.
  intros Hm Hh st. unfold try_catch. specialize (Hm st).
  destruct (m st) as [[a|msg] st1]; simpl in *; subst; [reflexivity|apply Hh].
Qed.

Lemma quiet_send_read {A : Type} (e : env) (c : command)
  (exec : store -> string + A) : quiet (send_read e c exec).
Proof.
  intro st. unfold send_read.
  destruct (throws e c); [reflexivity|]. destruct (exec st); reflexivity.
Qed.

Lemma quiet_send_query (e : env) (i : QueryInput) : quiet (send_query e i).
Proof. apply quiet_send_read. Qed.

Lemma quiet_send_scan (e : env) (i : ScanInput) : quiet (send_scan e i).
Proof. apply quiet_send_read. Qed.

Lemma quiet_send_get (e : env) (i : GetInput) : quiet (send_get e i).
Proof. apply quiet_send_read. Qed.

Lemma quiet_run {A : Type} (m : M A) (st st' : store) (out : res A) :
  quiet m -> m st = (out, st') -> st' = st.
Proof. intros Hq Hm. specialize (Hq st). now rewrite Hm in Hq. Qed.

Lemma quiet_mapM {A B : Type} (f : A -> M B) (l : list A) :
  (forall x, quiet (f x)) -> quiet (mapM f l).
Proof.
  intro Hf. induction l as [|x l IH]; simpl.
  - apply quiet_ret.
  - apply quiet_bind; [apply Hf|intro y].
    apply quiet_bind; [apply IH|intro ys; apply quiet_ret].
Qed.





Ltac quiet_tac :=
  repeat first
    [ apply quiet_ret | apply quiet_throw | apply quiet_send_read
    | apply quiet_mapM; intro
    | apply quiet_bind; [|intro]
    | apply quiet_try; [|intro]
    | match goal with
      | |- quiet (if ?b then _ else _) => destruct b
      | |- quiet (match ?x with _ => _ end) => destruct x
      end ].


Section Quiet.
Context {R : Runtime}.
Variable e : env.

Lemma quiet_enrich_item (item : value) : quiet (enrich_item e item).
Proof. unfold enrich_item, member, send_get. quiet_tac. Qed.

Lemma quiet_enrich_order (order : obj) : quiet (enrich_order e order).
Proof.
  unfold enrich_order. destruct (prop order "items"); try apply quiet_ret.
  apply quiet_bind; [apply quiet_mapM, quiet_enrich_item|intro; apply quiet_ret].
Qed.













End Quiet.

Section Storefront.
Context {R : Runtime}.
Variable e : env.

Lemma quiet_parse_body (ev : event) : quiet (parse_body ev).
Proof. unfold parse_body; quiet_tac. Qed.

Lemma quiet_destructure (v : value) : quiet (destructure v).
Proof. unfold destructure; quiet_tac. Qed.








End Storefront.




(* ===================================================================== *)
(** ** The owner fields of a storefront *)
(* ===================================================================== *)

Lemma find_upsert (same : obj -> bool) (new : obj) (rows : list obj) :
  same new = true ->
  find same (upsert same (fun _ => new) rows) = Some new.
Proof.
  intro Hnew. induction rows as [|r rows IH]; simpl.
  - now rewrite Hnew.
  - destruct (same r) eqn:Hr; simpl.
    + now rewrite Hnew.
    + now rewrite Hr.
Qed.

(** C9 (amended): when create-storefront answers 201, the record stored
    under the new storefront id has as [ownerName] the email claim of the
    creator's token and as [owner] its userId claim. *)
Theorem storefront_owner_fields {R : Runtime} (e : env) (ev : event)
  (st st' : store) (r : response) :
  handleCreateStorefront e ev st = (Ok r, st') ->
  statusCode r = 201 ->
  exists storefront,
    exec_get st' {| g_TableName := STOREFRONTS_TABLE;
                    g_Key := [("storeId", VStr (uuid e))] |} = inr (Some storefront) /\
    get (body r) "storefront" = VObj storefront /\
    prop storefront "ownerName" = get (verifyToken ev) "email" /\
    prop storefront "owner" = get (verifyToken ev) "userId".
Proof.
  unfold handleCreateStorefront. intros H H201.
  destruct (negb (truthy (verifyToken ev))); [inversion H; subst; discriminate|].
  destruct (negb (is_string _ _)); [inversion H; subst; discriminate|].
  unfold bind at 1 in H.
  pose proof (quiet_parse_body ev st) as Hq.
  destruct (parse_body ev st) as [[b|m] st0]; simpl in Hq; subst st0;
    [|discriminate].
  unfold bind at 1 in H.
  pose proof (quiet_destructure b st) as Hq.
  destruct (destructure b st) as [[[]|m] st0]; simpl in Hq; subst st0;
    [|discriminate].
  destruct (_ || _); [inversion H; subst; discriminate|].
  unfold try_catch, bind, send_put, send_update, send_write, ret in H.
  destruct (throws e (PutCommand _)); [inversion H; subst; discriminate|].
  destruct (exec_put st _) as [m|st1] eqn:Hput; [inversion H; subst; discriminate|].
  destruct (throws e (UpdateCommand _)); [inversion H; subst; discriminate|].
  destruct (exec_update st1 _) as [m|st2] eqn:Hupd; [inversion H; subst; discriminate|].
  inversion H; subst. clear H H201.
  exists (new_storefront e (verifyToken ev) b).
  split; [|repeat split].
  unfold exec_put in Hput. cbn [p_Item p_TableName] in Hput.
  destruct (marshall_error _); [discriminate|].
  cbn [key_attr new_storefront assoc String.eqb Ascii.eqb Bool.eqb] in Hput.
  injection Hput as <-.
  unfold exec_update in Hupd. cbn [u_Key u_TableName u_SET u_ExpressionAttributeValues
    mark_hasStorefront] in Hupd.
  destruct (marshall_error (VObj [("userId", _)])); [discriminate|].
  cbn in Hupd. injection Hupd as <-.
  unfold exec_get. cbn [g_Key g_TableName marshall_error].
  unfold write_table at 1. cbn [table_eqb].
  unfold write_table at 1. cbn [table_eqb].
  f_equal. apply find_upsert.
  cbn. now rewrite String.eqb_refl.
Qed.

Lemma storefront_owner_fields_witness :
  let e := Reference.calm "s1" "2024-01-02T00:00:00.000Z" in
  let ev := create_shop (token_of alice_registered) in
  exists storefront,
    exec_get (snd (@handleCreateStorefront Reference.runtime e ev (snd alice_registered)))
      {| g_TableName := STOREFRONTS_TABLE;
         g_Key := [("storeId", VStr "s1")] |} = inr (Some storefront) /\
    prop storefront "ownerName" = VStr "alice@example.com" /\
    prop storefront "owner" = VStr "u1".
Proof.
  intros e ev.
  destruct (@storefront_owner_fields Reference.runtime e ev (snd alice_registered)
              (snd (@handleCreateStorefront Reference.runtime e ev (snd alice_registered)))
              (sendResponse 201
                 [("message", VStr "Storefront created successfully");
                  ("storefront",
                   VObj (new_storefront e (@verifyToken Reference.runtime ev)
                           shop_form))])
              eq_refl eq_refl) as [storefront [H1 [_ [H2 H3]]]].
  exists storefront. split; [exact H1|]. split; [exact H2|exact H3].
Defined.

(** C9, counterexample: Alice registers with the display name Alice and
    creates a storefront with the token she was given.  The stored
    [ownerName] is her email, not her display name. *)
Lemma ownerName_is_not_display_name :
  let e := Reference.calm "s1" "2024-01-02T00:00:00.000Z" in
  let out := @storefronts_handler Reference.runtime e
               (create_shop (token_of alice_registered)) (snd alice_registered) in
  exists r account storefront,
    fst out = Ok r /\ statusCode r = 201 /\
    snd out USERS_TABLE = [account] /\
    snd out STOREFRONTS_TABLE = [storefront] /\
    prop storefront "owner" = prop account "userId" /\
    prop account "name" = VStr "Alice" /\
    prop storefront "ownerName" = VStr "alice@example.com" /\
    prop storefront "ownerName" <> prop account "name".
Proof.
  vm_compute. do 3 eexists.
  repeat (split; [reflexivity|]). discriminate.
Qed.


(* ===================================================================== *)
(** ** Validation at the boundary *)
(* ===================================================================== *)

Lemma trim_blank (s : string) : blank s -> trim s = EmptyString.
Proof.
  unfold blank, trim. induction s as [|c s IH]; simpl; intro H.
  - reflexivity.
  - inversion H; subst. rewrite H2. now apply IH.
Qed.

Lemma destructure_ok (b : value) (k : string) (st : store) :
  get b k <> VUndefined -> destructure b st = (Ok tt, st).
Proof. intro H. destruct b; try reflexivity; now elim H. Qed.

Section Boundary.
Context {R : Runtime}.
Variables (e : env) (ev : event) (st : store) (b : value).
Hypothesis Hpost : httpMethod ev = Some "POST".
Hypothesis Hbody : event_body ev = Json b.

Lemma items_post : items_handler e ev st = try_catch (handleAddItem e ev) internal_error st.
Proof. unfold items_handler. rewrite Hpost. reflexivity. Qed.

Lemma reviews_post :
  reviews_handler e ev st = try_catch (handleCreateReview e ev) internal_error st.
Proof. unfold reviews_handler. rewrite Hpost. reflexivity. Qed.

Lemma price_zero_accepted :
  get b "price" = VNum (Fin 0) ->
  truthy (get b "name") = true -> truthy (get b "description") = true ->
  truthy (get b "category") = true -> truthy (get b "storeId") = true ->
  items_handler e ev st =
    match send_put e {| p_TableName := ITEMS_TABLE; p_Item := new_item e b (Fin 0) |} st with
    | (Ok _, st') =>
        (Ok (sendResponse 201 [("message", VStr "Item added successfully");
                               ("item", VObj (new_item e b (Fin 0)))]), st')
    | (Err _, st') => (Ok (sendResponse 500 (error_body "Failed to add item")), st')
    end.
Proof.
  intros Hp Hn Hd Hc Hs. rewrite items_post.
  unfold try_catch at 1, handleAddItem, bind at 1, parse_body.
  rewrite Hbody. cbn [ret]. unfold bind at 1.
  rewrite (destructure_ok b "price") by (rewrite Hp; discriminate).
  rewrite Hp, Hn, Hd, Hc, Hs. cbn [negb orb is_undefined parseFloat isNaN num_lt].
  cbn -[new_item send_put]. unfold try_catch, bind, ret.
  destruct (send_put _ _ _) as [[[]|m] st1]; reflexivity.
Qed.

Lemma negative_price_rejected :
  get b "price" = VNum (Fin (-1 # 100)) ->
  exists r, items_handler e ev st = (Ok r, st) /\ statusCode r = 400.
Proof.
  intros Hp. rewrite items_post.
  unfold try_catch at 1, handleAddItem, bind at 1, parse_body.
  rewrite Hbody. cbn [ret]. unfold bind at 1.
  rewrite (destructure_ok b "price") by (rewrite Hp; discriminate).
  rewrite Hp. cbn [is_undefined parseFloat isNaN num_lt orb].
  destruct (_ || _); eexists; split; reflexivity.
Qed.

Lemma review_rejected :
  truthy (verifyToken ev) = true ->
  get b "rating" = VNum (Fin 0) \/ get b "rating" = VNum (Fin 6) \/
  (exists s, get b "comment" = VStr s /\ blank s) ->
  exists r, reviews_handler e ev st = (Ok r, st) /\ statusCode r = 400.
Proof.
  intros Hauth Hcase. rewrite reviews_post.
  unfold try_catch at 1, handleCreateReview. rewrite Hauth. cbn [negb].
  unfold bind at 1, parse_body. rewrite Hbody. cbn [ret]. unfold bind at 1.
  assert (Hd : destructure b st = (Ok tt, st)).
  { destruct Hcase as [H|[H|[s [H _]]]];
      [apply (destructure_ok b "rating")|apply (destructure_ok b "rating")
      |apply (destructure_ok b "comment")]; rewrite H; discriminate. }
  rewrite Hd.
  destruct (negb (truthy (get b "itemId"))); [eexists; split; reflexivity|].
  destruct Hcase as [H|[H|[s [H Hblank]]]].
  - rewrite H. eexists; split; reflexivity.
  - rewrite H. eexists; split; reflexivity.
  - destruct (_ || _); [eexists; split; reflexivity|].
    rewrite H. destruct (negb _); [eexists; split; reflexivity|].
    unfold bind at 1, call_trim, ret. rewrite (trim_blank s Hblank).
    eexists; split; reflexivity.
Qed.

End Boundary.

(** C7: for a POST request whose body is the JSON document [b].  Add-item
    accepts a price of 0: with the other required fields present, the item
    is put with price 0 and the answer is 201 (500 if the put fails).
    Add-item answers 400 to a price of -0.01.  Create-review, for an
    authenticated account, answers 400 to a rating of 0, to a rating of 6
    and to a comment made of white space only.  A rejected request leaves
    the store unchanged. *)
Theorem boundary_validation {R : Runtime} (e : env) (ev : event) (st : store)
  (b : value) :
  httpMethod ev = Some "POST" ->
  event_body ev = Json b ->
  (get b "price" = VNum (Fin 0) ->
   truthy (get b "name") = true -> truthy (get b "description") = true ->
   truthy (get b "category") = true -> truthy (get b "storeId") = true ->
   prop (new_item e b (Fin 0)) "price" = VNum (Fin 0) /\
   items_handler e ev st =
     match send_put e {| p_TableName := ITEMS_TABLE;
                         p_Item := new_item e b (Fin 0) |} st with
     | (Ok _, st') =>
         (Ok (sendResponse 201 [("message", VStr "Item added successfully");
                                ("item", VObj (new_item e b (Fin 0)))]), st')
     | (Err _, st') => (Ok (sendResponse 500 (error_body "Failed to add item")), st')
     end) /\
  (get b "price" = VNum (Fin (-1 # 100)) ->
   exists r, items_handler e ev st = (Ok r, st) /\ statusCode r = 400) /\
  (truthy (verifyToken ev) = true ->
   get b "rating" = VNum (Fin 0) \/ get b "rating" = VNum (Fin 6) \/
   (exists s, get b "comment" = VStr s /\ blank s) ->
   exists r, reviews_handler e ev st = (Ok r, st) /\ statusCode r = 400).
Proof.
  intros Hpost Hbody. split; [|split].
  - intros. split; [reflexivity|now apply price_zero_accepted].
  - now apply negative_price_rejected.
  - now apply review_rejected.
Qed.

Lemma boundary_validation_witness :
  let e := Reference.calm "i1" "2024-01-03T00:00:00.000Z" in
  let st := Reference.empty_store in
  (exists r st',
     @items_handler Reference.runtime e add_free_item st = (Ok r, st') /\
     statusCode r = 201 /\
     map (fun i => prop i "price") (st' ITEMS_TABLE) = [VNum (Fin 0)]) /\
  (exists r,
     @reviews_handler Reference.runtime e add_free_item st = (Ok r, st) /\
     statusCode r = 400).
Proof.
  intros e st.
  destruct (@boundary_validation Reference.runtime e add_free_item st free_item_form
              eq_refl eq_refl) as [H1 [_ H3]].
  split.
  - destruct (H1 eq_refl eq_refl eq_refl eq_refl eq_refl) as [_ H].
    rewrite H. do 2 eexists. split; [reflexivity|]. split; reflexivity.
  - apply H3; [reflexivity|left; reflexivity].
Defined.

(* ===================================================================== *)
(** ** The rating of a stored review *)
(* ===================================================================== *)

Lemma Qtruncate_range (q : Q) :
  (1 <= q)%Q -> (q <= 5)%Q -> 1 <= Qtruncate q <= 5.
Proof.
  destruct q as [n d]. unfold Qle, Qtruncate. cbn [Qnum Qden].
  intros H1 H5. rewrite Z.quot_div_nonneg by lia.
  split.
  - apply Z.div_le_lower_bound; lia.
  - assert (n / Z.pos d < 6); [|lia].
    apply Z.div_lt_upper_bound; lia.
Qed.

Lemma positional_range (q : Q) : (1 <= q)%Q -> (q <= 5)%Q -> positional q = true.
Proof.
  intros H1 H5. unfold positional.
  assert (Habs : (Qabs q == q)%Q) by (apply Qabs_pos; lra).
  assert (Hlo : Qle_bool (1 # 1000000) (Qabs q) = true).
  { apply Qle_bool_iff. rewrite Habs. lra. }
  assert (Hhi : Qle_bool (pow10 21) (Qabs q) = false).
  { destruct (Qle_bool (pow10 21) (Qabs q)) eqn:Hb; [|reflexivity].
    apply Qle_bool_iff in Hb. rewrite Habs in Hb.
    assert (Hp : (6 <= pow10 21)%Q) by (unfold pow10, Qle; vm_compute; discriminate).
    lra. }
  rewrite Hlo, Hhi. apply orb_true_r.
Qed.

Lemma parseInt_in_range {R : Runtime} (q : Q) :
  (1 <= q)%Q -> (q <= 5)%Q -> parseInt (VNum (Fin q)) = Fin (inject_Z (Qtruncate q)).
Proof. intros H1 H5. unfold parseInt. now rewrite positional_range. Qed.

Lemma In_upsert (same : obj -> bool) (new : obj) (rows : list obj) :
  In new (upsert same (fun _ => new) rows).
Proof.
  induction rows as [|r rows IH]; simpl; [now left|].
  destruct (same r); [now left|now right].
Qed.

(** C10 (amended): for a create-review request whose rating is a number.
    If the answer is 201, the number lies in [1,5], the review written has
    as rating its integer part, an integer in [1,5], and as comment the
    trimmed, non-empty text of the request.  A number below 1 or above 5 is
    answered 400 and nothing is written. *)
Theorem numeric_rating_stored_in_range {R : Runtime} (e : env) (ev : event)
  (st st' : store) (r : response) (b : value) (n : num) :
  handleCreateReview e ev st = (Ok r, st') ->
  event_body ev = Json b ->
  get b "rating" = VNum n ->
  (statusCode r = 201 ->
   exists (q : Q) (s : string),
     let review := new_review e (get b "itemId") (get (verifyToken ev) "userId")
                     (VNum n) (trim s) in
     n = Fin q /\ (1 <= q)%Q /\ (q <= 5)%Q /\
     get b "comment" = VStr s /\ trim s <> EmptyString /\
     exec_put st {| p_TableName := REVIEWS_TABLE; p_Item := review |} = inr st' /\
     In review (st' REVIEWS_TABLE) /\
     prop review "rating" = VNum (Fin (inject_Z (Qtruncate q))) /\
     1 <= Qtruncate q <= 5 /\
     prop review "comment" = VStr (trim s)) /\
  (truthy (verifyToken ev) = true ->
   num_lt n (Fin 1) = true \/ num_lt (Fin 5) n = true ->
   statusCode r = 400 /\ st' = st).
Proof.
  unfold handleCreateReview. intros H Hbody Hrating.
  destruct (negb (truthy (verifyToken ev))) eqn:Hauth.
  { inversion H; subst. split; [discriminate|].
    intros Ht. rewrite Ht in Hauth. discriminate. }
  unfold bind at 1, parse_body in H. rewrite Hbody in H. cbn [ret] in H.
  unfold bind at 1 in H.
  rewrite (destructure_ok b "rating") in H by (rewrite Hrating; discriminate).
  destruct (negb (truthy (get b "itemId"))).
  { inversion H; subst. split; [discriminate|]. now split. }
  rewrite Hrating in H. cbn [is_undefined orb] in H.
  unfold lt_lit, gt_lit in H. cbn [ToNumber] in H.
  destruct (num_lt n (Fin 1) || num_lt (Fin 5) n) eqn:Hrange.
  { inversion H; subst. split; [discriminate|]. now split. }
  apply orb_false_elim in Hrange. destruct Hrange as [Hlo Hhi].
  split; [|intros _ [Hc|Hc]; congruence].
  intro H201.
  destruct (negb (truthy (get b "comment"))); [inversion H; subst; discriminate|].
  unfold bind at 1, call_trim in H.
  destruct (get b "comment") as [| | | |s| |] eqn:Hcomment; try discriminate.
  cbn [ret] in H.
  destruct (String.eqb (trim s) EmptyString) eqn:Htrim;
    [inversion H; subst; discriminate|].
  apply String.eqb_neq in Htrim.
  unfold try_catch at 1, bind at 1 in H.
  destruct (send_get _ _ _) as [[[item|]|m] st0] eqn:Hget;
    [|inversion H; subst; discriminate|inversion H; subst; discriminate].
  apply quiet_run in Hget; [subst st0|apply quiet_send_get].
  unfold bind at 1 in H.
  match type of H with
  | context [try_catch ?m ?h st] =>
      assert (Hq : quiet (try_catch m h))
        by (apply quiet_try; [|intro]; apply quiet_send_read);
      destruct (try_catch m h st) as [[existing|msg] st0] eqn:Hlook
  end; apply quiet_run in Hlook; try assumption; subst st0;
    [|inversion H; subst; discriminate].
  destruct existing; [|inversion H; subst; discriminate].
  cbv zeta in H. unfold bind, send_put, send_write, ret in H.
  destruct (throws e (PutCommand _)); [inversion H; subst; discriminate|].
  destruct (exec_put st _) as [msg|st1] eqn:Hput; [inversion H; subst; discriminate|].
  inversion H; subst st1; clear H.
  assert (Hn : exists q, n = Fin q /\ (1 <= q)%Q /\ (q <= 5)%Q).
  { destruct n as [q| | |].
    - exists q. split; [reflexivity|]. cbn in Hlo, Hhi.
      apply negb_false_iff in Hlo, Hhi. apply Qle_bool_iff in Hlo, Hhi. now split.
    - exfalso. unfold exec_put in Hput. cbn in Hput.
      destruct (marshall_error (get b "itemId")); [discriminate|].
      destruct (marshall_error (get (verifyToken ev) "userId")); discriminate.
    - discriminate.
    - discriminate. }
  destruct Hn as [q [-> [Hq1 Hq5]]].
  exists q, s. cbv zeta.
  repeat split; try assumption.
  - unfold exec_put in Hput. cbn [p_Item p_TableName] in Hput.
    destruct (marshall_error _); [discriminate|].
    cbn [key_attr new_review assoc String.eqb Ascii.eqb Bool.eqb] in Hput.
    injection Hput as <-. unfold write_table. cbn [table_eqb].
    apply In_upsert.
  - rewrite <- parseInt_in_range by assumption. reflexivity.
  - now apply Qtruncate_range.
  - now apply Qtruncate_range.
Qed.

Lemma numeric_rating_stored_in_range_witness :
  let e := Reference.calm "rv1" "2024-01-04T00:00:00.000Z" in
  let ev := submit_review buyer_token (VNum (Fin (9 # 2))) " good " in
  exists (q : Q) (s : string),
    Fin (9 # 2) = Fin q /\
    In (new_review (R := Reference.runtime) e (VStr "i1") (VStr "u2")
          (VNum (Fin (9 # 2))) (trim s))
       (snd (@handleCreateReview Reference.runtime e ev catalog) REVIEWS_TABLE) /\
    1 <= Qtruncate q <= 5.
Proof.
  intros e ev.
  destruct (@numeric_rating_stored_in_range Reference.runtime e ev catalog
              (snd (@handleCreateReview Reference.runtime e ev catalog))
              (sendResponse 201
                 [("message", VStr "Review created successfully");
                  ("review",
                   VObj (new_review (R := Reference.runtime) e (VStr "i1") (VStr "u2")
                           (VNum (Fin (9 # 2))) "good"))])
              (review_form (VNum (Fin (9 # 2))) " good ")
              (Fin (9 # 2)) eq_refl eq_refl eq_refl) as [H _].
  destruct (H eq_refl) as [q [s [Hn [_ [_ [_ [_ [_ [Hin [_ [Hk _]]]]]]]]]]].
  exists q, s. split; [exact Hn|]. split; [exact Hin|exact Hk].
Defined.

(** C10, counterexample: a rating of 4.5, which is not an integer, is not
    rejected: the answer is 201 and the review is stored with rating 4. *)
Lemma fractional_rating_is_accepted :
  let e := Reference.calm "rv1" "2024-01-04T00:00:00.000Z" in
  let out := @reviews_handler Reference.runtime e
               (submit_review buyer_token (VNum (Fin (9 # 2))) "good") catalog in
  (exists r, fst out = Ok r /\ statusCode r = 201) /\
  map (fun review => prop review "rating") (snd out REVIEWS_TABLE) = [VNum (Fin 4)] /\
  (forall k : Z, ~ (inject_Z k == 9 # 2)%Q).
Proof.
  split; [eexists; split; vm_compute; reflexivity|].
  split; [vm_compute; reflexivity|].
  intros k H. unfold Qeq in H. cbn in H. lia.
Qed.

(** The text "9abc" is not a number, so neither comparison of the range
    check holds for it, and [parseInt] reads its leading digit: the review
    is stored with rating 9. *)
Example rating_9abc_is_stored :
  let e := Reference.calm "rv1" "2024-01-04T00:00:00.000Z" in
  let out := @reviews_handler Reference.runtime e
               (submit_review buyer_token (VStr "9abc") "good") catalog in
  (exists r, fst out = Ok r /\ statusCode r = 201) /\
  map (fun review => prop review "rating") (snd out REVIEWS_TABLE) = [VNum (Fin 9)].
Proof.
  split; [eexists; split; vm_compute; reflexivity|vm_compute; reflexivity].
Qed.

(* ===================================================================== *)
(** ** The average rating *)
(* ===================================================================== *)





Example average_of_two_reviews :
  let e := Reference.calm "x" "2024-01-07T00:00:00.000Z" in
  let out := @handleGetReviews Reference.runtime e (list_reviews "i1") two_reviews in
  exists (r : response) (a : Q),
    fst out = Ok r /\
    map (fun v => get v "reviewId")
      (match get (body r) "reviews" with VArr l => l | _ => [] end)
    = [VStr "r2"; VStr "r1"] /\
    get (body r) "averageRating" = VNum (Fin a) /\ (a == 9 # 2)%Q /\
    get (body r) "totalReviews" = VNum (Fin 2).
Proof.
  vm_compute. do 2 eexists. repeat split.
Qed.

(* ===================================================================== *)
(** ** The duplicate-review guard *)
(* ===================================================================== *)



Section DuplicateGuard.
Context {R : Runtime}.
Variables (e : env) (st : store) (itemId userId : value).
Hypothesis Hitem : marshall_error itemId = None.
Hypothesis Huser : marshall_error userId = None.




End DuplicateGuard.



(* ===================================================================== *)
(** ** The fallback from the index to a scan *)
(* ===================================================================== *)

Lemma filter_all {A : Type} (l : list A) : filter (fun _ => true) l = l.
Proof. induction l as [|x l IH]; simpl; [reflexivity|now rewrite IH]. Qed.

Section Fallback.
Context {R : Runtime}.
Variables (e : env) (st : store).










End Fallback.



(** A line whose item is missing degrades to [itemDetails: null] ... *)
Example missing_item_degrades_to_null :
  fst (@orders_handler Reference.runtime (index_missing "x" "t")
         (list_orders buyer_token) (order_lines [line_of "i1"; line_of "i9"]))
  = Ok (sendResponse 200
          [("orders",
            VArr [VObj [("orderId", VStr "o1"); ("userId", VStr "u2");
                        ("items",
                         VArr [VObj [("itemId", VStr "i1");
                                     ("itemDetails",
                                      VObj [("id", VStr "i1"); ("name", VStr "Book")])];
                               VObj [("itemId", VStr "i9");
                                     ("itemDetails", VNull)]])]])]).
Proof. vm_compute. reflexivity. Qed.

(** ... but a line that is itself [null] fails the whole answer: the
    handler of the failed lookup reads [item.itemId] for its log line. *)
Example null_line_fails_orders :
  fst (@orders_handler Reference.runtime (Reference.calm "x" "t")
         (list_orders buyer_token) (order_lines [line_of "i1"; VNull]))
  = Ok (sendResponse 500 (error_body "Failed to get orders")).
Proof. vm_compute. reflexivity. Qed.



(* ===================================================================== *)
(** ** Accounts *)
(* ===================================================================== *)

(** The reference runtime keeps the promises of the libraries. *)

Lemma append_assoc (a b c : string) : ((a ++ b) ++ c = a ++ (b ++ c))%string.
Proof. induction a as [|x a IH]; simpl; [reflexivity|now rewrite IH]. Qed.

Lemma length_append (a b : string) :
  String.length (a ++ b) = (String.length a + String.length b)%nat.
Proof. induction a as [|x a IH]; simpl; [reflexivity|now rewrite IH]. Qed.

Lemma substring_from_append (a b : string) :
  substring_from (String.length a) (a ++ b) = b.
Proof. induction a as [|x a IH]; simpl; [now destruct b|exact IH]. Qed.

Lemma reference_bcrypt (p : string) (rounds : nat) (salt : string) :
  Reference.compare p (Reference.hash p rounds salt) = true.
Proof.
  unfold Reference.compare, Reference.hash, Reference.ends_with.
  rewrite length_append.
  replace (String.length salt + String.length ("$" ++ p) - String.length ("$" ++ p))%nat
    with (String.length salt) by lia.
  rewrite substring_from_append. apply String.eqb_refl.
Qed.

Lemma take_append (a b : string) :
  Reference.take (String.length a) (a ++ b) = Some (a, b).
Proof. induction a as [|x a IH]; simpl; [reflexivity|now rewrite IH]. Qed.

Lemma decode_unary (k n : nat) (x : string) :
  Reference.decode n (Reference.unary k ++ x) = Reference.take (n + k) x.
Proof.
  revert n. induction k as [|k IH]; intro n; simpl.
  - now rewrite Nat.add_0_r.
  - rewrite IH. f_equal. lia.
Qed.

Lemma decode_encode (a b : string) :
  Reference.decode 0 (Reference.encode a ++ b) = Some (a, b).
Proof.
  unfold Reference.encode. rewrite append_assoc, decode_unary. apply take_append.
Qed.

Lemma reference_jwt (u e r : string) :
  Reference.verify
    (Reference.sign [("userId", VStr u); ("email", VStr e); ("role", VStr r)])
  = Some (VObj [("userId", VStr u); ("email", VStr e); ("role", VStr r)]).
Proof.
  unfold Reference.verify, Reference.sign. cbn [prop assoc String.eqb Ascii.eqb Bool.eqb].
  rewrite decode_encode, decode_encode.
  replace (Reference.encode r) with (Reference.encode r ++ EmptyString).
  - now rewrite decode_encode.
  - clear. induction (Reference.encode r) as [|x s IH]; simpl; [reflexivity|now rewrite IH].
Qed.

Lemma reference_laws : RuntimeLaws Reference.runtime.
Proof.
  split.
  - exact reference_bcrypt.
  - intros u e r. eexists. split; [apply reference_jwt|]. now repeat split.
Qed.

Lemma register_query_reads (st : store) (email : string) :
  exec_query st (register_query email)
  = inr (firstn 1 (filter (by_email email) (st USERS_TABLE))).
Proof. unfold exec_query. cbn. now rewrite filter_all. Qed.

Lemma login_query_reads (st : store) (email : string) :
  exec_query st (login_query email) = inr (filter (by_email email) (st USERS_TABLE)).
Proof. unfold exec_query. cbn. now rewrite filter_all. Qed.

Lemma firstn_1_nil {A : Type} (l : list A) : firstn 1 l = [] -> l = [].
Proof. destruct l; [reflexivity|discriminate]. Qed.

Lemma filter_upsert_new (f same : obj -> bool) (new : obj) (rows : list obj) :
  f new = true -> filter f rows = [] ->
  filter f (upsert same (fun _ => new) rows) = [new].
Proof.
  intros Hnew. induction rows as [|r rows IH]; simpl; intro Hnone.
  - now rewrite Hnew.
  - destruct (f r) eqn:Hr; [discriminate|].
    destruct (same r); simpl.
    + now rewrite Hnew, Hnone.
    + rewrite Hr. now apply IH.
Qed.

Section Register.
Context {R : Runtime}.
Variables (e : env) (ev : event) (st st' : store) (r : response) (b : value).
Hypothesis Hbody : event_body ev = Json b.
Hypothesis Hrun : handleRegister e ev st = (Ok r, st').
Hypothesis H201 : statusCode r = 201.

(** What a registration answered 201 has done. *)
Lemma register_created :
  exists email password : string,
    let lowered := toLowerCase email in
    let rounds := if production e then 10%nat else 4%nat in
    let user := new_user e lowered (get b "name")
                  (bcrypt_hash password rounds (salt e)) (get b "role") in
    get b "email" = VStr email /\ get b "password" = VStr password /\
    valid_registration b = true /\
    st' USERS_TABLE
      = upsert (has_key [("userId", VStr (uuid e))]) (fun _ => user) (st USERS_TABLE) /\
    r = sendResponse 201
          [("message", VStr "User created successfully");
           ("user", VObj (omit "password" user));
           ("token", VStr (jwt_sign (claims (VStr (uuid e)) (VStr lowered)
                                       (get b "role"))))] /\
    (throws e (QueryCommand (register_query lowered)) = None ->
     filter (by_email lowered) (st USERS_TABLE) = []).
Proof.
  unfold handleRegister, bind at 1, parse_body in Hrun. rewrite Hbody in Hrun.
  cbn [ret] in Hrun. unfold bind at 1 in Hrun.
  destruct (destructure b st) as [[[]|m] st0] eqn:Hd; [|discriminate].
  apply quiet_run in Hd; [subst st0|apply quiet_destructure].
  destruct (_ || _) eqn:Hmissing; [inversion Hrun; subst; discriminate|].
  repeat (apply orb_false_elim in Hmissing; destruct Hmissing as [Hmissing ?]).
  destruct (negb (_ || _)) eqn:Hrole; [inversion Hrun; subst; discriminate|].
  destruct (lt_lit _ _) eqn:Hlen; [inversion Hrun; subst; discriminate|].
  unfold bind at 1 in Hrun.
  destruct (try_catch _ _ st) as [[found|m] st0] eqn:Hlook; [|discriminate].
  assert (st0 = st).
  { eapply quiet_run; [|exact Hlook]. unfold call_toLowerCase.
    apply quiet_try; [|intro; apply quiet_ret].
    destruct (get b "email"); quiet_tac. }
  subst st0.
  destruct found; [inversion Hrun; subst; discriminate|].
  unfold bind at 1, call_bcrypt_hash in Hrun.
  destruct (get b "password") as [| | | |password| |] eqn:Hpw; try discriminate.
  cbn [ret] in Hrun. unfold bind at 1, call_toLowerCase in Hrun.
  destruct (get b "email") as [| | | |email| |] eqn:Hem; try discriminate.
  cbn [ret] in Hrun. cbv zeta in Hrun.
  unfold try_catch, bind, send_put, send_write, ret in Hrun.
  destruct (throws e (PutCommand _)); [inversion Hrun; subst; discriminate|].
  destruct (exec_put st _) as [m|st1] eqn:Hput; [inversion Hrun; subst; discriminate|].
  inversion Hrun; subst; clear Hrun.
  exists email, password. cbv zeta.
  split; [reflexivity|]. split; [reflexivity|]. split.
  { unfold valid_registration. rewrite Hem, Hpw.
    apply negb_false_iff in Hmissing, H, H0, H1, Hrole.
    now rewrite Hmissing, H1, H0, H, Hrole, Hlen. }
  split.
  { unfold exec_put in Hput. cbn [p_Item p_TableName] in Hput.
    destruct (marshall_error _); [discriminate|].
    cbn [key_attr new_user assoc String.eqb Ascii.eqb Bool.eqb] in Hput.
    injection Hput as <-. unfold write_table. cbn [table_eqb]. reflexivity. }
  split; [reflexivity|].
  intro Hanswer.
  unfold try_catch, bind, call_toLowerCase, ret, send_query, send_read in Hlook.
  rewrite Hanswer, register_query_reads in Hlook.
  destruct (firstn 1 _) eqn:Hfirst; [|discriminate].
  now apply firstn_1_nil.
Qed.

End Register.

Lemma by_email_new_user (e : env) (lowered : string) (name : value)
  (hashed : string) (role : value) :
  by_email lowered (new_user e lowered name hashed role) = true.
Proof. unfold by_email, attr_is. cbn. apply String.eqb_refl. Qed.

Lemma filter_In_nonempty {A : Type} (f : A -> bool) (x : A) (l : list A) :
  In x l -> f x = true -> exists y l', filter f l = y :: l'.
Proof.
  intros Hin Hf. destruct (filter f l) as [|y l'] eqn:Hfl; [|now eauto].
  assert (Hx : In x (filter f l)) by (apply filter_In; now split).
  rewrite Hfl in Hx. now elim Hx.
Qed.

(** C6 (amended): after a registration answered 201, a valid registration
    whose email is equal to the first after lowercasing is answered 409 and
    writes nothing, provided its query of the email index is answered. *)
Theorem second_registration_conflicts {R : Runtime} (e1 e2 : env) (ev1 ev2 : event)
  (st st1 : store) (r1 : response) (b1 b2 : value) (email1 email2 : string) :
  event_body ev1 = Json b1 ->
  get b1 "email" = VStr email1 ->
  handleRegister e1 ev1 st = (Ok r1, st1) ->
  statusCode r1 = 201 ->
  event_body ev2 = Json b2 ->
  get b2 "email" = VStr email2 ->
  valid_registration b2 = true ->
  toLowerCase email2 = toLowerCase email1 ->
  throws e2 (QueryCommand (register_query (toLowerCase email2))) = None ->
  handleRegister e2 ev2 st1
  = (Ok (sendResponse 409 (error_body "User with this email already exists")), st1).
Proof.
  intros Hbody1 Hemail1 Hrun1 H201 Hbody2 Hemail2 Hvalid Hsame Hanswer.
  destruct (register_created e1 ev1 st st1 r1 b1 Hbody1 Hrun1 H201)
    as [email [password [Hem [_ [_ [Husers _]]]]]].
  rewrite Hemail1 in Hem. injection Hem as <-.
  unfold valid_registration in Hvalid.
  apply andb_prop in Hvalid. destruct Hvalid as [Hvalid Hlen].
  apply andb_prop in Hvalid. destruct Hvalid as [Hvalid Hrole].
  apply andb_prop in Hvalid. destruct Hvalid as [Hvalid Hr].
  apply andb_prop in Hvalid. destruct Hvalid as [Hvalid Hpw].
  apply andb_prop in Hvalid. destruct Hvalid as [Hname Hem].
  apply negb_true_iff in Hlen.
  unfold handleRegister, bind at 1, parse_body. rewrite Hbody2. cbn [ret].
  unfold bind at 1.
  rewrite (destructure_ok b2 "email") by (rewrite Hemail2; discriminate).
  rewrite Hname, Hem, Hpw, Hr, Hrole, Hlen. cbn [negb orb].
  unfold bind at 1, try_catch at 1, bind at 1, call_toLowerCase at 1.
  rewrite Hemail2. cbn [ret]. unfold bind at 1, send_query, send_read.
  rewrite Hanswer, register_query_reads, Husers, Hsame.
  match goal with
  | |- context [filter ?f (upsert ?same (fun _ => ?new) ?rows)] =>
      destruct (filter_In_nonempty f new (upsert same (fun _ => new) rows)
                  (In_upsert same new rows) (by_email_new_user _ _ _ _ _))
        as [y [l' Hfilter]]
  end.
  rewrite Hfilter. reflexivity.
Qed.

Lemma second_registration_conflicts_witness :
  let e1 := Reference.calm "u1" "2024-01-01T00:00:00.000Z" in
  let e2 := Reference.calm "u2" "2024-01-02T00:00:00.000Z" in
  let st1 := snd (@handleRegister Reference.runtime e1 register_alice
                    Reference.empty_store) in
  @handleRegister Reference.runtime e2 register_alice_again st1
  = (Ok (sendResponse 409 (error_body "User with this email already exists")), st1).
Proof.
  intros e1 e2.
  destruct (@handleRegister Reference.runtime e1 register_alice Reference.empty_store)
    as [[r1|m] st1] eqn:Hrun; [|vm_compute in Hrun; discriminate].
  assert (H201 : statusCode r1 = 201).
  { vm_compute in Hrun. injection Hrun as <- _. reflexivity. }
  cbn [snd].
  exact (@second_registration_conflicts Reference.runtime e1 e2 register_alice
           register_alice_again Reference.empty_store st1 r1 _ _
           "Alice@Example.com" "ALICE@EXAMPLE.COM"
           eq_refl eq_refl Hrun H201 eq_refl eq_refl eq_refl eq_refl eq_refl).
Defined.

(** C6, counterexample: the email index is missing.  Alice registers and is
    answered 201; a second registration with her email in capitals is
    answered 201 as well and leaves two accounts with the same email. *)
Lemma duplicate_email_registered_without_index :
  let e2 := index_missing "u2" "2024-01-02T00:00:00.000Z" in
  let out := @users_handler Reference.runtime e2 register_alice_again
               (snd alice_registered_unindexed) in
  toLowerCase "ALICE@EXAMPLE.COM" = toLowerCase "Alice@Example.com" /\
  (exists r, fst alice_registered_unindexed = Ok r /\ statusCode r = 201) /\
  (exists r, fst out = Ok r /\ statusCode r = 201) /\
  map (fun account => prop account "email") (snd out USERS_TABLE)
  = [VStr "alice@example.com"; VStr "alice@example.com"].
Proof.
  split; [reflexivity|]. split; [eexists; split; vm_compute; reflexivity|].
  split; [eexists; split; vm_compute; reflexivity|]. vm_compute. reflexivity.
Qed.

(** C5 (amended): the account in the 201 answer of a registration has no
    password field.  If the lookups of the email index by the registration
    and by the login are both answered, a login with the same email and
    password on the resulting store answers 200 with a token that verifies
    to the account id and role of the registration answer. *)
Theorem registration_then_login {R : Runtime} {L : RuntimeLaws R} (e1 e2 : env)
  (ev1 ev2 : event) (st st1 : store) (r1 : response) (b1 b2 : value) :
  event_body ev1 = Json b1 ->
  handleRegister e1 ev1 st = (Ok r1, st1) ->
  statusCode r1 = 201 ->
  (exists account, get (body r1) "user" = VObj account /\
                   assoc "password" account = None) /\
  (event_body ev2 = Json b2 ->
   get b2 "email" = get b1 "email" ->
   get b2 "password" = get b1 "password" ->
   (forall email, get b1 "email" = VStr email ->
      throws e1 (QueryCommand (register_query (toLowerCase email))) = None /\
      throws e2 (QueryCommand (login_query (toLowerCase email))) = None) ->
   exists (r2 : response) (token : string) (decoded : value),
     handleLogin e2 ev2 st1 = (Ok r2, st1) /\
     statusCode r2 = 200 /\
     get (body r2) "token" = VStr token /\
     jwt_verify token = Some decoded /\
     get decoded "userId" = get (get (body r1) "user") "userId" /\
     get decoded "role" = get (get (body r1) "user") "role").
Proof.
  intros Hbody1 Hrun1 H201.
  destruct (register_created e1 ev1 st st1 r1 b1 Hbody1 Hrun1 H201)
    as [email [password [Hem [Hpw [Hvalid [Husers [Hr1 Hnone]]]]]]].
  split.
  { rewrite Hr1. eexists. split; reflexivity. }
  intros Hbody2 Hemail2 Hpassword2 Hanswers.
  destruct (Hanswers email Hem) as [Hanswer1 Hanswer2].
  specialize (Hnone Hanswer1).
  unfold valid_registration in Hvalid.
  apply andb_prop in Hvalid. destruct Hvalid as [Hvalid Hlen].
  apply andb_prop in Hvalid. destruct Hvalid as [Hvalid Hrole].
  apply andb_prop in Hvalid. destruct Hvalid as [Hvalid _].
  apply andb_prop in Hvalid. destruct Hvalid as [Hvalid Hpwt].
  apply andb_prop in Hvalid. destruct Hvalid as [_ Hemt].
  assert (Hrole' : exists role, get b1 "role" = VStr role).
  { destruct (get b1 "role"); try discriminate. eauto. }
  destruct Hrole' as [role Hrole'].
  destruct (jwt_verify_sign (uuid e1) (toLowerCase email) role)
    as [decoded [Hverify [Hid [_ Hdrole]]]].
  set (user := new_user e1 (toLowerCase email) (get b1 "name")
                 (bcrypt_hash password (if production e1 then 10%nat else 4%nat)
                    (salt e1)) (get b1 "role")) in *.
  assert (Hlogin : handleLogin e2 ev2 st1
            = (Ok (sendResponse 200
                     [("message", VStr "Login successful");
                      ("user", VObj (omit "password" user));
                      ("token", VStr (jwt_sign (claims (prop user "userId")
                                                  (prop user "email")
                                                  (prop user "role"))))]), st1)).
  { unfold handleLogin, bind at 1, parse_body. rewrite Hbody2. cbn [ret].
    unfold bind at 1.
    rewrite (destructure_ok b2 "email") by (rewrite Hemail2, Hem; discriminate).
    rewrite Hemail2, Hpassword2, Hemt, Hpwt. cbn [negb orb].
    rewrite Hem, Hpw.
    unfold try_catch, bind at 1, call_toLowerCase. cbn [ret].
    unfold bind at 1, send_query, send_read.
    rewrite Hanswer2, login_query_reads, Husers.
    rewrite (filter_upsert_new _ _ user _ (by_email_new_user _ _ _ _ _) Hnone).
    unfold bind, call_bcrypt_compare, ret.
    change (prop user "password")
      with (VStr (bcrypt_hash password (if production e1 then 10%nat else 4%nat)
                    (salt e1))).
    cbv beta iota. rewrite bcrypt_compare_hash. reflexivity. }
  eexists. exists (jwt_sign (claims (prop user "userId") (prop user "email")
                               (prop user "role"))), decoded.
  split; [exact Hlogin|]. split; [reflexivity|]. split; [reflexivity|].
  rewrite Hr1. unfold user, claims. cbn [new_user prop assoc String.eqb Ascii.eqb Bool.eqb].
  rewrite Hrole'. split; [exact Hverify|]. split; [exact Hid|].
  cbn. exact Hdrole.
Qed.

Lemma registration_then_login_witness :
  let e1 := Reference.calm "u1" "2024-01-01T00:00:00.000Z" in
  let e2 := Reference.calm "x" "2024-01-02T00:00:00.000Z" in
  let st1 := snd (@handleRegister Reference.runtime e1 register_alice
                    Reference.empty_store) in
  exists (r2 : response) (token : string) (decoded : value),
    @handleLogin Reference.runtime e2 (login_as "Alice@Example.com" "secret1") st1
      = (Ok r2, st1) /\
    statusCode r2 = 200 /\
    get (body r2) "token" = VStr token /\
    Reference.verify token = Some decoded /\
    get decoded "userId" = VStr "u1" /\
    get decoded "role" = VStr "seller".
Proof.
  intros e1 e2.
  destruct (@handleRegister Reference.runtime e1 register_alice Reference.empty_store)
    as [[r1|m] st1] eqn:Hrun; [|vm_compute in Hrun; discriminate].
  assert (H201 : statusCode r1 = 201).
  { vm_compute in Hrun. injection Hrun as <- _. reflexivity. }
  assert (Hid : get (get (body r1) "user") "userId" = VStr "u1").
  { vm_compute in Hrun. injection Hrun as <- _. reflexivity. }
  assert (Hrole : get (get (body r1) "user") "role" = VStr "seller").
  { vm_compute in Hrun. injection Hrun as <- _. reflexivity. }
  cbn [snd].
  destruct (@registration_then_login Reference.runtime reference_laws e1 e2
              register_alice (login_as "Alice@Example.com" "secret1")
              Reference.empty_store st1 r1
              alice_form (login_form "Alice@Example.com" "secret1")
              eq_refl Hrun H201) as [_ Hlogin].
  destruct (Hlogin eq_refl eq_refl eq_refl) as [r2 [token [decoded H]]].
  { intros email _. split; reflexivity. }
  exists r2, token, decoded. rewrite <- Hid, <- Hrole. exact H.
Defined.

(** C5, counterexample: two registrations answered 201 whose logins fail.
    While the email index is missing Alice registers, and her login with the
    same email and password is answered 500.  "Alice B" registers with the
    same email, still without the index; once the index answers, her login
    with her own password finds Alice's account first and is answered
    401. *)
Lemma login_fails_after_registration :
  let missing := index_missing "u2" "2024-01-02T00:00:00.000Z" in
  let calm := Reference.calm "x" "2024-01-03T00:00:00.000Z" in
  let second := @users_handler Reference.runtime missing register_alice_again
                  (snd alice_registered_unindexed) in
  (exists r, fst alice_registered_unindexed = Ok r /\ statusCode r = 201 /\
             get (get (body r) "user") "password" = VUndefined) /\
  (exists r, fst (@users_handler Reference.runtime missing
                    (login_as "Alice@Example.com" "secret1")
                    (snd alice_registered_unindexed))
             = Ok r /\ statusCode r = 500) /\
  (exists r, fst second = Ok r /\ statusCode r = 201) /\
  (exists r, fst (@users_handler Reference.runtime calm
                    (login_as "ALICE@EXAMPLE.COM" "secret2") (snd second))
             = Ok r /\ statusCode r = 401).
Proof.
  split; [eexists; split; [|split]; vm_compute; reflexivity|].
  repeat split; eexists; split; vm_compute; reflexivity.
Qed.

(* ===================================================================== *)
(** ** The shape of the answers *)
(* ===================================================================== *)

Lemma returns_ret (P : response -> Prop) (r : response) : P r -> returns P (ret r).
Proof. intros H st r' st' Heq. inversion Heq; subst. exact H. Qed.

Lemma returns_throw (P : response -> Prop) (m : string) : returns P (throw m).
Proof. intros st r st' Heq. discriminate Heq. Qed.

Lemma returns_bind {A : Type} (P : response -> Prop) (m : M A) (k : A -> M response) :
  (forall a, returns P (k a)) -> returns P (bind m k).
Proof.
  intros Hk st r st' Heq. unfold bind in Heq.
  destruct (m st) as [[a|msg] st1]; [eapply Hk; exact Heq|discriminate Heq].
Qed.

Lemma returns_try (P : response -> Prop) (m : M response) (h : string -> M response) :
  returns P m -> (forall msg, returns P (h msg)) -> returns P (try_catch m h).
Proof.
  intros Hm Hh st r st' Heq. unfold try_catch in Heq.
  destruct (m st) as [[a|msg] st1] eqn:Hrun.
  - inversion Heq; subst. eapply Hm; exact Hrun.
  - eapply Hh; exact Heq.
Qed.

(** The [catch] of an entry point turns every exception into an answer. *)
Lemma caught_answers (m : M response) (st : store) :
  exists r st', try_catch m internal_error st = (Ok r, st').
Proof.
  unfold try_catch. destruct (m st) as [[r|msg] st1]; eexists; eexists; reflexivity.
Qed.

Ltac shaped_tac :=
  unfold shaped; cbn [headers statusCode body sendResponse];
  split; [reflexivity|];
  split; [cbn; tauto|];
  first [ left; split; reflexivity
        | right; split; [reflexivity|eexists; reflexivity] ].

Ltac returns_with tac :=
  repeat first
    [ apply returns_throw
    | apply returns_ret; solve [tac]
    | apply returns_bind; intro
    | apply returns_try; [|intro]
    | match goal with
      | |- returns _ (if ?b then _ else _) => destruct b
      | |- returns _ (match ?x with _ => _ end) => destruct x
      | |- returns _ (let _ := _ in _) => cbv zeta
      end ].

Ltac returns_tac := returns_with shaped_tac.

Section Shape.
Context {R : Runtime}.
Variable e : env.

Lemma shaped_users ev : returns (shaped (statuses Accounts)) (users_handler e ev).
Proof.
  unfold users_handler, handleRegister, handleLogin, handleGetProfile,
    preflight, unauthorized, internal_error, statuses.
  returns_tac.
Qed.

Lemma shaped_storefronts ev :
  returns (shaped (statuses Storefronts)) (storefronts_handler e ev).
Proof.
  unfold storefronts_handler, handleCreateStorefront, handleGetStorefront,
    handleGetMyStorefronts, handleListStorefronts,
    preflight, unauthorized, internal_error, statuses.
  returns_tac.
Qed.

Lemma shaped_items ev : returns (shaped (statuses Items)) (items_handler e ev).
Proof.
  unfold items_handler, handleAddItem, handleGetItems,
    preflight, unauthorized, internal_error, statuses.
  returns_tac.
Qed.

Lemma shaped_reviews ev : returns (shaped (statuses Reviews)) (reviews_handler e ev).
Proof.
  unfold reviews_handler, handleGetReviews, handleCreateReview,
    preflight, unauthorized, internal_error, statuses.
  returns_tac.
Qed.

Lemma shaped_orders ev : returns (shaped (statuses Orders)) (orders_handler e ev).
Proof.
  unfold orders_handler, handleGetOrders, handleCreateOrder,
    preflight, unauthorized, internal_error, statuses.
  returns_tac.
Qed.

Lemma entry_answers (f : lambda) (ev : event) (st : store) :
  exists r st', entry f e ev st = (Ok r, st').
Proof.
  destruct f; cbn [entry];
    [unfold users_handler|unfold storefronts_handler|unfold items_handler
    |unfold reviews_handler|unfold orders_handler];
    (destruct (String.eqb _ _); [eexists; eexists; reflexivity|]);
    cbv zeta; apply caught_answers.
Qed.

Lemma entry_shaped (f : lambda) (ev : event) :
  returns (shaped (statuses f)) (entry f e ev).
Proof.
  destruct f; cbn [entry];
    auto using shaped_users, shaped_storefronts, shaped_items, shaped_reviews,
      shaped_orders.
Qed.

End Shape.

(** X1: every invocation of the five functions is answered: no exception
    leaves an entry point.  The answer carries the cross-origin headers, and
    its body has an [error] text exactly when its status is not 2xx. *)
Theorem every_invocation_answers {R : Runtime} (f : lambda) (e : env) (ev : event)
  (st : store) :
  exists r st',
    entry f e ev st = (Ok r, st') /\
    headers r = corsHeaders /\
    (is_2xx r = true /\ get (body r) "error" = VUndefined \/
     is_2xx r = false /\ exists message, get (body r) "error" = VStr message).
Proof.
  destruct (entry_answers e f ev st) as [r [st' Hrun]].
  exists r, st'. split; [exact Hrun|].
  destruct (entry_shaped e f ev st r st' Hrun) as [Hh [_ He]]. auto.
Qed.

(** X2: the accounts function answers only with 200, 201, 400, 401, 404,
    409 or 500; the storefronts function with 200, 201, 400, 401, 403, 404
    or 500; the items function with 200, 201, 400, 405 or 500; the reviews
    function with 200, 201, 400, 401, 404, 405, 409 or 500; the orders
    function with 200, 201, 400, 401, 405 or 500. *)
Theorem statuses_of_each_function {R : Runtime} (f : lambda) (e : env) (ev : event)
  (st : store) :
  exists r st', entry f e ev st = (Ok r, st') /\ In (statusCode r) (statuses f).
Proof.
  destruct (entry_answers e f ev st) as [r [st' Hrun]].
  exists r, st'. split; [exact Hrun|].
  apply (entry_shaped e f ev st r st' Hrun).
Qed.

(* ===================================================================== *)
(** ** What an invocation may write *)
(* ===================================================================== *)

Lemma evolves_refl ts st : evolves ts st st.
Proof. intro t; split; auto. Qed.

Lemma evolves_trans ts st1 st2 st3 :
  evolves ts st1 st2 -> evolves ts st2 st3 -> evolves ts st1 st3.
Proof.
  intros H12 H23 t. destruct (H12 t) as [Ha Hb], (H23 t) as [Hc Hd]. split.
  - intro Ht. rewrite Hc, Ha; auto.
  - lia.
Qed.

Section Steps.
Variable ts : table -> bool.

Lemma steps_quiet {A : Type} (m : M A) : quiet m -> steps (evolves ts) m.
Proof. intros H st. rewrite H. apply evolves_refl. Qed.

Lemma steps_bind {A B : Type} (m : M A) (k : A -> M B) :
  steps (evolves ts) m -> (forall a, steps (evolves ts) (k a)) ->
  steps (evolves ts) (bind m k).
Proof.
  intros Hm Hk st. unfold bind. specialize (Hm st).
  destruct (m st) as [[a|msg] st1]; cbn [snd] in *; [|exact Hm].
  eapply evolves_trans; [exact Hm|apply Hk].
Qed.

Lemma steps_try {A : Type} (m : M A) (h : string -> M A) :
  steps (evolves ts) m -> (forall msg, steps (evolves ts) (h msg)) ->
  steps (evolves ts) (try_catch m h).
Proof.
  intros Hm Hh st. unfold try_catch. specialize (Hm st).
  destruct (m st) as [[a|msg] st1]; cbn [snd] in *; [exact Hm|].
  eapply evolves_trans; [exact Hm|apply Hh].
Qed.

Lemma length_upsert (same : obj -> bool) (change : option obj -> obj)
  (rows : list obj) :
  (List.length rows <= List.length (upsert same change rows))%nat.
Proof.
  induction rows as [|r rows IH]; simpl; [lia|].
  destruct (same r); simpl; lia.
Qed.

Lemma evolves_write (t : table) (same : obj -> bool) (change : option obj -> obj)
  (st : store) :
  ts t = true ->
  evolves ts st (write_table t (upsert same change (st t)) st).
Proof.
  intros Ht t'. unfold write_table. destruct (table_eqb t t') eqn:Heq.
  - assert (t = t') as <- by (destruct t, t'; (reflexivity || discriminate)).
    split; [congruence|apply length_upsert].
  - split; auto.
Qed.

Lemma steps_put (e : env) (i : PutInput) :
  ts (p_TableName i) = true -> steps (evolves ts) (send_put e i).
Proof.
  intros Ht st. unfold send_put, send_write.
  destruct (throws e _); [apply evolves_refl|].
  unfold exec_put. destruct (marshall_error _); [apply evolves_refl|].
  destruct (assoc _ _); [|apply evolves_refl].
  cbn [snd]. now apply evolves_write.
Qed.

Lemma steps_update (e : env) (i : UpdateInput) :
  ts (u_TableName i) = true -> steps (evolves ts) (send_update e i).
Proof.
  intros Ht st. unfold send_update, send_write.
  destruct (throws e _); [apply evolves_refl|].
  unfold exec_update. destruct (marshall_error _); [apply evolves_refl|].
  destruct (marshall_error _); [apply evolves_refl|].
  destruct (assoc _ _); [|apply evolves_refl].
  cbn [snd]. now apply evolves_write.
Qed.

End Steps.

Ltac steps_tac :=
  repeat first
    [ apply steps_put; reflexivity
    | apply steps_update; reflexivity
    | apply steps_quiet; solve [quiet_tac]
    | apply steps_bind; [|intro]
    | apply steps_try; [|intro]
    | match goal with
      | |- steps _ (if ?b then _ else _) => destruct b
      | |- steps _ (match ?x with _ => _ end) => destruct x
      | |- steps _ (let _ := _ in _) => cbv zeta
      end ].

Section Frame.
Context {R : Runtime}.
Variable e : env.

Lemma quiet_handleGetOrders ev : quiet (handleGetOrders e ev).
Proof.
  unfold handleGetOrders.
  destruct (negb _); [apply quiet_ret|].
  apply quiet_try; [|intro; apply quiet_ret].
  apply quiet_bind; [unfold send_query, send_scan; quiet_tac|intro].
  apply quiet_bind; [apply quiet_mapM, quiet_enrich_order|intro; apply quiet_ret].
Qed.

Lemma quiet_handleGetItems ev : quiet (handleGetItems e ev).
Proof. unfold handleGetItems, send_query, send_scan. quiet_tac. Qed.

Lemma quiet_handleGetReviews ev : quiet (handleGetReviews e ev).
Proof. unfold handleGetReviews, send_query, send_scan, send_get. quiet_tac. Qed.

Lemma quiet_handleGetStorefront ev : quiet (handleGetStorefront e ev).
Proof. unfold handleGetStorefront, send_get. quiet_tac. Qed.

Lemma quiet_handleGetMyStorefronts ev : quiet (handleGetMyStorefronts e ev).
Proof. unfold handleGetMyStorefronts, send_query, send_scan. quiet_tac. Qed.

Lemma quiet_handleListStorefronts ev : quiet (handleListStorefronts e ev).
Proof. unfold handleListStorefronts, send_scan. quiet_tac. Qed.

Lemma quiet_handleLogin ev : quiet (handleLogin e ev).
Proof.
  unfold handleLogin, parse_body, destructure, call_toLowerCase,
    call_bcrypt_compare, send_query. quiet_tac.
Qed.

Lemma quiet_handleGetProfile ev : quiet (handleGetProfile e ev).
Proof. unfold handleGetProfile, member, send_get. quiet_tac. Qed.

Lemma quiet_internal_error (m : M response) :
  quiet m -> quiet (try_catch m internal_error).
Proof. intro H. apply quiet_try; [exact H|intro; apply quiet_ret]. Qed.

Lemma steps_entry (f : lambda) (ev : event) :
  steps (evolves (owns f)) (entry f e ev).
Proof.
  destruct f; cbn [entry].
  - unfold users_handler. destruct (String.eqb _ _); [apply steps_quiet, quiet_ret|].
    cbv zeta. apply steps_try; [|intro; apply steps_quiet, quiet_ret].
    repeat match goal with
           | |- steps _ (if ?b then _ else _) => destruct b
           end;
      try (apply steps_quiet;
           first [apply quiet_handleLogin|apply quiet_handleGetProfile|apply quiet_ret]).
    unfold handleRegister, parse_body, destructure, call_toLowerCase,
      call_bcrypt_hash, send_query. steps_tac.
  - unfold storefronts_handler. destruct (String.eqb _ _); [apply steps_quiet, quiet_ret|].
    cbv zeta. apply steps_try; [|intro; apply steps_quiet, quiet_ret].
    repeat match goal with
           | |- steps _ (if ?b then _ else _) => destruct b
           end;
      try (apply steps_quiet;
           first [apply quiet_handleGetStorefront|apply quiet_handleGetMyStorefronts
                 |apply quiet_handleListStorefronts|apply quiet_ret]).
    unfold handleCreateStorefront, parse_body, destructure. steps_tac.
  - unfold items_handler. destruct (String.eqb _ _); [apply steps_quiet, quiet_ret|].
    cbv zeta. apply steps_try; [|intro; apply steps_quiet, quiet_ret].
    repeat match goal with
           | |- steps _ (if ?b then _ else _) => destruct b
           end;
      try (apply steps_quiet; first [apply quiet_handleGetItems|apply quiet_ret]).
    unfold handleAddItem, parse_body, destructure. steps_tac.
  - unfold reviews_handler. destruct (String.eqb _ _); [apply steps_quiet, quiet_ret|].
    cbv zeta. apply steps_try; [|intro; apply steps_quiet, quiet_ret].
    repeat match goal with
           | |- steps _ (if ?b then _ else _) => destruct b
           end;
      try (apply steps_quiet; first [apply quiet_handleGetReviews|apply quiet_ret]).
    unfold handleCreateReview, parse_body, destructure, call_trim,
      send_query, send_scan, send_get. steps_tac.
  - unfold orders_handler. destruct (String.eqb _ _); [apply steps_quiet, quiet_ret|].
    cbv zeta. apply steps_try; [|intro; apply steps_quiet, quiet_ret].
    repeat match goal with
           | |- steps _ (if ?b then _ else _) => destruct b
           end;
      try (apply steps_quiet; first [apply quiet_handleGetOrders|apply quiet_ret]).
    unfold handleCreateOrder, parse_body, destructure. steps_tac.
Qed.

End Frame.

(** X3: an invocation changes no table but those of its function: the
    accounts for the accounts function, the items for the items function,
    the reviews for the reviews function, the orders for the orders
    function, the storefronts and the accounts for the storefronts function.
    So a review leaves the item it reviews as it was. *)
Theorem functions_write_their_own_tables {R : Runtime} (f : lambda) (e : env)
  (ev : event) (st : store) (t : table) :
  owns f t = false -> snd (entry f e ev st) t = st t.
Proof. intro Ht. now apply (steps_entry e f ev st t). Qed.

Lemma functions_write_their_own_tables_witness :
  snd (@entry Reference.runtime Reviews (Reference.calm "rv1" "2024-01-04T00:00:00.000Z")
         (submit_review buyer_token (VNum (Fin 4)) "good") catalog) ITEMS_TABLE
  = catalog ITEMS_TABLE.
Proof.
  apply (@functions_write_their_own_tables Reference.runtime Reviews). reflexivity.
Defined.

(** X4: no invocation leaves a table with fewer records than it found. *)
Theorem tables_never_shrink {R : Runtime} (f : lambda) (e : env) (ev : event)
  (st : store) (t : table) :
  (List.length (st t) <= List.length (snd (entry f e ev st) t))%nat.
Proof. apply (steps_entry e f ev st t). Qed.

(* ===================================================================== *)
(** ** Which requests write *)
(* ===================================================================== *)

Lemma includes_space (m p : string) : includes (m ++ String " " p) " " = true.
Proof.
  induction m as [|c m IH]; [destruct p; reflexivity|].
  change (String.prefix " " (String c (m ++ String " " p))
          || includes (m ++ String " " p) " " = true).
  rewrite IH. apply orb_true_r.
Qed.

(** A route [method path] that reads [POST lit], where [lit] has no space,
    has method [POST] and path [lit]. *)
Lemma post_route (m p lit : string) :
  m ++ " " ++ p = "POST " ++ lit -> includes lit " " = false ->
  m = "POST" /\ p = lit.
Proof.
  intros H Hlit.
  destruct m as [|c1 m]; [discriminate H|]; injection H as -> H.
  destruct m as [|c2 m]; [discriminate H|]; injection H as -> H.
  destruct m as [|c3 m]; [discriminate H|]; injection H as -> H.
  destruct m as [|c4 m]; [discriminate H|]; injection H as -> H.
  destruct m as [|c5 m].
  - injection H as H. now subst.
  - cbn [append] in H. injection H as -> H. subst lit.
    rewrite includes_space in Hlit. discriminate.
Qed.

Lemma route_is_not_post (m p lit : string) :
  m <> "POST" -> includes lit " " = false ->
  String.eqb (m ++ " " ++ p) ("POST " ++ lit) = false.
Proof.
  intros Hm Hlit. apply String.eqb_neq. intro H.
  destruct (post_route m p lit H Hlit) as [Hpost _]. contradiction.
Qed.

Section Writes.
Context {R : Runtime}.
Variable e : env.

Lemma users_handler_reads (ev : event) :
  includes (accounts_path ev) "/auth/register" = false ->
  quiet (users_handler e ev).
Proof.
  unfold accounts_path. intro Hpath. unfold users_handler.
  destruct (String.eqb _ "OPTIONS"); [apply quiet_ret|]. cbv zeta.
  apply quiet_internal_error.
  rewrite Hpath, orb_false_r.
  destruct (String.eqb _ "POST /auth/register") eqn:Hroute.
  { apply String.eqb_eq in Hroute.
    destruct (post_route _ _ "/auth/register" Hroute eq_refl) as [_ Hp].
    rewrite Hp in Hpath. discriminate Hpath. }
  repeat match goal with
         | |- quiet (if ?b then _ else _) => destruct b
         end;
    first [apply quiet_handleLogin|apply quiet_handleGetProfile|apply quiet_ret].
Qed.

Lemma storefronts_handler_reads (ev : event) :
  method_of Storefronts ev <> "POST" -> quiet (storefronts_handler e ev).
Proof.
  unfold method_of. intro Hm. unfold storefronts_handler.
  destruct (String.eqb _ "OPTIONS"); [apply quiet_ret|]. cbv zeta.
  apply quiet_internal_error.
  rewrite (route_is_not_post _ _ "/storefronts" Hm eq_refl).
  apply String.eqb_neq in Hm. rewrite Hm, andb_false_r. cbn [orb].
  repeat match goal with
         | |- quiet (if ?b then _ else _) => destruct b
         end;
    first [apply quiet_handleGetStorefront|apply quiet_handleGetMyStorefronts
          |apply quiet_handleListStorefronts|apply quiet_ret].
Qed.

Lemma items_handler_reads (ev : event) :
  method_of Items ev <> "POST" -> quiet (items_handler e ev).
Proof.
  unfold method_of. intro Hm. unfold items_handler.
  destruct (String.eqb _ "OPTIONS"); [apply quiet_ret|]. cbv zeta.
  apply quiet_internal_error.
  apply String.eqb_neq in Hm. rewrite Hm.
  match goal with |- quiet (if ?b then _ else _) => destruct b end;
    [apply quiet_handleGetItems|apply quiet_ret].
Qed.

Lemma reviews_handler_reads (ev : event) :
  method_of Reviews ev <> "POST" -> quiet (reviews_handler e ev).
Proof.
  unfold method_of. intro Hm. unfold reviews_handler.
  destruct (String.eqb _ "OPTIONS"); [apply quiet_ret|]. cbv zeta.
  apply quiet_internal_error.
  apply String.eqb_neq in Hm. rewrite Hm.
  match goal with |- quiet (if ?b then _ else _) => destruct b end;
    [apply quiet_handleGetReviews|apply quiet_ret].
Qed.

Lemma orders_handler_reads (ev : event) :
  method_of Orders ev <> "POST" -> quiet (orders_handler e ev).
Proof.
  unfold method_of. intro Hm. unfold orders_handler.
  destruct (String.eqb _ "OPTIONS"); [apply quiet_ret|]. cbv zeta.
  apply quiet_internal_error.
  apply String.eqb_neq in Hm. rewrite Hm.
  match goal with |- quiet (if ?b then _ else _) => destruct b end;
    [apply quiet_handleGetOrders|apply quiet_ret].
Qed.

End Writes.

(** X5: the storefronts, items, reviews and orders functions leave the
    store as it was unless the method they resolve is POST; the accounts
    function leaves it as it was unless the path contains
    [/auth/register]. *)
Theorem only_these_requests_write {R : Runtime} (f : lambda) (e : env) (ev : event)
  (st : store) :
  match f with
  | Accounts => includes (accounts_path ev) "/auth/register" = false
  | _ => method_of f ev <> "POST"
  end ->
  snd (entry f e ev st) = st.
Proof.
  destruct f; cbn [entry]; intro H.
  - now apply users_handler_reads.
  - now apply storefronts_handler_reads.
  - now apply items_handler_reads.
  - now apply reviews_handler_reads.
  - now apply orders_handler_reads.
Qed.

Lemma only_these_requests_write_witness :
  snd (@entry Reference.runtime Orders (Reference.calm "x" "t")
         (list_orders buyer_token) (order_lines [line_of "i1"]))
  = order_lines [line_of "i1"].
Proof.
  apply (@only_these_requests_write Reference.runtime Orders). discriminate.
Defined.

Lemma users_handler_routes {R : Runtime} (e : env) (ev : event) (st : store) :
  first_truthy [httpMethod ev; requestContext_httpMethod ev] EmptyString <> "OPTIONS" ->
  (includes (accounts_path ev) "/auth/register" = true ->
   users_handler e ev st = try_catch (handleRegister e ev) internal_error st) /\
  (includes (accounts_path ev) "/auth/register" = false ->
   includes (accounts_path ev) "/auth/login" = true ->
   users_handler e ev st = try_catch (handleLogin e ev) internal_error st) /\
  (includes (accounts_path ev) "/auth/register" = false ->
   includes (accounts_path ev) "/auth/login" = false ->
   includes (accounts_path ev) "/auth/profile" = true ->
   users_handler e ev st = try_catch (handleGetProfile e ev) internal_error st).
Proof.
  unfold accounts_path. intro Hm. apply String.eqb_neq in Hm.
  unfold users_handler. rewrite Hm. cbv zeta.
  split; [|split].
  - intros ->. now rewrite orb_true_r.
  - intros H1 ->. rewrite H1, !orb_false_r, orb_true_r.
    destruct (String.eqb _ "POST /auth/register") eqn:Hroute; [|reflexivity].
    apply String.eqb_eq in Hroute.
    destruct (post_route _ _ "/auth/register" Hroute eq_refl) as [_ Hp].
    rewrite Hp in H1. discriminate H1.
  - intros H1 H2 ->. rewrite H1, H2, !orb_false_r, orb_true_r.
    destruct (String.eqb _ "POST /auth/register") eqn:Hroute.
    { apply String.eqb_eq in Hroute.
      destruct (post_route _ _ "/auth/register" Hroute eq_refl) as [_ Hp].
      rewrite Hp in H1. discriminate H1. }
    destruct (String.eqb _ "POST /auth/login") eqn:Hroute2; [|reflexivity].
    apply String.eqb_eq in Hroute2.
    destruct (post_route _ _ "/auth/login" Hroute2 eq_refl) as [_ Hp].
    rewrite Hp in H2. discriminate H2.
Qed.

(** X6: the accounts function routes by the path alone.  Unless the request
    is a preflight, a path that contains [/auth/register] is served by the
    registration whatever the method; failing that, a path that contains
    [/auth/login] by the login; failing that, a path that contains
    [/auth/profile] by the profile. *)
Theorem accounts_route_by_path_alone {R : Runtime} (e : env) (ev : event) (st : store) :
  first_truthy [httpMethod ev; requestContext_httpMethod ev] EmptyString <> "OPTIONS" ->
  (includes (accounts_path ev) "/auth/register" = true ->
   users_handler e ev st = try_catch (handleRegister e ev) internal_error st) /\
  (includes (accounts_path ev) "/auth/register" = false ->
   includes (accounts_path ev) "/auth/login" = true ->
   users_handler e ev st = try_catch (handleLogin e ev) internal_error st) /\
  (includes (accounts_path ev) "/auth/register" = false ->
   includes (accounts_path ev) "/auth/login" = false ->
   includes (accounts_path ev) "/auth/profile" = true ->
   users_handler e ev st = try_catch (handleGetProfile e ev) internal_error st).
Proof. apply users_handler_routes. Qed.

Lemma accounts_route_by_path_alone_witness :
  let e := Reference.calm "u1" "2024-01-01T00:00:00.000Z" in
  let ev := Reference.request "GET" "/auth/register" None None (Json alice_form) in
  exists r,
    @users_handler Reference.runtime e ev Reference.empty_store
    = (Ok r, snd alice_registered) /\ statusCode r = 201.
Proof.
  intros e ev.
  destruct (@accounts_route_by_path_alone Reference.runtime e ev Reference.empty_store)
    as [Hregister _]; [discriminate|].
  rewrite Hregister by reflexivity.
  eexists. split; reflexivity.
Defined.

(* ===================================================================== *)
(** ** Accounts: passwords and failed logins *)
(* ===================================================================== *)

(** *** Records and values *)

Lemma assoc_omit (k : string) (o : obj) : assoc k (omit k o) = None.
Proof.
  induction o as [|[k' v] o IH]; simpl; [reflexivity|].
  destruct (String.eqb k k') eqn:Hk; simpl; [exact IH|now rewrite Hk].
Qed.

Lemma prop_omit (k : string) (o : obj) : prop (omit k o) k = VUndefined.
Proof. unfold prop. now rewrite assoc_omit. Qed.

Lemma value_eqb_refl : forall v : value, value_eqb v v = true.
Proof.
  fix IH 1. intros [| |b|n|s|l|o]; cbn [value_eqb]; try reflexivity.
  - now destruct b.
  - destruct n; cbn [num_eqb]; try reflexivity. apply Qeq_bool_iff. reflexivity.
  - apply String.eqb_refl.
  - induction l as [|x l IHl]; [reflexivity|]. now rewrite IH.
  - induction o as [|[k x] o IHo]; [reflexivity|].
    now rewrite String.eqb_refl, IH.
Qed.

Lemma attr_is_prop (a : string) (r : obj) :
  prop r a <> VUndefined -> attr_is a (prop r a) r = true.
Proof.
  unfold attr_is, prop. destruct (assoc a r); [intros _; apply value_eqb_refl|congruence].
Qed.


Lemma prefix_empty (s : string) : String.prefix EmptyString s = true.
Proof. now destruct s. Qed.

Lemma prefix_append (p s : string) : String.prefix p (p ++ s) = true.
Proof.
  induction p as [|c p IH]; [apply prefix_empty|].
  cbn [append String.prefix]. destruct (ascii_dec c c); [exact IH|congruence].
Qed.

Lemma toLowerCase_idempotent (s : string) : toLowerCase (toLowerCase s) = toLowerCase s.
Proof.
  induction s as [|c s IH]; [reflexivity|]. cbn [toLowerCase]. rewrite IH. f_equal.
  unfold lower_ascii.
  destruct ((65 <=? nat_of_ascii c)%nat && (nat_of_ascii c <=? 90)%nat) eqn:Hc.
  - apply andb_prop in Hc. destruct Hc as [H1 H2].
    apply Nat.leb_le in H1. apply Nat.leb_le in H2.
    rewrite nat_ascii_embedding by lia.
    replace (65 <=? nat_of_ascii c + 32)%nat with true
      by (symmetry; apply Nat.leb_le; lia).
    replace (nat_of_ascii c + 32 <=? 90)%nat with false
      by (symmetry; apply Nat.leb_gt; lia).
    reflexivity.
  - now rewrite Hc.
Qed.

(** *** No answer of the accounts function carries a password *)

Ltac no_password_tac :=
  cbn; first [reflexivity | apply prop_omit].

Section Passwords.
Context {R : Runtime}.
Variable e : env.

Lemma users_handler_hides_password ev :
  returns (fun r => get (get (body r) "user") "password" = VUndefined)
    (users_handler e ev).
Proof.
  unfold users_handler, handleRegister, handleLogin, handleGetProfile,
    preflight, unauthorized, internal_error.
  returns_with no_password_tac.
Qed.

End Passwords.

(** X7: no answer of the accounts function carries a [password] in its
    [user]. *)
Theorem answers_carry_no_password {R : Runtime} (e : env) (ev : event) (st : store) :
  exists r st',
    users_handler e ev st = (Ok r, st') /\
    get (get (body r) "user") "password" = VUndefined.
Proof.
  destruct (entry_answers e Accounts ev st) as [r [st' Hrun]].
  exists r, st'. split; [exact Hrun|].
  exact (users_handler_hides_password e ev st r st' Hrun).
Qed.

(** X8: when the index query is answered, a login with an email that no
    account has and a login with a password that does not match the first
    account with the email get the same answer: 401, invalid email or
    password. *)
Theorem login_failures_look_alike {R : Runtime} (e : env) (ev : event) (st : store)
  (b : value) (email password : string) :
  event_body ev = Json b ->
  get b "email" = VStr email -> email <> EmptyString ->
  get b "password" = VStr password -> password <> EmptyString ->
  throws e (QueryCommand (login_query (toLowerCase email))) = None ->
  let accounts := filter (by_email (toLowerCase email)) (st USERS_TABLE) in
  accounts = [] \/
  (exists account rest hash,
     accounts = account :: rest /\ prop account "password" = VStr hash /\
     bcrypt_compare password hash = false) ->
  handleLogin e ev st
  = (Ok (sendResponse 401 (error_body "Invalid email or password")), st).
Proof.
  intros Hbody Hemail Hne Hpassword Hnp Hthrows accounts Hcase.
  unfold handleLogin, parse_body. rewrite Hbody.
  unfold bind at 1, ret at 1.
  assert (Hb : destructure b st = (Ok tt, st)).
  { apply (destructure_ok b "email"). rewrite Hemail. discriminate. }
  unfold bind at 1. rewrite Hb.
  rewrite Hemail, Hpassword. cbn [truthy].
  apply String.eqb_neq in Hne. apply String.eqb_neq in Hnp. rewrite Hne, Hnp.
  cbn [negb orb].
  unfold try_catch, bind, call_toLowerCase, ret, send_query, send_read.
  rewrite Hthrows, login_query_reads. fold accounts.
  destruct Hcase as [->|[account [rest [hash [-> [Hhash Hcmp]]]]]]; [reflexivity|].
  unfold call_bcrypt_compare, ret. rewrite Hhash, Hcmp. reflexivity.
Qed.

Lemma login_failures_look_alike_witness :
  let e := Reference.calm "x" "2024-01-02T00:00:00.000Z" in
  @handleLogin Reference.runtime e (login_as "Alice@Example.com" "wrong-password")
    (snd alice_registered)
  = (Ok (sendResponse 401 (error_body "Invalid email or password")),
     snd alice_registered) /\
  @handleLogin Reference.runtime e (login_as "Nobody@Example.com" "secret1")
    (snd alice_registered)
  = (Ok (sendResponse 401 (error_body "Invalid email or password")),
     snd alice_registered).
Proof.
  intro e. split.
  - apply (@login_failures_look_alike Reference.runtime e _ _
             (login_form "Alice@Example.com" "wrong-password")
             "Alice@Example.com" "wrong-password");
      try reflexivity; try discriminate.
    right. eexists. eexists. eexists. split; [vm_compute; reflexivity|].
    split; reflexivity.
  - apply (@login_failures_look_alike Reference.runtime e _ _
             (login_form "Nobody@Example.com" "secret1")
             "Nobody@Example.com" "secret1");
      try reflexivity; try discriminate.
    left. reflexivity.
Defined.

(* ===================================================================== *)
(** ** Accounts: what is stored, and the profile *)
(* ===================================================================== *)

Lemma has_key_new_user (e : env) (lowered : string) (name : value)
  (hashed : string) (role : value) :
  has_key [("userId", VStr (uuid e))] (new_user e lowered name hashed role) = true.
Proof.
  unfold has_key, attr_is, new_user. cbn. now rewrite String.eqb_refl.
Qed.

Lemma password_long_enough {R : Runtime} (password : string) :
  lt_lit (js_length (VStr password)) 6 = false -> (6 <= String.length password)%nat.
Proof.
  unfold lt_lit, js_length, ToNumber, num_lt. intro H.
  apply negb_false_iff, Qle_bool_iff in H.
  unfold Qle in H. cbn in H. lia.
Qed.

Lemma seller_or_buyer (role : value) :
  is_string role "buyer" || is_string role "seller" = true ->
  role = VStr "buyer" \/ role = VStr "seller".
Proof.
  destruct role; cbn; try discriminate. intro H.
  apply orb_prop in H. destruct H as [H|H]; apply String.eqb_eq in H; subst; auto.
Qed.

(** X9: a registration answered 201 has stored, under the identifier it
    drew, an account whose email is the lower-case form of the email sent,
    whose password is the hash of the password sent (a text of at least 6
    characters) with 4 rounds, 10 in production, whose role is buyer or
    seller and whose [hasStorefront] is false. *)
Theorem registered_account_is_normalised {R : Runtime} (e : env) (ev : event)
  (st st' : store) (r : response) (b : value) :
  event_body ev = Json b ->
  handleRegister e ev st = (Ok r, st') ->
  statusCode r = 201 ->
  exists (account : obj) (email password : string),
    get b "email" = VStr email /\ get b "password" = VStr password /\
    exec_get st' (account_of (VStr (uuid e))) = inr (Some account) /\
    prop account "email" = VStr (toLowerCase email) /\
    toLowerCase (toLowerCase email) = toLowerCase email /\
    (6 <= String.length password)%nat /\
    prop account "password"
      = VStr (bcrypt_hash password (if production e then 10%nat else 4%nat) (salt e)) /\
    (prop account "role" = VStr "buyer" \/ prop account "role" = VStr "seller") /\
    prop account "hasStorefront" = VBool false.
Proof.
  intros Hbody Hrun H201.
  destruct (register_created e ev st st' r b Hbody Hrun H201)
    as [email [password [Hemail [Hpassword [Hvalid [Hst [Hr _]]]]]]].
  cbv zeta in Hst.
  eexists. exists email, password.
  split; [exact Hemail|]. split; [exact Hpassword|].
  split.
  { unfold exec_get, account_of. cbn [g_Key g_TableName marshall_error].
    rewrite Hst. rewrite find_upsert; [reflexivity|apply has_key_new_user]. }
  unfold valid_registration in Hvalid.
  apply andb_prop in Hvalid. destruct Hvalid as [Hvalid Hlen].
  apply andb_prop in Hvalid. destruct Hvalid as [_ Hrole].
  rewrite Hpassword in Hlen. apply negb_true_iff in Hlen.
  split; [reflexivity|].
  split; [apply toLowerCase_idempotent|].
  split; [now apply password_long_enough|].
  split; [reflexivity|].
  split; [|reflexivity].
  now apply seller_or_buyer.
Qed.

Lemma registered_account_is_normalised_witness :
  exists account : obj,
    exec_get (snd alice_registered) (account_of (VStr "u1")) = inr (Some account) /\
    prop account "email" = VStr "alice@example.com" /\
    prop account "hasStorefront" = VBool false.
Proof.
  destruct (@registered_account_is_normalised Reference.runtime
              (Reference.calm "u1" "2024-01-01T00:00:00.000Z") register_alice
              Reference.empty_store (snd alice_registered)
              (sendResponse 201
                 [("message", VStr "User created successfully");
                  ("user",
                   VObj [("userId", VStr "u1"); ("email", VStr "alice@example.com");
                         ("name", VStr "Alice"); ("role", VStr "seller");
                         ("hasStorefront", VBool false);
                         ("createdAt", VStr "2024-01-01T00:00:00.000Z")]);
                  ("token", VStr seller_token)])
              alice_form eq_refl)
    as [account [email [password [Hemail [_ [Hget [Hlow [_ [_ [_ [_ Hflag]]]]]]]]]]].
  - vm_compute. reflexivity.
  - reflexivity.
  - exists account. split; [exact Hget|]. split; [|exact Hflag].
    rewrite Hlow. injection Hemail as <-. reflexivity.
Defined.

(** X10: after a registration answered 201, the profile requested with the
    token it returned is answered 200 with the account of the registration's
    answer, when the lookup of the account is answered. *)
Theorem profile_after_registration {R : Runtime} {L : RuntimeLaws R} (e1 e2 : env)
  (ev1 ev2 : event) (st st1 : store) (r1 : response) (b : value) (token : string) :
  event_body ev1 = Json b ->
  handleRegister e1 ev1 st = (Ok r1, st1) ->
  statusCode r1 = 201 ->
  get (body r1) "token" = VStr token ->
  authorization ev2 = "Bearer " ++ token ->
  throws e2 (GetCommand (account_of (VStr (uuid e1)))) = None ->
  handleGetProfile e2 ev2 st1
  = (Ok (sendResponse 200 [("user", get (body r1) "user")]), st1).
Proof.
  intros Hbody Hrun H201 Htoken Hauth Hthrows.
  destruct (register_created e1 ev1 st st1 r1 b Hbody Hrun H201)
    as [email [password [Hemail [Hpassword [Hvalid [Hst [Hr _]]]]]]].
  cbv zeta in Hst, Hr.
  assert (Hrole : get b "role" = VStr "buyer" \/ get b "role" = VStr "seller").
  { unfold valid_registration in Hvalid.
    apply andb_prop in Hvalid. destruct Hvalid as [Hvalid _].
    apply andb_prop in Hvalid. destruct Hvalid as [_ Hrole].
    now apply seller_or_buyer. }
  assert (Hsigned : exists role : string,
            token = jwt_sign [("userId", VStr (uuid e1));
                              ("email", VStr (toLowerCase email));
                              ("role", VStr role)]).
  { rewrite Hr in Htoken. cbn in Htoken. injection Htoken as <-.
    unfold claims. destruct Hrole as [-> | ->]; eexists; reflexivity. }
  destruct Hsigned as [role ->].
  destruct (jwt_verify_sign (uuid e1) (toLowerCase email) role)
    as [decoded [Hverify [Huser _]]].
  unfold authorization in Hauth.
  unfold handleGetProfile. rewrite Hauth.
  unfold startsWith. rewrite prefix_append.
  change (substring_from 7 ("Bearer " ++ ?t)) with t.
  cbn [append String.eqb Ascii.eqb Bool.eqb orb negb].
  rewrite Hverify.
  assert (Hmember : member decoded "userId" = ret (VStr (uuid e1))).
  { rewrite <- Huser. destruct decoded; try reflexivity; discriminate Huser. }
  unfold try_catch, bind. rewrite Hmember. unfold ret at 1.
  unfold send_get, send_read. fold (account_of (VStr (uuid e1))). rewrite Hthrows.
  unfold exec_get, account_of. cbn [g_Key g_TableName marshall_error].
  rewrite Hst. rewrite find_upsert by apply has_key_new_user.
  rewrite Hr. reflexivity.
Qed.

Lemma profile_after_registration_witness :
  let e2 := Reference.calm "x" "2024-01-02T00:00:00.000Z" in
  @handleGetProfile Reference.runtime e2 (profile_request (token_of alice_registered))
    (snd alice_registered)
  = (Ok (sendResponse 200
           [("user",
             VObj [("userId", VStr "u1"); ("email", VStr "alice@example.com");
                   ("name", VStr "Alice"); ("role", VStr "seller");
                   ("hasStorefront", VBool false);
                   ("createdAt", VStr "2024-01-01T00:00:00.000Z")])]),
     snd alice_registered).
Proof.
  intro e2.
  apply (@profile_after_registration Reference.runtime reference_laws
           (Reference.calm "u1" "2024-01-01T00:00:00.000Z") e2 register_alice
           (profile_request (token_of alice_registered)) Reference.empty_store
           (snd alice_registered)
           (sendResponse 201
              [("message", VStr "User created successfully");
               ("user",
                VObj [("userId", VStr "u1"); ("email", VStr "alice@example.com");
                      ("name", VStr "Alice"); ("role", VStr "seller");
                      ("hasStorefront", VBool false);
                      ("createdAt", VStr "2024-01-01T00:00:00.000Z")]);
               ("token", VStr seller_token)])
           alice_form (token_of alice_registered)); reflexivity.
Defined.

(* ===================================================================== *)
(** ** Access control, and the owner of a storefront *)
(* ===================================================================== *)

Section Access.
Context {R : Runtime}.

Lemma verifyToken_anonymous (ev : event) : anonymous ev -> verifyToken ev = VNull.
Proof.
  unfold anonymous, authorization, verifyToken.
  destruct (first_truthy _ _) as [|c s]; [reflexivity|].
  intros [H|[H|H]]; [discriminate H|now rewrite H|].
  destruct (startsWith _ _); [now rewrite H|reflexivity].
Qed.

End Access.

(** X11: access is checked before anything else.  A request without an
    authorization header, with one that does not start with [Bearer ], or
    with a token that does not verify is answered 401 by the listing and the
    creation of orders, the creation of a review, the creation of a
    storefront, the listing of one's storefronts and the profile.  A request
    whose token carries another role than seller is answered 403 by the
    creation of a storefront and the listing of one's storefronts.  The body
    is not parsed and the store is not read. *)
Theorem access_is_checked_first {R : Runtime} (e : env) (ev : event) (st : store) :
  (anonymous ev ->
   handleGetOrders e ev st = (Ok unauthorized, st) /\
   handleCreateOrder e ev st = (Ok unauthorized, st) /\
   handleCreateReview e ev st = (Ok unauthorized, st) /\
   handleCreateStorefront e ev st = (Ok unauthorized, st) /\
   handleGetMyStorefronts e ev st = (Ok unauthorized, st) /\
   exists message,
     handleGetProfile e ev st = (Ok (sendResponse 401 (error_body message)), st)) /\
  (truthy (verifyToken ev) = true ->
   is_string (get (verifyToken ev) "role") "seller" = false ->
   handleCreateStorefront e ev st
   = (Ok (forbidden "Forbidden: Only sellers can create storefronts"), st) /\
   handleGetMyStorefronts e ev st
   = (Ok (forbidden "Forbidden: Only sellers can view their storefronts"), st)).
Proof.
  split.
  - intro Hanon. pose proof (verifyToken_anonymous ev Hanon) as Hnull.
    unfold handleGetOrders, handleCreateOrder, handleCreateReview,
      handleCreateStorefront, handleGetMyStorefronts.
    rewrite Hnull. cbn [truthy negb].
    repeat (split; [reflexivity|]).
    unfold handleGetProfile. fold (authorization ev).
    destruct Hanon as [H|[H|H]].
    + rewrite H. eexists; reflexivity.
    + rewrite H, orb_true_r. eexists; reflexivity.
    + destruct (_ || _); [eexists; reflexivity|].
      rewrite H. eexists; reflexivity.
  - intros Huser Hrole.
    unfold handleCreateStorefront, handleGetMyStorefronts.
    rewrite Huser, Hrole. split; reflexivity.
Qed.

Lemma access_is_checked_first_witness :
  let e := Reference.calm "x" "t" in
  let anyone := Reference.request "POST" "/storefronts" None None (BadJson "Unexpected token") in
  let buyer := Reference.request "POST" "/storefronts" (Some ("Bearer " ++ buyer_token))
                 None (BadJson "Unexpected token") in
  @handleCreateStorefront Reference.runtime e anyone Reference.empty_store
  = (Ok unauthorized, Reference.empty_store) /\
  @handleCreateStorefront Reference.runtime e buyer Reference.empty_store
  = (Ok (forbidden "Forbidden: Only sellers can create storefronts"),
     Reference.empty_store).
Proof.
  intros e anyone buyer. split.
  - apply (@access_is_checked_first Reference.runtime e anyone Reference.empty_store).
    left. reflexivity.
  - apply (@access_is_checked_first Reference.runtime e buyer Reference.empty_store);
      reflexivity.
Defined.

(** *** Storefronts *)

Lemma find_upsert_change (same : obj -> bool) (change : option obj -> obj)
  (rows : list obj) :
  same (change (find same rows)) = true ->
  find same (upsert same change rows) = Some (change (find same rows)).
Proof.
  induction rows as [|r rows IH]; cbn [find upsert]; intro H.
  - now rewrite H.
  - destruct (same r) eqn:Hr; cbn [find].
    + now rewrite H.
    + rewrite Hr. now apply IH.
Qed.

Lemma assoc_set_other (k k' : string) (v : value) (o : obj) :
  String.eqb k k' = false -> assoc k (set k' v o) = assoc k o.
Proof.
  intro Hk. induction o as [|[k0 v0] o IH]; cbn [set assoc].
  - now rewrite Hk.
  - destruct (String.eqb k' k0) eqn:H0; cbn [assoc].
    + apply String.eqb_eq in H0. subst k0. now rewrite Hk.
    + now rewrite IH.
Qed.

Lemma prop_set (k : string) (v : value) (o : obj) : prop (set k v o) k = v.
Proof.
  unfold prop. induction o as [|[k0 v0] o IH]; cbn [set assoc].
  - now rewrite String.eqb_refl.
  - destruct (String.eqb k k0) eqn:H0; cbn [assoc]; rewrite H0; [reflexivity|exact IH].
Qed.

Section StorefrontCreated.
Context {R : Runtime}.
Variables (e : env) (ev : event) (st st' : store) (r : response).
Hypothesis Hrun : handleCreateStorefront e ev st = (Ok r, st').
Hypothesis H201 : statusCode r = 201.

(** What a creation answered 201 has done. *)
Lemma storefront_created :
  exists b : value,
    let user := verifyToken ev in
    let storefront := new_storefront e user b in
    let key := [("userId", get user "userId")] in
    truthy user = true /\
    is_string (get user "role") "seller" = true /\
    marshall_error (get user "userId") = None /\
    st' STOREFRONTS_TABLE
      = upsert (has_key [("storeId", VStr (uuid e))]) (fun _ => storefront)
          (st STOREFRONTS_TABLE) /\
    st' USERS_TABLE = upsert (has_key key) (flagged key) (st USERS_TABLE) /\
    r = sendResponse 201 [("message", VStr "Storefront created successfully");
                          ("storefront", VObj storefront)].
Proof.
  revert Hrun. unfold handleCreateStorefront. intro H.
  destruct (truthy (verifyToken ev)) eqn:Huser; cbn [negb] in H;
    [|inversion H; subst; discriminate].
  destruct (is_string _ _) eqn:Hrole; cbn [negb] in H;
    [|inversion H; subst; discriminate].
  unfold bind at 1 in H.
  pose proof (quiet_parse_body ev st) as Hq.
  destruct (parse_body ev st) as [[b|m] st0]; simpl in Hq; subst st0;
    [|discriminate].
  unfold bind at 1 in H.
  pose proof (quiet_destructure b st) as Hq.
  destruct (destructure b st) as [[[]|m] st0]; simpl in Hq; subst st0;
    [|discriminate].
  destruct (_ || _); [inversion H; subst; discriminate|].
  unfold try_catch, bind, send_put, send_update, send_write, ret in H.
  destruct (throws e (PutCommand _)); [inversion H; subst; discriminate|].
  destruct (exec_put st _) as [m|st1] eqn:Hput; [inversion H; subst; discriminate|].
  destruct (throws e (UpdateCommand _)); [inversion H; subst; discriminate|].
  destruct (exec_update st1 _) as [m|st2] eqn:Hupd; [inversion H; subst; discriminate|].
  inversion H; subst. clear H.
  exists b. cbv zeta.
  unfold exec_put in Hput. cbn [p_Item p_TableName] in Hput.
  destruct (marshall_error _); [discriminate|].
  cbn [key_attr new_storefront assoc String.eqb Ascii.eqb Bool.eqb] in Hput.
  injection Hput as <-.
  unfold exec_update in Hupd. cbn [u_Key u_TableName u_SET u_ExpressionAttributeValues
    mark_hasStorefront] in Hupd.
  destruct (marshall_error (VObj [("userId", _)])) eqn:Hkey; [discriminate|].
  cbn in Hupd. injection Hupd as <-.
  split; [reflexivity|]. split; [reflexivity|].
  split.
  { cbn in Hkey. destruct (marshall_error (get (verifyToken ev) "userId"));
      [discriminate|reflexivity]. }
  split; [reflexivity|]. split; reflexivity.
Qed.

End StorefrontCreated.

(** X12: a creation of a storefront answered 201 leaves, under the
    identifier the token carries, an account whose [hasStorefront] is true:
    the account that was there with the flag set or, when there was none, a
    record made of the identifier and the flag. *)
Theorem storefront_marks_its_owner {R : Runtime} (e : env) (ev : event)
  (st st' : store) (r : response) :
  handleCreateStorefront e ev st = (Ok r, st') ->
  statusCode r = 201 ->
  let userId := get (verifyToken ev) "userId" in
  exists account,
    exec_get st' (account_of userId) = inr (Some account) /\
    prop account "hasStorefront" = VBool true /\
    match exec_get st (account_of userId) with
    | inr (Some old) => account = set "hasStorefront" (VBool true) old
    | _ => account = [("userId", userId); ("hasStorefront", VBool true)]
    end.
Proof.
  intros Hrun H201 userId.
  destruct (storefront_created e ev st st' r Hrun H201)
    as [b [_ [_ [Hid [_ [Husers _]]]]]].
  fold userId in Hid, Husers.
  assert (Hm : marshall_error (VObj [("userId", userId)]) = None)
    by (cbn; now rewrite Hid).
  unfold exec_get, account_of. cbn [g_Key g_TableName]. rewrite Hm, Husers.
  set (key := [("userId", userId)]).
  assert (Hsame : has_key key (flagged key (find (has_key key) (st USERS_TABLE))) = true).
  { destruct (find (has_key key) (st USERS_TABLE)) as [old|] eqn:Hfind; cbn [flagged].
    - apply find_some in Hfind. destruct Hfind as [_ Hold].
      unfold has_key, key, attr_is in *. cbn [forallb fst snd] in *.
      now rewrite assoc_set_other.
    - unfold has_key, key, attr_is. cbn. now rewrite value_eqb_refl. }
  rewrite find_upsert_change by exact Hsame.
  eexists. split; [reflexivity|]. split.
  - destruct (find _ _); cbn [flagged]; apply prop_set.
  - destruct (find _ _); reflexivity.
Qed.

Lemma storefront_marks_its_owner_witness :
  let e := Reference.calm "s1" "2024-01-02T00:00:00.000Z" in
  let ev := create_shop (token_of alice_registered) in
  exists account,
    exec_get (snd (@handleCreateStorefront Reference.runtime e ev (snd alice_registered)))
      (account_of (VStr "u1")) = inr (Some account) /\
    prop account "hasStorefront" = VBool true /\
    prop account "email" = VStr "alice@example.com".
Proof.
  intros e ev.
  destruct (@storefront_marks_its_owner Reference.runtime e ev (snd alice_registered)
              (snd (@handleCreateStorefront Reference.runtime e ev (snd alice_registered)))
              (sendResponse 201
                 [("message", VStr "Storefront created successfully");
                  ("storefront",
                   VObj (new_storefront e (@verifyToken Reference.runtime ev)
                           shop_form))])
              eq_refl eq_refl) as [account [H1 [H2 H3]]].
  exists account. split; [exact H1|]. split; [exact H2|].
  cbn in H3. subst account. reflexivity.
Defined.

(* ===================================================================== *)
(** ** Storefronts: one storefront by its path *)
(* ===================================================================== *)

Lemma first_truthy_default (l : list (option string)) (d : string) :
  first_truthy l d
  = if String.eqb (first_truthy l EmptyString) EmptyString then d
    else first_truthy l EmptyString.
Proof.
  induction l as [|[s|] l IH]; cbn [first_truthy]; [reflexivity| |exact IH].
  destruct (String.eqb s EmptyString) eqn:Hs; [exact IH|now rewrite Hs].
Qed.

(** A request resolved to a method other than OPTIONS is not a preflight. *)
Lemma not_preflight (l : list (option string)) (m : string) :
  first_truthy l "GET" = m -> m <> "OPTIONS" ->
  String.eqb (first_truthy l EmptyString) "OPTIONS" = false.
Proof.
  rewrite first_truthy_default. intros H Hm.
  destruct (String.eqb (first_truthy l EmptyString) EmptyString) eqn:He.
  - apply String.eqb_eq in He. now rewrite He.
  - apply String.eqb_neq. congruence.
Qed.

Lemma includes_slash (p s : string) : includes (p ++ String "/" s) "/" = true.
Proof.
  induction p as [|c p IH]; [destruct s; reflexivity|].
  change (String.prefix "/" (String c (p ++ String "/" s))
          || includes (p ++ String "/" s) "/" = true).
  rewrite IH. apply orb_true_r.
Qed.

(** [(p + '/' + s).split('/').pop()] is [s] when [s] has no slash. *)
Lemma split_pop_append (p s : string) :
  includes s "/" = false -> split_pop (p ++ String "/" s) = s.
Proof.
  intro Hs. induction p as [|c p IH]; cbn [append split_pop].
  - now rewrite Hs.
  - now rewrite includes_slash.
Qed.

Lemma no_slash_head (c : ascii) (s : string) :
  includes (String c s) "/" = false -> c <> "/"%char /\ includes s "/" = false.
Proof.
  intro H. change (String.prefix "/" (String c s) || includes s "/" = false) in H.
  apply orb_false_elim in H. destruct H as [Hc Hs]. split; [|exact Hs].
  intros ->. cbn in Hc. now rewrite prefix_empty in Hc.
Qed.

(** A text without a slash contains no text that starts with one. *)
Lemma includes_no_slash (s t : string) :
  includes s "/" = false -> includes s (String "/" t) = false.
Proof.
  induction s as [|c s IH]; intro H; [reflexivity|].
  apply no_slash_head in H. destruct H as [Hc Hs].
  change (String.prefix (String "/" t) (String c s) || includes s (String "/" t) = false).
  rewrite (IH Hs), orb_false_r. cbn [String.prefix].
  destruct (ascii_dec "/" c); [congruence|reflexivity].
Qed.

Lemma storefront_path_is_not_mine (id : string) :
  includes id "/" = false -> startsWith id "my" = false ->
  includes ("/storefronts/" ++ id) "/my" = false.
Proof.
  intros Hslash Hmy.
  pose proof (includes_no_slash id "my" Hslash) as Hin.
  unfold startsWith in Hmy.
  cbn -[includes String.prefix].
  repeat (match goal with
          | |- includes (String ?c ?s) ?sub = false =>
              change (String.prefix sub (String c s) || includes s sub = false)
          end;
          apply orb_false_intro; [cbn [String.prefix ascii_dec]; try reflexivity|]).
  - cbn. exact Hmy.
  - exact Hin.
Qed.

Lemma has_key_new_storefront (e : env) (user body : value) :
  has_key [("storeId", VStr (uuid e))] (new_storefront e user body) = true.
Proof. unfold has_key, attr_is, new_storefront. cbn. now rewrite String.eqb_refl. Qed.

(** X13: a storefront whose creation was answered 201 is served to a GET of
    [/storefronts/<id>] given as [event.path]: 200 with the record of the
    creation's answer, when the lookup is answered.  The identifier is not
    empty, has no slash and does not start with [my]. *)
Theorem created_storefront_is_served {R : Runtime} (e1 e2 : env) (ev1 ev2 : event)
  (st st1 : store) (r1 : response) :
  handleCreateStorefront e1 ev1 st = (Ok r1, st1) ->
  statusCode r1 = 201 ->
  uuid e1 <> EmptyString ->
  includes (uuid e1) "/" = false -> startsWith (uuid e1) "my" = false ->
  method_of Storefronts ev2 = "GET" ->
  storefronts_path ev2 = "/storefronts/" ++ uuid e1 ->
  path ev2 = Some (storefronts_path ev2) ->
  path_parameter ev2 "storeId" = None \/ path_parameter ev2 "storeId" = Some (uuid e1) ->
  throws e2 (GetCommand (storefront_of (uuid e1))) = None ->
  storefronts_handler e2 ev2 st1
  = (Ok (sendResponse 200 [("storefront", get (body r1) "storefront")]), st1).
Proof.
  intros Hrun H201 Hid Hslash Hmy Hmethod Hpath Hp Hparam Hthrows.
  destruct (storefront_created e1 ev1 st st1 r1 Hrun H201)
    as [b [_ [_ [_ [Hst [_ Hr]]]]]].
  unfold method_of in Hmethod. unfold storefronts_path in Hpath, Hp.
  unfold storefronts_handler.
  rewrite (not_preflight _ "GET" Hmethod) by discriminate.
  cbv zeta. rewrite Hmethod, Hpath.
  assert (Hroute : String.eqb ("GET" ++ " " ++ "/storefronts/" ++ uuid e1)
                     "POST /storefronts" = false) by reflexivity.
  rewrite Hroute.
  change (String.eqb "GET" "POST") with false. rewrite andb_false_r. cbn [orb].
  assert (Hone : includes ("/storefronts/" ++ uuid e1) "/storefronts/" = true).
  { change (String.prefix "/storefronts/" ("/storefronts/" ++ uuid e1)
            || includes ("storefronts/" ++ uuid e1) "/storefronts/" = true).
    now rewrite prefix_append. }
  rewrite Hone, (storefront_path_is_not_mine _ Hslash Hmy).
  change (String.eqb "GET" "GET") with true. cbn [andb negb].
  rewrite orb_true_r.
  unfold try_catch, handleGetStorefront.
  fold (path_parameter ev2 "storeId"). rewrite Hp, Hpath.
  change ("/storefronts/" ++ uuid e1) with ("/storefronts" ++ String "/" (uuid e1)).
  rewrite (split_pop_append _ _ Hslash).
  assert (Hfirst : first_truthy [path_parameter ev2 "storeId"; Some (uuid e1)] EmptyString
                   = uuid e1).
  { apply String.eqb_neq in Hid.
    destruct Hparam as [-> | ->]; cbn [first_truthy]; now rewrite Hid. }
  rewrite Hfirst.
  assert (Hfound : find (has_key [("storeId", VStr (uuid e1))]) (st1 STOREFRONTS_TABLE)
                   = Some (new_storefront e1 (verifyToken ev1) b)).
  { rewrite Hst. apply find_upsert, has_key_new_storefront. }
  unfold storefront_of in Hthrows.
  destruct (uuid e1) as [|c id]; [congruence|].
  unfold bind, send_get, send_read. rewrite Hthrows.
  unfold exec_get. cbn [g_Key g_TableName marshall_error].
  unfold try_catch. rewrite Hfound, Hr. reflexivity.
Qed.

Lemma created_storefront_is_served_witness :
  let e1 := Reference.calm "s1" "2024-01-02T00:00:00.000Z" in
  let e2 := Reference.calm "x" "2024-01-03T00:00:00.000Z" in
  let ev1 := create_shop (token_of alice_registered) in
  let st1 := snd (@handleCreateStorefront Reference.runtime e1 ev1 (snd alice_registered)) in
  @storefronts_handler Reference.runtime e2 (get_storefront "s1") st1
  = (Ok (sendResponse 200
           [("storefront",
             VObj (new_storefront e1 (@verifyToken Reference.runtime ev1) shop_form))]),
     st1).
Proof.
  intros e1 e2 ev1 st1.
  apply (@created_storefront_is_served Reference.runtime e1 e2 ev1 (get_storefront "s1")
           (snd alice_registered) st1
           (sendResponse 201
              [("message", VStr "Storefront created successfully");
               ("storefront",
                VObj (new_storefront e1 (@verifyToken Reference.runtime ev1)
                        shop_form))]));
    try reflexivity; try discriminate.
  left. reflexivity.
Defined.

(* ===================================================================== *)
(** ** Orders: what a checkout stores *)
(* ===================================================================== *)

Lemma marshall_field (k : string) (v : value) (o : obj) :
  marshall_error (VObj o) = None -> assoc k o = Some v -> marshall_error v = None.
Proof.
  induction o as [|[k' v'] o IH]; [discriminate|].
  cbn [marshall_error assoc]. intros Hm Ha.
  change ((fix first (l : list (string * value)) : option string :=
             match l with
             | [] => None
             | (_, x) :: l' =>
                 match marshall_error x with
                 | Some m => Some m
                 | None => first l'
                 end
             end) o) with (marshall_error (VObj o)) in Hm.
  destruct (marshall_error v') eqn:Hv'; [discriminate|].
  destruct (String.eqb k k'); [now injection Ha as <-|now apply IH].
Qed.

Lemma marshall_number (n : num) :
  marshall_error (VNum n) = None -> exists q, n = Fin q.
Proof. destruct n; try discriminate. intros _. now eexists. Qed.

Lemma has_key_new_order {R : Runtime} (e : env) (userId items shippingAddress total : value) :
  has_key [("orderId", VStr (uuid e))]
    (new_order e userId items shippingAddress total) = true.
Proof. unfold has_key, attr_is, new_order. cbn. now rewrite String.eqb_refl. Qed.

Section OrderCreated.
Context {R : Runtime}.
Variables (e : env) (ev : event) (st st' : store) (r : response).
Hypothesis Hrun : handleCreateOrder e ev st = (Ok r, st').
Hypothesis H201 : statusCode r = 201.

(** What a checkout answered 201 has done. *)
Lemma order_created :
  exists (b : value) (line : value) (lines : list value),
    let userId := get (verifyToken ev) "userId" in
    let order := new_order e userId (get b "items") (get b "shippingAddress")
                   (get b "total") in
    truthy (verifyToken ev) = true /\
    parse_body ev st = (Ok b, st) /\
    get b "items" = VArr (line :: lines) /\
    truthy (get b "shippingAddress") = true /\
    is_undefined (get b "total") = false /\
    le_lit (get b "total") 0 = false /\
    marshall_error (VObj order) = None /\
    st' ORDERS_TABLE
      = upsert (has_key [("orderId", VStr (uuid e))]) (fun _ => order)
          (st ORDERS_TABLE) /\
    r = sendResponse 201 [("message", VStr "Order created successfully");
                          ("order", VObj order)].
Proof.
  revert Hrun. unfold handleCreateOrder. intro H.
  destruct (truthy (verifyToken ev)) eqn:Huser; cbn [negb] in H;
    [|inversion H; subst; discriminate].
  unfold bind at 1 in H.
  pose proof (quiet_parse_body ev st) as Hq.
  destruct (parse_body ev st) as [[b|m] st0] eqn:Hparse; simpl in Hq; subst st0;
    [|discriminate].
  unfold bind at 1 in H.
  pose proof (quiet_destructure b st) as Hq.
  destruct (destructure b st) as [[[]|m] st0]; simpl in Hq; subst st0;
    [|discriminate].
  destruct (get b "items") as [| | | | |lines|] eqn:Hitems;
    try (cbn [negb] in H; rewrite ?orb_true_r in H; cbn [orb] in H;
         inversion H; subst; discriminate).
  destruct lines as [|line lines]; [cbn in H; inversion H; subst; discriminate|].
  cbn [truthy negb orb] in H.
  destruct (truthy (get b "shippingAddress")) eqn:Haddress; cbn [negb] in H;
    [|inversion H; subst; discriminate].
  destruct (is_undefined (get b "total")) eqn:Hundef; cbn [orb] in H;
    [inversion H; subst; discriminate|].
  destruct (le_lit (get b "total") 0) eqn:Hle; [inversion H; subst; discriminate|].
  unfold try_catch, bind, send_put, send_write, ret in H.
  destruct (throws e (PutCommand _)); [inversion H; subst; discriminate|].
  destruct (exec_put st _) as [m|st1] eqn:Hput; [inversion H; subst; discriminate|].
  inversion H; subst. clear H.
  exists b, line, lines. cbv zeta. rewrite Hitems.
  unfold exec_put in Hput. cbn [p_Item p_TableName] in Hput.
  destruct (marshall_error _) eqn:Hm; [discriminate|].
  cbn [key_attr new_order assoc String.eqb Ascii.eqb Bool.eqb] in Hput.
  injection Hput as <-.
  repeat split; try reflexivity; assumption.
Qed.

End OrderCreated.

(** X14: a checkout answered 201 has stored, under the identifier it drew,
    an order of the account of the token, with the lines sent (an array that
    is not empty), the status pending and a finite total; a total sent as a
    number is stored as it is, and is positive. *)
Theorem created_order_is_pending {R : Runtime} (e : env) (ev : event)
  (st st' : store) (r : response) :
  handleCreateOrder e ev st = (Ok r, st') ->
  statusCode r = 201 ->
  exists (order : obj) (b : value) (line : value) (lines : list value) (q : Q),
    parse_body ev st = (Ok b, st) /\
    get (body r) "order" = VObj order /\
    exec_get st' (order_of (uuid e)) = inr (Some order) /\
    prop order "userId" = get (verifyToken ev) "userId" /\
    prop order "items" = VArr (line :: lines) /\
    get b "items" = VArr (line :: lines) /\
    prop order "status" = VStr "pending" /\
    prop order "total" = VNum (Fin q) /\
    (forall n, get b "total" = VNum n -> n = Fin q /\ (0 < q)%Q).
Proof.
  intros Hrun H201.
  destruct (order_created e ev st st' r Hrun H201)
    as [b [line [lines [Huser [Hparse [Hitems [Haddress [Hundef [Hle [Hm [Hst Hr]]]]]]]]]]].
  cbv zeta in Hm, Hst, Hr.
  assert (Htotal : exists q, parseFloat (get b "total") = Fin q).
  { apply marshall_number.
    apply (marshall_field "total" _ _ Hm). reflexivity. }
  destruct Htotal as [q Hq].
  eexists. exists b, line, lines, q.
  split; [exact Hparse|].
  split; [rewrite Hr; reflexivity|].
  split.
  { unfold exec_get, order_of. cbn [g_Key g_TableName marshall_error].
    rewrite Hst, find_upsert by apply has_key_new_order. reflexivity. }
  split; [reflexivity|].
  split; [exact Hitems|]. split; [exact Hitems|].
  split; [reflexivity|].
  split; [cbn; now rewrite Hq|].
  intros n Hn. rewrite Hn in Hq, Hle. cbn in Hq. subst n. split; [reflexivity|].
  unfold le_lit, ToNumber, num_le in Hle.
  apply Qnot_le_lt. intro Hq. apply Qle_bool_iff in Hq. congruence.
Qed.

Lemma created_order_is_pending_witness :
  let e := Reference.calm "o1" "2024-01-05T00:00:00.000Z" in
  let out := @handleCreateOrder Reference.runtime e
               (place_order buyer_token (VNum (Fin (1999 # 100)))) catalog in
  exists (order : obj) (q : Q),
    exec_get (snd out) (order_of "o1") = inr (Some order) /\
    prop order "userId" = VStr "u2" /\
    prop order "status" = VStr "pending" /\
    prop order "total" = VNum (Fin q) /\ (0 < q)%Q.
Proof.
  intros e out.
  destruct (@created_order_is_pending Reference.runtime e
              (place_order buyer_token (VNum (Fin (1999 # 100)))) catalog (snd out)
              (sendResponse 201
                 [("message", VStr "Order created successfully");
                  ("order",
                   VObj (new_order (R := Reference.runtime) e (VStr "u2")
                           (VArr [line_of "i1"]) (VStr "1 Main St")
                           (VNum (Fin (1999 # 100)))))])
              eq_refl eq_refl)
    as [order [b [line [lines [q [Hb [_ [Hget [Huser [_ [_ [Hstatus [Htotal Hpos]]]]]]]]]]]]].
  exists order, q. split; [exact Hget|]. split; [exact Huser|].
  split; [exact Hstatus|]. split; [exact Htotal|].
  injection Hb as <-. now apply (Hpos (Fin (1999 # 100))).
Defined.

(* ===================================================================== *)
(** ** Orders: the total, and the listing *)
(* ===================================================================== *)

Section Checkout.
Context {R : Runtime}.
Variables (e : env) (ev : event) (st : store) (b line : value) (lines : list value).
Hypothesis Huser : truthy (verifyToken ev) = true.
Hypothesis Hbody : event_body ev = Json b.
Hypothesis Hitems : get b "items" = VArr (line :: lines).
Hypothesis Haddress : truthy (get b "shippingAddress") = true.
Hypothesis Hundef : is_undefined (get b "total") = false.
Hypothesis Hle : le_lit (get b "total") 0 = false.

(** A checkout that passes the validation puts the order. *)
Lemma order_is_put :
  let order := new_order e (get (verifyToken ev) "userId") (get b "items")
                 (get b "shippingAddress") (get b "total") in
  handleCreateOrder e ev st
  = match send_put e {| p_TableName := ORDERS_TABLE; p_Item := order |} st with
    | (Ok _, st') =>
        (Ok (sendResponse 201 [("message", VStr "Order created successfully");
                               ("order", VObj order)]), st')
    | (Err _, st') => (Ok (sendResponse 500 (error_body "Failed to create order")), st')
    end.
Proof.
  cbv zeta. unfold handleCreateOrder, parse_body. rewrite Huser, Hbody. cbn [negb].
  unfold bind at 1, ret at 1.
  assert (Hb : destructure b st = (Ok tt, st)).
  { apply (destructure_ok b "items"). rewrite Hitems. discriminate. }
  unfold bind at 1. rewrite Hb.
  rewrite Haddress, Hundef, Hle, Hitems. cbn [truthy negb orb].
  unfold try_catch, bind, ret.
  destruct (send_put e _ st) as [[[]|m] st1]; reflexivity.
Qed.

End Checkout.

(** X15: a total sent as a text that is not a number passes the check of
    the total, whatever number the text starts with: the order is put with
    the number [parseFloat] reads, be it negative. *)
Theorem text_total_is_not_checked {R : Runtime} (e : env) (ev : event) (st : store)
  (b line : value) (lines : list value) (s : string) (q : Q) :
  truthy (verifyToken ev) = true ->
  event_body ev = Json b ->
  get b "items" = VArr (line :: lines) ->
  truthy (get b "shippingAddress") = true ->
  get b "total" = VStr s ->
  StringToNumber s = NaN ->
  parseFloat_string s = Fin q ->
  let order := new_order e (get (verifyToken ev) "userId") (get b "items")
                 (get b "shippingAddress") (get b "total") in
  prop order "total" = VNum (Fin q) /\
  handleCreateOrder e ev st
  = match send_put e {| p_TableName := ORDERS_TABLE; p_Item := order |} st with
    | (Ok _, st') =>
        (Ok (sendResponse 201 [("message", VStr "Order created successfully");
                               ("order", VObj order)]), st')
    | (Err _, st') => (Ok (sendResponse 500 (error_body "Failed to create order")), st')
    end.
Proof.
  intros Huser Hbody Hitems Haddress Htotal Hnan Hparse order. split.
  - subst order. cbn. rewrite Htotal. cbn. now rewrite Hparse.
  - apply (order_is_put e ev st b line lines); try assumption.
    + now rewrite Htotal.
    + rewrite Htotal. unfold le_lit, ToNumber. now rewrite Hnan.
Qed.

Lemma text_total_is_not_checked_witness :
  let e := Reference.calm "o1" "2024-01-05T00:00:00.000Z" in
  let out := @handleCreateOrder Reference.runtime e
               (place_order buyer_token (VStr "-5abc")) catalog in
  (exists r, fst out = Ok r /\ statusCode r = 201) /\
  map (fun order => prop order "total") (snd out ORDERS_TABLE) = [VNum (Fin (-5))].
Proof.
  intros e out.
  destruct (@text_total_is_not_checked Reference.runtime e
              (place_order buyer_token (VStr "-5abc")) catalog
              (order_form (VStr "-5abc")) (line_of "i1") [] "-5abc" (-5)
              eq_refl eq_refl eq_refl eq_refl eq_refl eq_refl eq_refl) as [_ Hrun].
  subst out. rewrite Hrun. split; [eexists; split; reflexivity|reflexivity].
Defined.

(** *** A checkout, then the listing *)





(* ===================================================================== *)
(** ** Catalog items: what is stored, and the listing *)
(* ===================================================================== *)

Lemma has_key_new_item (e : env) (body : value) (priceNum : num) :
  has_key [("id", VStr (uuid e))] (new_item e body priceNum) = true.
Proof. unfold has_key, attr_is, new_item. cbn. now rewrite String.eqb_refl. Qed.

Section ItemCreated.
Context {R : Runtime}.
Variables (e : env) (ev : event) (st st' : store) (r : response).
Hypothesis Hrun : handleAddItem e ev st = (Ok r, st').
Hypothesis H201 : statusCode r = 201.

(** What an addition answered 201 has done. *)
Lemma item_created :
  exists (b : value) (q : Q),
    let item := new_item e b (Fin q) in
    parse_body ev st = (Ok b, st) /\
    truthy (get b "name") = true /\ truthy (get b "description") = true /\
    truthy (get b "category") = true /\ truthy (get b "storeId") = true /\
    parseFloat (get b "price") = Fin q /\ (0 <= q)%Q /\
    marshall_error (VObj item) = None /\
    st' ITEMS_TABLE
      = upsert (has_key [("id", VStr (uuid e))]) (fun _ => item) (st ITEMS_TABLE) /\
    r = sendResponse 201 [("message", VStr "Item added successfully");
                          ("item", VObj item)].
Proof.
  revert Hrun. unfold handleAddItem. intro H.
  unfold bind at 1 in H.
  pose proof (quiet_parse_body ev st) as Hq.
  destruct (parse_body ev st) as [[b|m] st0] eqn:Hparse; simpl in Hq; subst st0;
    [|discriminate].
  unfold bind at 1 in H.
  pose proof (quiet_destructure b st) as Hq.
  destruct (destructure b st) as [[[]|m] st0]; simpl in Hq; subst st0;
    [|discriminate].
  destruct (truthy (get b "name")) eqn:Hname; cbn [negb orb] in H;
    [|inversion H; subst; discriminate].
  destruct (truthy (get b "description")) eqn:Hdescription; cbn [negb orb] in H;
    [|inversion H; subst; discriminate].
  destruct (is_undefined (get b "price")) eqn:Hprice; cbn [negb orb] in H;
    [inversion H; subst; discriminate|].
  destruct (truthy (get b "category")) eqn:Hcategory; cbn [negb orb] in H;
    [|inversion H; subst; discriminate].
  destruct (truthy (get b "storeId")) eqn:HstoreId; cbn [negb orb] in H;
    [|inversion H; subst; discriminate].
  destruct (isNaN (parseFloat (get b "price"))
            || num_lt (parseFloat (get b "price")) (Fin 0)) eqn:Hvalid;
    [inversion H; subst; discriminate|].
  unfold try_catch, bind, send_put, send_write, ret in H.
  destruct (throws e (PutCommand _)); [inversion H; subst; discriminate|].
  destruct (exec_put st _) as [m|st1] eqn:Hput; [inversion H; subst; discriminate|].
  inversion H; subst. clear H.
  unfold exec_put in Hput. cbn [p_Item p_TableName] in Hput.
  destruct (marshall_error _) eqn:Hm; [discriminate|].
  cbn [key_attr new_item assoc String.eqb Ascii.eqb Bool.eqb] in Hput.
  injection Hput as <-.
  destruct (marshall_number (parseFloat (get b "price"))) as [q Hq].
  { apply (marshall_field "price" _ _ Hm). reflexivity. }
  exists b, q. cbv zeta. rewrite <- Hq.
  repeat split; try reflexivity; try assumption.
  rewrite Hq in Hvalid. cbn in Hvalid.
  apply negb_false_iff in Hvalid. now apply Qle_bool_iff.
Qed.

End ItemCreated.

(** X17: an item added (201) is stored under the identifier drawn with a
    price that is a finite number, not negative, an average rating of 0 and
    no review, whatever the request. *)
Theorem added_item_is_priced {R : Runtime} (e : env) (ev : event) (st st' : store)
  (r : response) :
  handleAddItem e ev st = (Ok r, st') ->
  statusCode r = 201 ->
  exists (item : obj) (q : Q),
    get (body r) "item" = VObj item /\
    exec_get st' (item_of (VStr (uuid e))) = inr (Some item) /\
    prop item "price" = VNum (Fin q) /\ (0 <= q)%Q /\
    prop item "averageRating" = VNum (Fin 0) /\
    prop item "reviews" = VArr [].
Proof.
  intros Hrun H201.
  destruct (item_created e ev st st' r Hrun H201)
    as [b [q [_ [_ [_ [_ [_ [_ [Hq [_ [Hst Hr]]]]]]]]]]].
  cbv zeta in Hst, Hr.
  exists (new_item e b (Fin q)), q.
  split; [rewrite Hr; reflexivity|].
  split.
  { unfold exec_get, item_of. cbn [g_Key g_TableName marshall_error].
    rewrite Hst, find_upsert by apply has_key_new_item. reflexivity. }
  repeat split; try reflexivity. exact Hq.
Qed.

Lemma added_item_is_priced_witness :
  let e := Reference.calm "i2" "2024-01-03T00:00:00.000Z" in
  let out := @handleAddItem Reference.runtime e (add_item (VStr "19.99 dollars")) catalog in
  exists (item : obj) (q : Q),
    exec_get (snd out) (item_of (VStr "i2")) = inr (Some item) /\
    prop item "price" = VNum (Fin q) /\ (q == 1999 # 100)%Q.
Proof.
  intros e out.
  destruct (@added_item_is_priced Reference.runtime e (add_item (VStr "19.99 dollars"))
              catalog (snd out)
              (sendResponse 201
                 [("message", VStr "Item added successfully");
                  ("item",
                   VObj (new_item e (item_form (VStr "19.99 dollars"))
                           (parseFloat (R := Reference.runtime) (VStr "19.99 dollars"))))])
              eq_refl eq_refl)
    as [item [q [Hbody [Hget [Hprice _]]]]].
  exists item, q. split; [exact Hget|]. split; [exact Hprice|].
  cbn in Hbody. injection Hbody as <-. cbn in Hprice.
  injection Hprice as <-. reflexivity.
Defined.



(* ===================================================================== *)
(** ** Reviews: a second review *)
(* ===================================================================== *)

(** *** A second review of the same item *)

Section ReviewCreated.
Context {R : Runtime}.
Variables (e : env) (ev : event) (st st' : store) (r : response).
Hypothesis Hrun : handleCreateReview e ev st = (Ok r, st').
Hypothesis H201 : statusCode r = 201.


End ReviewCreated.




(* ===================================================================== *)
(** ** Reviews: the order of a listing *)
(* ===================================================================== *)

(** *** The order of a listing of reviews *)



Section Sorting.
Context {R : Runtime}.





End Sorting.



(* ===================================================================== *)
(** ** The sample items function *)
(* ===================================================================== *)

(** X21: the sample items function, on a table keyed by [id]: a POST whose
    body has a text [id] and a [name] puts the item and answers 200; a GET
    with that [id] then answers 200 with the item. *)
Theorem sample_item_round_trip (e1 e2 : env) (TABLE_NAME : table)
  (missing_body : string) (ev1 ev2 : event) (st : store) (b name : value)
  (id : string) :
  key_attr TABLE_NAME = "id" ->
  httpMethod ev1 = Some "POST" ->
  event_body ev1 = Json b ->
  get b "id" = VStr id -> get b "name" = name -> marshall_error name = None ->
  throws e1 (PutCommand {| p_TableName := TABLE_NAME;
                           p_Item := sample_item e1 (VStr id) name |}) = None ->
  first_truthy [httpMethod ev2] "GET" = "GET" ->
  query_param ev2 "id" = Some id ->
  throws e2 (GetCommand (sample_key TABLE_NAME ev2)) = None ->
  let item := sample_item e1 (VStr id) name in
  exists st1 : store,
    sample_handler e1 TABLE_NAME missing_body ev1 st
    = (Ok (plain_response 200 [("message", VStr "Item added"); ("item", VObj item)]),
       st1) /\
    sample_handler e2 TABLE_NAME missing_body ev2 st1
    = (Ok (plain_response 200 item), st1).
Proof.
  intros Hkey Hpost Hbody Hid Hname Hm Hput Hget Hparam Hthrows item. subst item.
  assert (Hmember : forall k, member b k = ret (get b k)).
  { intro k. destruct b; try reflexivity; discriminate Hid. }
  eexists. split.
  - unfold sample_handler. rewrite Hpost. cbn [first_truthy String.eqb Ascii.eqb Bool.eqb].
    unfold try_catch, bind at 1, parse_sample_body. rewrite Hbody. unfold ret at 1.
    unfold bind at 1. rewrite Hmember. unfold ret at 1.
    unfold bind at 1. rewrite Hmember. unfold ret at 1.
    rewrite Hid, Hname.
    unfold bind, send_put, send_write. rewrite Hput.
    unfold exec_put. cbn [p_Item p_TableName].
    assert (Hitem : marshall_error (VObj (sample_item e1 (VStr id) name)) = None)
      by (cbn; now rewrite Hm).
    rewrite Hitem, Hkey. cbn [assoc sample_item String.eqb Ascii.eqb Bool.eqb].
    reflexivity.
  - unfold sample_handler. rewrite Hget. cbn [String.eqb Ascii.eqb Bool.eqb].
    unfold try_catch, bind, send_get, send_read. rewrite Hthrows.
    unfold exec_get, sample_key. cbn [g_Key g_TableName]. rewrite Hparam.
    cbn [marshall_error]. unfold write_table.
    replace (table_eqb TABLE_NAME TABLE_NAME) with true by (now destruct TABLE_NAME).
    rewrite find_upsert; [reflexivity|].
    unfold has_key, attr_is. cbn. now rewrite String.eqb_refl.
Qed.

Lemma sample_item_round_trip_witness :
  let e1 := Reference.calm "x" "2024-01-01T00:00:00.000Z" in
  let post := sample_post (Json (VObj [("id", VStr "1"); ("name", VStr "Book")])) in
  let st1 := snd (sample_handler e1 ITEMS_TABLE "Unexpected end of JSON input" post
                    Reference.empty_store) in
  sample_handler e1 ITEMS_TABLE "Unexpected end of JSON input" (sample_get "1") st1
  = (Ok (plain_response 200 [("id", VStr "1"); ("name", VStr "Book");
                             ("createdAt", VStr "2024-01-01T00:00:00.000Z")]), st1).
Proof.
  intros e1 post st1.
  destruct (sample_item_round_trip e1 e1 ITEMS_TABLE "Unexpected end of JSON input"
              post (sample_get "1") Reference.empty_store
              (VObj [("id", VStr "1"); ("name", VStr "Book")]) (VStr "Book") "1"
              eq_refl eq_refl eq_refl eq_refl eq_refl eq_refl eq_refl eq_refl eq_refl
              eq_refl) as [st2 [Hpost Hget]].
  subst st1. rewrite Hpost. exact Hget.
Defined.

(** X22: the sample items function answers a GET for an [id] that no
    record has with 200 and the message Item not found, and a GET without
    [id] with 500. *)
Theorem sample_lookup_has_no_404 (e : env) (TABLE_NAME : table)
  (missing_body : string) (ev : event) (st : store) :
  key_attr TABLE_NAME = "id" ->
  first_truthy [httpMethod ev] "GET" = "GET" ->
  (forall id,
     query_param ev "id" = Some id ->
     throws e (GetCommand (sample_key TABLE_NAME ev)) = None ->
     existsb (attr_is "id" (VStr id)) (st TABLE_NAME) = false ->
     sample_handler e TABLE_NAME missing_body ev st
     = (Ok (plain_response 200 [("message", VStr "Item not found")]), st)) /\
  (query_param ev "id" = None ->
   exists message,
     sample_handler e TABLE_NAME missing_body ev st
     = (Ok (plain_response 500 [("message", VStr message)]), st)).
Proof.
  intros _ Hget. unfold sample_handler. rewrite Hget. cbn [String.eqb Ascii.eqb Bool.eqb].
  unfold try_catch, bind, send_get, send_read. split.
  - intros id Hparam Hthrows Hnone. rewrite Hthrows.
    unfold exec_get, sample_key. cbn [g_Key g_TableName]. rewrite Hparam.
    cbn [marshall_error].
    replace (find _ _) with (@None obj); [reflexivity|].
    symmetry. induction (st TABLE_NAME) as [|r rows IH]; [reflexivity|].
    cbn [existsb] in Hnone. apply orb_false_elim in Hnone. destruct Hnone as [Hr Hrows].
    cbn [find has_key forallb fst snd]. rewrite Hr. cbn [andb]. now apply IH.
  - intro Hparam. destruct (throws e _); [eexists; reflexivity|].
    unfold exec_get, sample_key. cbn [g_Key g_TableName]. rewrite Hparam.
    eexists; reflexivity.
Qed.

Lemma sample_lookup_has_no_404_witness :
  sample_handler (Reference.calm "x" "t") ITEMS_TABLE "Unexpected end of JSON input"
    (sample_get "i9") catalog
  = (Ok (plain_response 200 [("message", VStr "Item not found")]), catalog).
Proof.
  apply (proj1 (sample_lookup_has_no_404 (Reference.calm "x" "t") ITEMS_TABLE
                  "Unexpected end of JSON input" (sample_get "i9") catalog eq_refl
                  eq_refl)
           "i9");
    reflexivity.
Defined.



(* ===================================================================== *)
(** ** Bodies that are not what the handlers expect *)
(* ===================================================================== *)

Section Malformed.
Context {R : Runtime}.
Variables (e : env) (ev : event) (st : store) (message : string).
Hypothesis Hbody : event_body ev = BadJson message.

Lemma malformed_register :
  try_catch (handleRegister e ev) internal_error st = (Ok (failure message), st).
Proof. unfold try_catch, handleRegister, bind, parse_body. now rewrite Hbody. Qed.

Lemma malformed_login :
  try_catch (handleLogin e ev) internal_error st = (Ok (failure message), st).
Proof. unfold try_catch, handleLogin, bind, parse_body. now rewrite Hbody. Qed.

Lemma malformed_item :
  try_catch (handleAddItem e ev) internal_error st = (Ok (failure message), st).
Proof. unfold try_catch, handleAddItem, bind, parse_body. now rewrite Hbody. Qed.

Lemma malformed_review :
  truthy (verifyToken ev) = true ->
  try_catch (handleCreateReview e ev) internal_error st = (Ok (failure message), st).
Proof.
  intro H. unfold try_catch, handleCreateReview, bind, parse_body.
  now rewrite H, Hbody.
Qed.

Lemma malformed_order :
  truthy (verifyToken ev) = true ->
  try_catch (handleCreateOrder e ev) internal_error st = (Ok (failure message), st).
Proof.
  intro H. unfold try_catch, handleCreateOrder, bind, parse_body.
  now rewrite H, Hbody.
Qed.

Lemma malformed_storefront :
  truthy (verifyToken ev) = true ->
  is_string (get (verifyToken ev) "role") "seller" = true ->
  try_catch (handleCreateStorefront e ev) internal_error st = (Ok (failure message), st).
Proof.
  intros H1 H2. unfold try_catch, handleCreateStorefront, bind, parse_body.
  now rewrite H1, H2, Hbody.
Qed.

End Malformed.

(** X24: a request that is routed to an operation that reads a body, and
    that the operation admits, is answered 500 with the message of the
    parser when its body is not JSON; the store is unchanged. *)
Theorem malformed_body_answers_500 {R : Runtime} (f : lambda) (e : env) (ev : event)
  (st : store) (message : string) :
  event_body ev = BadJson message ->
  reads_body f ev ->
  admitted f ev ->
  entry f e ev st = (Ok (failure message), st).
Proof.
  intros Hbody Hroute Hadmitted. destruct f; cbn [entry reads_body admitted] in *.
  - destruct Hroute as [Hmethod Hpath]. unfold method_of in Hmethod.
    assert (Hnot : first_truthy [httpMethod ev; requestContext_httpMethod ev] EmptyString
                   <> "OPTIONS").
    { apply String.eqb_neq. now apply (not_preflight _ _ eq_refl). }
    destruct (users_handler_routes e ev st Hnot) as [Hregister [Hlogin _]].
    destruct (includes (accounts_path ev) "/auth/register") eqn:Hr.
    + rewrite Hregister by reflexivity. now apply malformed_register.
    + destruct Hpath as [Hp|Hp]; [discriminate|].
      rewrite Hlogin by auto. now apply malformed_login.
  - destruct Hroute as [Hmethod Hpath], Hadmitted as [Huser Hrole].
    unfold method_of in Hmethod. unfold storefronts_path in Hpath.
    unfold storefronts_handler.
    rewrite (not_preflight _ _ Hmethod) by discriminate.
    cbv zeta. rewrite Hmethod, Hpath. cbn [String.eqb Ascii.eqb Bool.eqb andb].
    rewrite orb_true_r. now apply malformed_storefront.
  - unfold method_of in Hroute. unfold items_handler.
    rewrite (not_preflight _ _ Hroute) by discriminate.
    cbv zeta. rewrite Hroute. cbn [String.eqb Ascii.eqb Bool.eqb].
    now apply malformed_item.
  - unfold method_of in Hroute. unfold reviews_handler.
    rewrite (not_preflight _ _ Hroute) by discriminate.
    cbv zeta. rewrite Hroute. cbn [String.eqb Ascii.eqb Bool.eqb].
    now apply malformed_review.
  - unfold method_of in Hroute. unfold orders_handler.
    rewrite (not_preflight _ _ Hroute) by discriminate.
    cbv zeta. rewrite Hroute. cbn [String.eqb Ascii.eqb Bool.eqb].
    now apply malformed_order.
Qed.

Lemma malformed_body_answers_500_witness :
  let e := Reference.calm "x" "t" in
  let ev := Reference.request "POST" "/items" None None
              (BadJson "Unexpected token } in JSON at position 1") in
  @entry Reference.runtime Items e ev catalog
  = (Ok (failure "Unexpected token } in JSON at position 1"), catalog).
Proof.
  intros e ev.
  apply (@malformed_body_answers_500 Reference.runtime Items e ev catalog); reflexivity.
Defined.

(** X25: fields that must be texts are not checked to be texts.  A
    registration that passes the validation with an email that is not a
    text is answered 500; so is a login with such an email (Login failed),
    and a review whose comment is not a text.  The store is unchanged. *)
Theorem text_fields_are_not_type_checked {R : Runtime} (e : env) (ev : event)
  (st : store) (b : value) :
  event_body ev = Json b ->
  (valid_registration b = true -> is_text (get b "email") = false ->
   exists message,
     try_catch (handleRegister e ev) internal_error st = (Ok (failure message), st)) /\
  (truthy (get b "email") = true -> truthy (get b "password") = true ->
   is_text (get b "email") = false ->
   handleLogin e ev st = (Ok (sendResponse 500 (error_body "Login failed")), st)) /\
  (truthy (verifyToken ev) = true ->
   truthy (get b "itemId") = true ->
   is_undefined (get b "rating") || lt_lit (get b "rating") 1
     || gt_lit (get b "rating") 5 = false ->
   truthy (get b "comment") = true -> is_text (get b "comment") = false ->
   try_catch (handleCreateReview e ev) internal_error st
   = (Ok (failure "comment.trim is not a function"), st)).
Proof.
  intro Hbody. split; [|split].
  - intros Hvalid Hemail. unfold valid_registration in Hvalid.
    apply andb_prop in Hvalid. destruct Hvalid as [Hvalid Hlength].
    apply andb_prop in Hvalid. destruct Hvalid as [Hvalid Hrole].
    apply andb_prop in Hvalid. destruct Hvalid as [Hvalid Htrole].
    apply andb_prop in Hvalid. destruct Hvalid as [Hvalid Hpassword].
    apply andb_prop in Hvalid. destruct Hvalid as [Hname Htemail].
    apply negb_true_iff in Hlength.
    unfold try_catch at 1, handleRegister, parse_body. rewrite Hbody.
    unfold bind at 1, ret at 1.
    assert (Hb : destructure b st = (Ok tt, st)).
    { apply (destructure_ok b "email"). intro H. rewrite H in Htemail. discriminate. }
    unfold bind at 1. rewrite Hb.
    rewrite Hname, Htemail, Hpassword, Htrole, Hrole, Hlength. cbn [negb orb].
    assert (Hlower : forall st', call_toLowerCase "email" (get b "email") st'
                                 = (Err "email.toLowerCase is not a function", st')).
    { intro st'. destruct (get b "email"); try reflexivity. discriminate Hemail. }
    unfold bind at 1, try_catch at 1, bind at 1. rewrite Hlower. unfold ret at 1.
    unfold bind at 1, call_bcrypt_hash.
    destruct (get b "password"); try (eexists; reflexivity).
    unfold ret at 1. unfold bind at 1. rewrite Hlower. eexists; reflexivity.
  - intros Htemail Hpassword Hemail.
    unfold handleLogin, parse_body. rewrite Hbody.
    unfold bind at 1, ret at 1.
    assert (Hb : destructure b st = (Ok tt, st)).
    { apply (destructure_ok b "email"). intro H. rewrite H in Htemail. discriminate. }
    unfold bind at 1. rewrite Hb.
    rewrite Htemail, Hpassword. cbn [negb orb].
    unfold try_catch, bind, call_toLowerCase.
    destruct (get b "email"); try reflexivity. discriminate Hemail.
  - intros Huser Hitem Hrating Htcomment Hcomment.
    unfold try_catch at 1, handleCreateReview, parse_body. rewrite Huser, Hbody.
    cbn [negb]. unfold bind at 1, ret at 1.
    assert (Hb : destructure b st = (Ok tt, st)).
    { apply (destructure_ok b "comment"). intro H. rewrite H in Htcomment. discriminate. }
    unfold bind at 1. rewrite Hb.
    rewrite Hitem, Hrating, Htcomment. cbn [negb].
    unfold bind, call_trim.
    destruct (get b "comment"); try reflexivity. discriminate Hcomment.
Qed.

Lemma text_fields_are_not_type_checked_witness :
  let e := Reference.calm "rv1" "2024-01-04T00:00:00.000Z" in
  let b := VObj [("itemId", VStr "i1"); ("rating", VNum (Fin 4));
                 ("comment", VNum (Fin 5))] in
  let ev := Reference.request "POST" "/reviews" (Some ("Bearer " ++ buyer_token)) None
              (Json b) in
  try_catch (@handleCreateReview Reference.runtime e ev) internal_error catalog
  = (Ok (failure "comment.trim is not a function"), catalog).
Proof.
  intros e b ev.
  apply (@text_fields_are_not_type_checked Reference.runtime e ev catalog b eq_refl);
    reflexivity.
Defined.

(* ===================================================================== *)
(** ** The lines of an order, and preflights *)
(* ===================================================================== *)

(** *** The lines of an order *)

Section Enrichment.
Context {R : Runtime}.
Variable e : env.





End Enrichment.



(** *** Preflight *)

Lemma options_is_preflight (l : list (option string)) :
  first_truthy l "GET" = "OPTIONS" ->
  String.eqb (first_truthy l EmptyString) "OPTIONS" = true.
Proof.
  rewrite first_truthy_default.
  destruct (String.eqb (first_truthy l EmptyString) EmptyString); [discriminate|].
  intros ->. reflexivity.
Qed.

(** X27: a request whose method resolves to OPTIONS is answered 200 as a
    preflight, whatever its path, headers and body, and whatever the client
    would fail. *)
Theorem preflight_is_unconditional {R : Runtime} (f : lambda) (e : env) (ev : event)
  (st : store) :
  method_of f ev = "OPTIONS" -> entry f e ev st = (Ok preflight, st).
Proof.
  unfold method_of. destruct f; cbn [entry]; intro H;
    [unfold users_handler|unfold storefronts_handler|unfold items_handler
    |unfold reviews_handler|unfold orders_handler];
    now rewrite (options_is_preflight _ H).
Qed.

Lemma preflight_is_unconditional_witness :
  @entry Reference.runtime Orders updates_fail
    (Reference.request "OPTIONS" "/orders" None None (BadJson "Unexpected token"))
    catalog
  = (Ok preflight, catalog).
Proof.
  apply (@preflight_is_unconditional Reference.runtime Orders). reflexivity.
Defined.

(* ===================================================================== *)
(** ** From a registration to a storefront *)
(* ===================================================================== *)

Lemma marshall_prop (o : obj) (k : string) :
  marshall_error (VObj o) = None -> prop o k <> VUndefined ->
  marshall_error (prop o k) = None.
Proof.
  unfold prop. intros Hm Hk. destruct (assoc k o) as [v|] eqn:Ha; [|now elim Hk].
  exact (marshall_field k v o Hm Ha).
Qed.

Lemma marshall_truthy (b : value) (k : string) :
  marshall_error b = None -> truthy (get b k) = true ->
  marshall_error (get b k) = None.
Proof.
  intros Hm Hk. destruct b; try discriminate Hk.
  apply marshall_prop; [exact Hm|]. intro H. cbn [get] in Hk. now rewrite H in Hk.
Qed.

(** X28: an account registered as a seller (201) that creates a storefront
    with the token of the registration, a body that holds a name, a
    description and a category, while the client fails no command, is
    answered 201.  The storefront is stored with the account's identifier as
    owner and its email as owner name, and the account is the registered
    one with [hasStorefront] true. *)
Theorem seller_opens_a_storefront {R : Runtime} {L : RuntimeLaws R} (e1 e2 : env)
  (ev1 ev2 : event) (st st1 : store) (r1 : response) (b1 b2 : value)
  (token : string) :
  event_body ev1 = Json b1 ->
  handleRegister e1 ev1 st = (Ok r1, st1) ->
  statusCode r1 = 201 ->
  get b1 "role" = VStr "seller" ->
  get (body r1) "token" = VStr token ->
  authorization ev2 = "Bearer " ++ token ->
  event_body ev2 = Json b2 ->
  marshall_error b2 = None ->
  truthy (get b2 "name") = true -> truthy (get b2 "description") = true ->
  truthy (get b2 "category") = true ->
  answered e2 ->
  exists (r2 : response) (st2 : store) (storefront account : obj),
    handleCreateStorefront e2 ev2 st1 = (Ok r2, st2) /\
    statusCode r2 = 201 /\
    get (body r2) "storefront" = VObj storefront /\
    prop storefront "owner" = get (get (body r1) "user") "userId" /\
    prop storefront "ownerName" = get (get (body r1) "user") "email" /\
    exec_get st2 (storefront_of (uuid e2)) = inr (Some storefront) /\
    exec_get st2 (account_of (VStr (uuid e1))) = inr (Some account) /\
    prop account "hasStorefront" = VBool true /\
    VObj (omit "password" account)
    = VObj (set "hasStorefront" (VBool true)
              (spread (get (body r1) "user"))).
Proof.
  intros Hbody1 Hrun H201 Hrole Htoken Hauth Hbody2 Hm Hname Hdescription Hcategory
    Hanswered.
  destruct (register_created e1 ev1 st st1 r1 b1 Hbody1 Hrun H201)
    as [email [password [Hemail [Hpassword [_ [Hst [Hr _]]]]]]].
  cbv zeta in Hst, Hr. rewrite Hrole in Hst, Hr.
  assert (Hsigned : token = jwt_sign [("userId", VStr (uuid e1));
                                      ("email", VStr (toLowerCase email));
                                      ("role", VStr "seller")]).
  { rewrite Hr in Htoken. cbn in Htoken. now injection Htoken as <-. }
  destruct (jwt_verify_sign (uuid e1) (toLowerCase email) "seller")
    as [decoded [Hverify [Huser [Hdemail Hdrole]]]].
  rewrite <- Hsigned in Hverify.
  assert (Hdecoded : verifyToken ev2 = decoded).
  { unfold verifyToken. fold (authorization ev2). rewrite Hauth.
    cbn [append]. unfold startsWith.
    change (String "B" (String "e" (String "a" (String "r" (String "e"
              (String "r" (String " " token)))))))
      with ("Bearer " ++ token).
    rewrite prefix_append.
    change (substring_from 7 ("Bearer " ++ token)) with token.
    now rewrite Hverify. }
  assert (Htruthy : truthy decoded = true)
    by (destruct decoded; try discriminate Huser; reflexivity).
  set (storefront := new_storefront e2 decoded b2).
  set (user := new_user e1 (toLowerCase email) (get b1 "name")
                 (bcrypt_hash password (if production e1 then 10%nat else 4%nat)
                    (salt e1)) (VStr "seller")) in *.
  assert (Hmarshall : marshall_error (VObj storefront) = None).
  { subst storefront. unfold new_storefront. rewrite Huser, Hdemail.
    cbn [marshall_error].
    rewrite (marshall_truthy b2 "name" Hm Hname),
      (marshall_truthy b2 "description" Hm Hdescription),
      (marshall_truthy b2 "category" Hm Hcategory).
    destruct (truthy (get b2 "image")) eqn:Himage; [|reflexivity].
    now rewrite (marshall_truthy b2 "image" Hm Himage). }
  assert (Hfind : find (has_key [("userId", VStr (uuid e1))]) (st1 USERS_TABLE)
                  = Some user).
  { rewrite Hst. apply find_upsert, has_key_new_user. }
  eexists. eexists. exists storefront. eexists.
  split.
  { unfold handleCreateStorefront. rewrite Hdecoded, Htruthy, Hdrole.
    cbn [negb is_string String.eqb Ascii.eqb Bool.eqb].
    unfold bind at 1, parse_body. rewrite Hbody2. unfold ret at 1.
    assert (Hb : destructure b2 st1 = (Ok tt, st1)).
    { apply (destructure_ok b2 "name"). intro H. rewrite H in Hname. discriminate. }
    unfold bind at 1. rewrite Hb.
    rewrite Hname, Hdescription, Hcategory. cbn [negb orb].
    fold storefront.
    unfold try_catch, bind, send_put, send_update, send_write.
    rewrite !Hanswered.
    unfold exec_put. cbn [p_Item p_TableName]. rewrite Hmarshall.
    cbn [key_attr storefront new_storefront assoc String.eqb Ascii.eqb Bool.eqb].
    unfold exec_update. cbn [u_Key u_TableName u_SET u_ExpressionAttributeValues
      mark_hasStorefront marshall_error]. rewrite Huser.
    cbn [marshall_error assoc String.eqb Ascii.eqb Bool.eqb snd fst].
    reflexivity. }
  split; [reflexivity|]. split; [reflexivity|].
  split; [rewrite Hr; subst storefront; cbn; exact Huser|].
  split; [rewrite Hr; subst storefront; cbn; exact Hdemail|].
  split.
  { unfold exec_get, storefront_of. cbn [g_Key g_TableName marshall_error].
    unfold write_table. cbn [table_eqb].
    rewrite find_upsert; [reflexivity|apply has_key_new_storefront]. }
  assert (Hsame : has_key [("userId", VStr (uuid e1))]
                    (set "hasStorefront" (VBool true) user) = true).
  { unfold has_key, attr_is. cbn. now rewrite String.eqb_refl. }
  split.
  { unfold exec_get, account_of. cbn [g_Key g_TableName marshall_error].
    unfold write_table. cbn [table_eqb].
    rewrite find_upsert_change; rewrite Hfind; [reflexivity|exact Hsame]. }
  split; [reflexivity|].
  rewrite Hr. reflexivity.
Qed.

Lemma seller_opens_a_storefront_witness :
  let e2 := Reference.calm "s1" "2024-01-02T00:00:00.000Z" in
  let ev2 := create_shop (token_of alice_registered) in
  exists (r2 : response) (st2 : store) (account : obj),
    @handleCreateStorefront Reference.runtime e2 ev2 (snd alice_registered) = (Ok r2, st2) /\
    statusCode r2 = 201 /\
    exec_get st2 (account_of (VStr "u1")) = inr (Some account) /\
    prop account "hasStorefront" = VBool true.
Proof.
  intros e2 ev2.
  destruct (@seller_opens_a_storefront Reference.runtime reference_laws
              (Reference.calm "u1" "2024-01-01T00:00:00.000Z") e2 register_alice ev2
              Reference.empty_store (snd alice_registered)
              (sendResponse 201
                 [("message", VStr "User created successfully");
                  ("user",
                   VObj [("userId", VStr "u1"); ("email", VStr "alice@example.com");
                         ("name", VStr "Alice"); ("role", VStr "seller");
                         ("hasStorefront", VBool false);
                         ("createdAt", VStr "2024-01-01T00:00:00.000Z")]);
                  ("token", VStr seller_token)])
              alice_form shop_form (token_of alice_registered))
    as [r2 [st2 [storefront [account [Hrun [H201 [_ [_ [_ [_ [Hget [Hflag _]]]]]]]]]]]];
    try reflexivity.
  - intro c. reflexivity.
  - exists r2, st2, account. repeat split; assumption.
Defined.

(* ===================================================================== *)
(** ** The first review of an item *)
(* ===================================================================== *)

(** *** The first review of an item *)

Section Listing.
Context {R : Runtime}.
Variables (e : env) (ev : event) (st : store) (itemId : string) (item : obj).
Hypothesis Hparam : query_param ev "itemId" = Some itemId.
Hypothesis Hid : itemId <> EmptyString.
Hypothesis Hthrows : throws e (GetCommand (item_of (VStr itemId))) = None.
Hypothesis Hitem : exec_get st (item_of (VStr itemId)) = inr (Some item).
Hypothesis Hanswered :
  throws e (QueryCommand (getReviews_query (VStr itemId))) = None \/
  throws e (ScanCommand (getReviews_scan (VStr itemId))) = None.


End Listing.

Lemma has_key_new_review {R : Runtime} (e : env) (itemId userId rating : value)
  (trimmed : string) :
  has_key [("reviewId", VStr (uuid e))] (new_review e itemId userId rating trimmed)
  = true.
Proof. unfold has_key, attr_is, new_review. cbn. now rewrite String.eqb_refl. Qed.




(* ===================================================================== *)
(** ** Storefronts: the listings *)
(* ===================================================================== *)


